(** * Order fulfilment automation: reconciliation core

    A shallow embedding of the TypeScript sources of the fulfilment
    automation (Vendure admin client, Printify request builders, the batch
    runners and the Printify webhook handlers) together with the properties
    of its natural-language specification.

    Source files and the modules that embed them:
    - src/unnamed/part_000, the Vendure admin client ([VendureClient],
      [getOutstandingFulfillmentLines]) and the Telegram reporter;
    - src/unnamed/part_001, the batch job [runFulfillOrders]
      ([Job.buildPrintifyLineItems], [Job.fulfillOrder]);
    - src/unnamed/part_002, the webhook job [handlePrintifyWebhook]
      ([Job.mapEventToState], [Job.verifySignature]);
    - src/unnamed/part_004, the batch endpoint ([Api.buildPrintifyLineItems],
      [Api.fulfillHandler], the [handler] of the source);
    - src/unnamed/part_005, the webhook endpoint ([Api.verifySignature],
      [Api.transitionFulfillments], [Api.webhookHandler], the [handler] of
      the source);
    - src/src/lib/printify-client.ts ([PrintifyClient]) and src/src/config.ts
      ([AutomationConfig]).

    Conventions.  JavaScript strings are modelled by [string], read as the
    UTF-8 bytes of the text; numbers that the code only uses as quantities
    and counters are modelled by [Z]; [undefined]/[null] by [None]; a plain
    object used as a dictionary by the [gmap] of its own properties, looked
    up through [property], which also finds the members it inherits from
    [Object.prototype]; the result of [JSON.parse] by [Parsed], which tells
    a text that does not parse from one that parses to [null]. *)

From Stdlib Require Import ZArith List Ascii String Bool Lia.
From Stdlib Require Import Init.Byte Strings.Byte.
From stdpp Require Import gmap strings list pretty.
Import ListNotations.

Local Open Scope string_scope.
Local Open Scope list_scope.
Local Open Scope Z_scope.

(* ===================================================================== *)
(** ** JavaScript string helpers *)
(* ===================================================================== *)

(** Truthiness of a string value: the empty string is falsy. *)
Definition truthy_str (s : string) : bool :=
  match s with EmptyString => false | _ => true end.

(** Truthiness of an optional string ([undefined], [null] and [''] are
    falsy). *)
Definition truthy (o : option string) : bool :=
  match o with Some s => truthy_str s | None => false end.

(** [a ?? b] *)
Definition nullish {A} (a : option A) (b : A) : A :=
  match a with Some x => x | None => b end.

(** [a || b] on optional strings with a string default. *)
Definition or_else (a : option string) (b : string) : string :=
  match a with
  | Some s => if truthy_str s then s else b
  | None => b
  end.

(** [a || b] where both sides may be undefined. *)
Definition or_opt (a b : option string) : option string :=
  if truthy a then a else b.

Definition is_upper (c : ascii) : bool :=
  let n := nat_of_ascii c in ((65 <=? n) && (n <=? 90))%nat.

(** ASCII lower-casing; bytes outside [A-Z] are left alone.  None of the
    needles the code searches for after [toLowerCase()] is affected by the
    non-ASCII case mappings of JavaScript. *)
Definition lower_ascii (c : ascii) : ascii :=
  if is_upper c then ascii_of_nat (nat_of_ascii c + 32) else c.

Fixpoint toLowerCase (s : string) : string :=
  match s with
  | EmptyString => EmptyString
  | String c r => String (lower_ascii c) (toLowerCase r)
  end.

Fixpoint startsWith (p s : string) : bool :=
  match p, s with
  | EmptyString, _ => true
  | String a p', String b s' => Ascii.eqb a b && startsWith p' s'
  | String _ _, EmptyString => false
  end.

(** [s.includes(needle)] *)
Fixpoint includes (needle s : string) : bool :=
  startsWith needle s ||
  match s with
  | EmptyString => false
  | String _ r => includes needle r
  end.

(** [/pat/i.test(s)] for a pattern made of ASCII letters and underscores
    only: a case-insensitive substring search.  Without the [u] flag the
    case folding of a JavaScript regular expression never identifies a
    non-ASCII character with an ASCII one, so folding the ASCII range is
    exact here. *)
Definition regex_test_i (pat s : string) : bool :=
  includes (toLowerCase pat) (toLowerCase s).

(** [parts.filter(Boolean).join(sep)] on a list of optional strings. *)
Definition filter_Boolean (parts : list (option string)) : list string :=
  omap (fun p => if truthy p then p else None) parts.

Fixpoint join (sep : string) (parts : list string) : string :=
  match parts with
  | [] => ""
  | [p] => p
  | p :: rest => p +:+ sep +:+ join sep rest
  end.

(** The text between two double quote characters. *)
Definition quoted (s : string) : string :=
  String "034" s +:+ String "034" "".

(** [arr[arr.length - 1]] *)
Definition last_elem {A} (l : list A) : option A := List.last (map Some l) None.

(** *** Plain objects used as dictionaries

    [obj[key]] on a plain object finds the own properties of the object
    and, when there is none under [key], the members the object inherits
    from [Object.prototype].  A dictionary is modelled by the [gmap] of its
    own properties; its prototype is [Object.prototype], as for an object
    literal and for the tables the configuration loader builds. *)
Definition Object_prototype_members : list string :=
  ["constructor"; "__defineGetter__"; "__defineSetter__"; "hasOwnProperty";
   "__lookupGetter__"; "__lookupSetter__"; "isPrototypeOf"; "propertyIsEnumerable";
   "toString"; "valueOf"; "__proto__"; "toLocaleString"].

(** What [obj[key]] evaluates to: the value of an own property, an inherited
    member (a function, or [Object.prototype] itself for [__proto__]: truthy,
    and without any of the fields the code goes on to read), or
    [undefined]. *)
Inductive Property (A : Type) :=
| OwnValue (a : A)
| InheritedMember
| NoProperty.
Arguments OwnValue {A} a.
Arguments InheritedMember {A}.
Arguments NoProperty {A}.

Definition property {A} (obj : gmap string A) (key : string) : Property A :=
  match obj !! key with
  | Some a => OwnValue a
  | None => if bool_decide (key ∈ Object_prototype_members) then InheritedMember
            else NoProperty
  end.

(** Truthiness of [obj[key]] when the own values are objects. *)
Definition has_property {A} (obj : gmap string A) (key : string) : bool :=
  match property obj key with
  | NoProperty => false
  | _ => true
  end.

(** [s.replace(/c/g, replacement)] for a pattern that is one character. *)
Fixpoint replace_all (c : ascii) (replacement s : string) : string :=
  match s with
  | EmptyString => EmptyString
  | String d r =>
      if Ascii.eqb d c then replacement +:+ replace_all c replacement r
      else String d (replace_all c replacement r)
  end.

(** [s.split(c)[0]]: the text before the first [c]. *)
Fixpoint before_first (c : ascii) (s : string) : string :=
  match s with
  | EmptyString => EmptyString
  | String d r => if Ascii.eqb d c then EmptyString else String d (before_first c r)
  end.

(** [s.replace(/\/$/, '')]: one slash at the very end is dropped. *)
Fixpoint strip_trailing_slash (s : string) : string :=
  match s with
  | EmptyString => EmptyString
  | String c EmptyString => if Ascii.eqb c "/" then EmptyString else s
  | String c r => String c (strip_trailing_slash r)
  end.

(* ===================================================================== *)
(** ** Platform primitives: hex buffers and HMAC-SHA256

    [crypto.createHmac('sha256', key).update(data).digest('hex')],
    [Buffer.from(s, 'hex')] and [crypto.timingSafeEqual] belong to the
    Node.js runtime, not to the repository.  They are modelled from their
    published definitions (FIPS 180-4, RFC 2104, the Node.js [Buffer]
    documentation) and checked against the standard test vectors. *)
(* ===================================================================== *)

Module Node.

#[global] Instance byte_eq_decision : EqDecision byte := Byte.byte_eq_dec.

Definition byte_of_Z (z : Z) : byte :=
  match Byte.of_N (Z.to_N (z mod 256)) with Some b => b | None => x00 end.

Definition Z_of_byte (b : byte) : Z := Z.of_N (Byte.to_N b).

Definition bytes_of_string (s : string) : list byte := list_byte_of_string s.

(** *** Hexadecimal text *)

Definition hex_digit (n : Z) : ascii :=
  ascii_of_N (Z.to_N (if n <? 10 then 48 + n else 87 + n)).

Definition hex_of_byte (b : byte) : string :=
  let z := Z_of_byte b in
  String (hex_digit (z / 16)) (String (hex_digit (z mod 16)) EmptyString).

Fixpoint hex_of_bytes (bs : list byte) : string :=
  match bs with
  | [] => ""
  | b :: r => hex_of_byte b +:+ hex_of_bytes r
  end.

Definition unhex (c : ascii) : option Z :=
  let n := Z.of_N (N_of_ascii c) in
  if (48 <=? n) && (n <=? 57) then Some (n - 48)
  else if (97 <=? n) && (n <=? 102) then Some (n - 87)
  else if (65 <=? n) && (n <=? 70) then Some (n - 55)
  else None.

(** [Buffer.from(s, 'hex')]: two characters per byte, either case;
    decoding stops at the first pair that is not made of two hexadecimal
    digits, and a trailing single character is dropped. *)
Fixpoint Buffer_from_hex (s : string) : list byte :=
  match s with
  | String a (String b rest) =>
      match unhex a, unhex b with
      | Some x, Some y => byte_of_Z (16 * x + y) :: Buffer_from_hex rest
      | _, _ => []
      end
  | _ => []
  end.

(** *** SHA-256 on 32-bit words kept in [Z] *)

Definition wrap32 (x : Z) : Z := x mod 2 ^ 32.
Definition add32 (x y : Z) : Z := wrap32 (x + y).
Definition rotr (n x : Z) : Z :=
  Z.lor (Z.shiftr x n) (wrap32 (Z.shiftl x (32 - n))).
Definition not32 (x : Z) : Z := 2 ^ 32 - 1 - x.

Definition choose (e f g : Z) : Z := Z.lxor (Z.land e f) (Z.land (not32 e) g).
Definition majority (a b c : Z) : Z :=
  Z.lxor (Z.lxor (Z.land a b) (Z.land a c)) (Z.land b c).
Definition big_sigma0 (a : Z) : Z := Z.lxor (Z.lxor (rotr 2 a) (rotr 13 a)) (rotr 22 a).
Definition big_sigma1 (e : Z) : Z := Z.lxor (Z.lxor (rotr 6 e) (rotr 11 e)) (rotr 25 e).
Definition small_sigma0 (x : Z) : Z := Z.lxor (Z.lxor (rotr 7 x) (rotr 18 x)) (Z.shiftr x 3).
Definition small_sigma1 (x : Z) : Z := Z.lxor (Z.lxor (rotr 17 x) (rotr 19 x)) (Z.shiftr x 10).

(** Round constants and initial state, in decimal. *)
Definition round_constants : list Z :=
  [1116352408; 1899447441; 3049323471; 3921009573; 961987163; 1508970993;
   2453635748; 2870763221; 3624381080; 310598401; 607225278; 1426881987;
   1925078388; 2162078206; 2614888103; 3248222580; 3835390401; 4022224774;
   264347078; 604807628; 770255983; 1249150122; 1555081692; 1996064986;
   2554220882; 2821834349; 2952996808; 3210313671; 3336571891; 3584528711;
   113926993; 338241895; 666307205; 773529912; 1294757372; 1396182291;
   1695183700; 1986661051; 2177026350; 2456956037; 2730485921; 2820302411;
   3259730800; 3345764771; 3516065817; 3600352804; 4094571909; 275423344;
   430227734; 506948616; 659060556; 883997877; 958139571; 1322822218;
   1537002063; 1747873779; 1955562222; 2024104815; 2227730452; 2361852424;
   2428436474; 2756734187; 3204031479; 3329325298].

Record digest_state := DS {
  ha : Z; hb : Z; hc : Z; hd : Z; he : Z; hf : Z; hg : Z; hh : Z
}.

Definition initial_state : digest_state :=
  DS 1779033703 3144134277 1013904242 2773480762
     1359893119 2600822924 528734635 1541459225.

(** Padding: one [0x80] byte, zero bytes up to 56 modulo 64, then the bit
    length on eight bytes, most significant first. *)
Definition be_bytes (n : nat) (x : Z) : list Z :=
  map (fun i => (x / 2 ^ (8 * Z.of_nat i)) mod 256) (rev (seq 0 n)).

Definition pad (msg : list Z) : list Z :=
  let len := Z.of_nat (length msg) in
  msg ++ [128] ++ repeat 0 (Z.to_nat ((55 - len) mod 64)) ++ be_bytes 8 (8 * len).

Fixpoint be_words (bs : list Z) : list Z :=
  match bs with
  | a :: b :: c :: d :: r => (((a * 256 + b) * 256 + c) * 256 + d) :: be_words r
  | _ => []
  end.

(** The message schedule, newest word first while it is being extended. *)
Fixpoint extend (n : nat) (rev_w : list Z) : list Z :=
  match n with
  | O => rev_w
  | S n' =>
      let at_ i := nth i rev_w 0 in
      let next := add32 (add32 (small_sigma1 (at_ 1%nat)) (at_ 6%nat))
                        (add32 (small_sigma0 (at_ 14%nat)) (at_ 15%nat)) in
      extend n' (next :: rev_w)
  end.

Definition schedule (block : list Z) : list Z := rev (extend 48 (rev block)).

Definition round (s : digest_state) (kw : Z * Z) : digest_state :=
  let t1 := add32 (add32 (add32 (hh s) (big_sigma1 (he s)))
                         (add32 (choose (he s) (hf s) (hg s)) (fst kw))) (snd kw) in
  let t2 := add32 (big_sigma0 (ha s)) (majority (ha s) (hb s) (hc s)) in
  DS (add32 t1 t2) (ha s) (hb s) (hc s) (add32 (hd s) t1) (he s) (hf s) (hg s).

Definition compress (s : digest_state) (block : list Z) : digest_state :=
  let r := fold_left round (combine round_constants (schedule block)) s in
  DS (add32 (ha s) (ha r)) (add32 (hb s) (hb r)) (add32 (hc s) (hc r))
     (add32 (hd s) (hd r)) (add32 (he s) (he r)) (add32 (hf s) (hf r))
     (add32 (hg s) (hg r)) (add32 (hh s) (hh r)).

Fixpoint blocks (fuel : nat) (ws : list Z) : list (list Z) :=
  match fuel, ws with
  | S f, _ :: _ => firstn 16 ws :: blocks f (skipn 16 ws)
  | _, _ => []
  end.

Definition word_bytes (x : Z) : list byte :=
  [byte_of_Z (x / 2 ^ 24); byte_of_Z (x / 2 ^ 16); byte_of_Z (x / 2 ^ 8); byte_of_Z x].

Definition state_bytes (s : digest_state) : list byte :=
  word_bytes (ha s) ++ word_bytes (hb s) ++ word_bytes (hc s) ++ word_bytes (hd s) ++
  word_bytes (he s) ++ word_bytes (hf s) ++ word_bytes (hg s) ++ word_bytes (hh s).

Definition sha256 (msg : list byte) : list byte :=
  let ws := be_words (pad (map Z_of_byte msg)) in
  state_bytes (fold_left compress (blocks (length ws) ws) initial_state).

(** *** HMAC (RFC 2104) with a 64-byte block *)

Definition xor_byte (k : Z) (b : byte) : byte := byte_of_Z (Z.lxor k (Z_of_byte b)).

Definition block_key (key : list byte) : list byte :=
  let k := if (64 <? Z.of_nat (length key)) then sha256 key else key in
  k ++ repeat x00 (64 - length k).

Definition hmac_sha256 (key msg : list byte) : list byte :=
  let k := block_key key in
  sha256 (map (xor_byte 92) k ++ sha256 (map (xor_byte 54) k ++ msg)).

(** [crypto.createHmac('sha256', secret).update(body).digest('hex')] *)
Definition createHmac_sha256_hex (secret body : string) : string :=
  hex_of_bytes (hmac_sha256 (bytes_of_string secret) (bytes_of_string body)).

(** [crypto.timingSafeEqual(a, b)]: raises a [RangeError] when the two
    buffers differ in length ([None] here), else compares them. *)
Definition timingSafeEqual (a b : list byte) : option bool :=
  if (length a =? length b)%nat then Some (bool_decide (a = b)) else None.

End Node.

(* ===================================================================== *)
(** ** Data model *)
(* ===================================================================== *)

Module OrderState.
Inductive t :=
| Created | AddingItems | ArrangingPayment | PaymentAuthorized
| PaymentSettled | PartiallyFulfilled | Fulfilled | PartiallyShipped
| Shipped | PartiallyDelivered | Delivered | Cancelled.

#[global] Instance eq_dec : EqDecision t.
Proof. solve_decision. Defined.
End OrderState.

Record ProductVariant := {
  variant_id : string;
  variant_sku : option string;
  variant_name : string
}.

Record RawOrderLine := {
  raw_line_id : string;
  raw_line_quantity : Z;
  raw_line_productVariant : ProductVariant;
  raw_line_fulfillmentLines : option (list Z)
}.

Record FulfillmentRef := {
  fulfillment_id : string;
  fulfillment_state : string;
  fulfillment_trackingCode : option string
}.

Record ShippingAddress := {
  fullName : option string;
  company : option string;
  streetLine1 : option string;
  streetLine2 : option string;
  city : option string;
  province : option string;
  provinceCode : option string;
  postalCode : option string;
  countryCode : option string;
  phoneNumber : option string
}.

Record Customer := { emailAddress : option string }.

Record RawOrder := {
  raw_id : string;
  raw_code : string;
  raw_state : OrderState.t;
  raw_createdAt : string;
  raw_fulfillments : list FulfillmentRef;
  raw_lines : list RawOrderLine;
  raw_shippingAddress : option ShippingAddress;
  raw_customer : option Customer
}.

Record OrderLineSummary := {
  line_id : string;
  line_quantity : Z;
  line_fulfilledQuantity : Z;
  line_productVariant : ProductVariant
}.

Record OrderSummary := {
  order_id : string;
  order_code : string;
  order_state : OrderState.t;
  order_createdAt : string;
  order_fulfillments : list FulfillmentRef;
  order_lines : list OrderLineSummary;
  order_shippingAddress : option ShippingAddress;
  order_customer : option Customer
}.

(** [CreateFulfillmentResult] *)
Inductive CreateFulfillmentResult :=
| FulfillmentCreated (fulfillmentId state : string) (method : option string)
| FulfillmentFailed (message : string).

(** [FulfillmentUnion]: the success and the error shapes share one record,
    told apart by [__typename] as [isFulfillmentSuccess] does. *)
Record FulfillmentUnion := {
  fu_typename : string;
  fu_id : string;
  fu_state : string;
  fu_method : option string;
  fu_message : option string;
  fu_transitionError : option string;
  fu_errorCode : option string
}.

Definition isFulfillmentSuccess (result : FulfillmentUnion) : bool :=
  bool_decide (fu_typename result = "Fulfillment").

Definition CustomFields := list (string * string).

Record FulfillmentLineInput := { orderLineId : string; quantity : Z }.

(** Argument of [VendureClient.createFulfillment]. *)
Record CreateFulfillmentArgs := {
  arg_orderId : string;
  arg_lines : list FulfillmentLineInput;
  arg_handlerCode : string;
  arg_method : option string;
  arg_trackingCode : option string;
  arg_customFields : option CustomFields
}.

(** Variables of the [createFulfillment] mutation. *)
Record CreateFulfillmentInput := {
  cf_orderId : string;
  cf_lines : list FulfillmentLineInput;
  cf_handlerCode : string;
  cf_method : option string;
  cf_trackingCode : option string;
  cf_customFields : option CustomFields
}.

(** Variables of the legacy [addFulfillmentToOrder] mutation. *)
Record FulfillOrderInput := {
  fo_lines : list FulfillmentLineInput;
  fo_handler_code : string;
  fo_handler_arguments : list (string * string);
  fo_customFields : option CustomFields
}.

Record TransitionResult := {
  tr_typename : string;
  tr_message : option string;
  tr_transitionError : option string
}.

Record UpdateResult := {
  up_typename : string;
  up_message : option string
}.

(** [productId] and [variantId] are [undefined] when they were read off an
    inherited member instead of a mapping entry. *)
Record PrintifyLineItemInput := {
  li_productId : option Z;
  li_variantId : option Z;
  li_quantity : Z;
  li_metadata : option (list (string * string))
}.

Record PrintifyAddressInput := {
  first_name : string;
  last_name : string;
  email : string;
  phone : option string;
  country : string;
  region : option string;
  address1 : string;
  address2 : option string;
  addr_city : string;
  zip : string
}.

Record CreatePrintifyOrderInput := {
  external_id : string;
  label : option string;
  line_items : list PrintifyLineItemInput;
  shipping_method : option Z;
  send_shipping_notification : option bool;
  address_to : PrintifyAddressInput;
  metadata : list (string * string)
}.

Record PrintifyOrderResponse := {
  printify_id : string;
  printify_status : string
}.

Record ProductMappingEntry := { productId : Z; variantId : Z }.

(** Webhook documents: [PrintifyWebhookEvent] of the webhook job and
    [PrintifyWebhookPayload] of the webhook endpoint. *)
Record PrintifyShipment := {
  tracking_number : option string;
  carrier : option string
}.

Record PrintifyWebhookEvent := {
  evt_type : option string;
  evt_status : option string;
  evt_external_id : option string;
  evt_shipments : option (list PrintifyShipment)
}.

Record PayloadData := {
  data_id : option string;
  data_external_id : option string;
  data_shipments : option (list PrintifyShipment)
}.

Record PrintifyWebhookPayload := {
  payload_event : option string;
  payload_data : option PayloadData
}.

Module FulfillmentState.
Inductive t := Created | Pending | Fulfilled | Cancelled | Shipped | Delivered.

#[global] Instance eq_dec : EqDecision t.
Proof. solve_decision. Defined.

Definition to_string (s : t) : string :=
  match s with
  | Created => "Created" | Pending => "Pending" | Fulfilled => "Fulfilled"
  | Cancelled => "Cancelled" | Shipped => "Shipped" | Delivered => "Delivered"
  end.
End FulfillmentState.

(** A header value is a string or an array of strings. *)
Inductive HeaderValue :=
| HeaderString (value : string)
| HeaderArray (values : list string).

(** [AutomationConfig] *)
Record VendureConfig := {
  apiUrl : string;
  username : string;
  password : string;
  fulfillmentHandlerCode : string;
  fulfillmentMethod : string;
  maxOrdersPerRun : Z
}.

Record TelegramConfig := { botToken : string; chatId : string; telegram_enabled : bool }.

Record JobConfig := { dryRun : bool; job_secret : option string }.

Record PrintifyConfig := {
  printify_enabled : bool;
  apiToken : string;
  shopId : string;
  shippingMethod : option Z;
  webhookSecret : option string;
  apiBaseUrl : string;
  mockApi : bool;
  enableWebhook : bool;
  productMapping : gmap string ProductMappingEntry
}.

Record AutomationConfig := {
  cfg_vendure : VendureConfig;
  cfg_telegram : TelegramConfig;
  cfg_job : JobConfig;
  cfg_printify : PrintifyConfig
}.

(* ===================================================================== *)
(** ** The outside world: requests, replies and the trace of a run *)
(* ===================================================================== *)

(** The GraphQL operations the client sends, with their variables.
    [TransitionFulfillmentWithoutState] is the transition mutation when the
    [state] argument is [undefined]: [JSON.stringify] leaves the variable
    out of the request. *)
Inductive Query :=
| IntrospectMutations
| OrdersToFulfill (take : Z)
| OrderByCode (code : string)
| CreateFulfillmentMutation (input : CreateFulfillmentInput)
| AddFulfillmentToOrderMutation (input : FulfillOrderInput)
| TransitionFulfillmentToState (id state : string)
| TransitionFulfillmentWithoutState (id : string)
| UpdateFulfillmentTracking (id : string) (trackingCode method : option string).

(** The [data] payload each operation answers with. For the schema
    introspection it is the list of mutation field names (empty when
    [mutationType] or its [fields] are missing). *)
Definition Reply (q : Query) : Type :=
  match q with
  | IntrospectMutations => list string
  | OrdersToFulfill _ => list RawOrder
  | OrderByCode _ => option RawOrder
  | CreateFulfillmentMutation _ => FulfillmentUnion
  | AddFulfillmentToOrderMutation _ => FulfillmentUnion
  | TransitionFulfillmentToState _ _ => TransitionResult
  | TransitionFulfillmentWithoutState _ => TransitionResult
  | UpdateFulfillmentTracking _ _ _ => UpdateResult
  end.

(** Everything a run does that is visible from outside, oldest first. *)
Inductive Event :=
| ELogin (user pass : string)
| EGraphql (q : Query)
| EPrintifyOrder (input : CreatePrintifyOrderInput)
| ENotify (step : string) (details : option string).

Definition Trace := list Event.

(** What [JSON.parse] makes of a text, read at the type the caller declares
    for the document: it throws a [SyntaxError], it returns [null], or it
    returns a value whose fields can be read (for a number, a string, a
    boolean or an array every field of the declared type reads as
    [undefined]). *)
Inductive Parsed (A : Type) :=
| Unparsable
| ParsedNull
| Document (document : A).
Arguments Unparsable {A}.
Arguments ParsedNull {A}.
Arguments Document {A} document.

(** A value or a thrown [Error] with its message. *)
Inductive Result (A : Type) :=
| Ok (a : A)
| Throw (message : string).
Arguments Ok {A} a.
Arguments Throw {A} message.

(** The collaborators of one invocation.  Every answer may depend on all
    that happened before, so that the same request can be answered
    differently the second time. *)
Record World := {
  vendure_login : Trace -> string -> string -> Result unit;
  vendure_graphql : Trace -> forall q : Query, Result (Reply q);
  printify_post_order : Trace -> CreatePrintifyOrderInput -> Result PrintifyOrderResponse;
  Date_now : Trace -> Z;
  (** [JSON.parse], read at the type the caller declares for the document. *)
  JSON_parse_payload : string -> Parsed PrintifyWebhookPayload;
  JSON_parse_event : string -> Parsed PrintifyWebhookEvent;
  JSON_stringify_event : PrintifyWebhookEvent -> string;
  (** whether [require('crypto')] succeeds in the webhook job *)
  require_crypto : bool
}.

(** Computations that extend the trace and may throw. *)
Definition M (A : Type) : Type := Trace -> Result A * Trace.

Definition ret {A} (a : A) : M A := fun t => (Ok a, t).

Definition bind {A B} (m : M A) (k : A -> M B) : M B :=
  fun t =>
    match m t with
    | (Ok a, t') => k a t'
    | (Throw e, t') => (Throw e, t')
    end.

Definition throw {A} (message : string) : M A := fun t => (Throw message, t).

(** [try { body } catch (error) { handler(error.message) }] *)
Definition try_catch {A} (body : M A) (handler : string -> M A) : M A :=
  fun t =>
    match body t with
    | (Ok a, t') => (Ok a, t')
    | (Throw e, t') => handler e t'
    end.

Definition emit (e : Event) : M unit := fun t => (Ok tt, t ++ [e]).

Declare Scope action_scope.
Delimit Scope action_scope with action.
Notation "x <- c ;; k" := (bind c (fun x => k))
  (at level 100, c at next level, right associativity) : action_scope.
Notation "c ;;; k" := (bind c (fun _ => k))
  (at level 100, right associativity) : action_scope.
Local Open Scope action_scope.

(** [for (const x of xs) { body(x, acc) }] with the loop-carried variables
    gathered in [acc]. *)
Fixpoint for_each {A S} (xs : list A) (body : A -> S -> M S) (acc : S) : M S :=
  match xs with
  | [] => ret acc
  | x :: rest => acc' <- body x acc ;; for_each rest body acc'
  end.

(* ===================================================================== *)
(** ** The Telegram reporter and the Printify client *)
(* ===================================================================== *)

Module TelegramReporter.
(** [notify(step, details)]: the message is recorded in the trace. The
    reporter swallows its own delivery errors, so it never throws. *)
Definition notify (step : string) (details : option string) : M unit :=
  emit (ENotify step details).

(** [escapeHtml]: three passes, the ampersand first. *)
Definition escapeHtml (input : string) : string :=
  replace_all ">" "&gt;" (replace_all "<" "&lt;" (replace_all "&" "&amp;" input)).
End TelegramReporter.

Module PrintifyClient.
Record Options := {
  opt_apiToken : string;
  opt_shopId : string;
  opt_baseUrl : option string;
  opt_mock : bool
}.

(** The [baseUrl] the constructor keeps. *)
Definition baseUrl (options : Options) : string :=
  or_else (option_map strip_trailing_slash (opt_baseUrl options)) "https://api.printify.com/v1".

(** The address [createOrder] posts to. *)
Definition orders_url (options : Options) : string :=
  baseUrl options +:+ "/shops/" +:+ opt_shopId options +:+ "/orders.json".

(** [createOrder]: in mock mode no request leaves the process. *)
Definition createOrder (W : World) (options : Options)
    (input : CreatePrintifyOrderInput) : M PrintifyOrderResponse :=
  fun t =>
    if opt_mock options then
      (Ok {| printify_id := "mock-" +:+ pretty (Date_now W t);
             printify_status := "mocked" |}, t)
    else (printify_post_order W t input, t ++ [EPrintifyOrder input]).
End PrintifyClient.

(* ===================================================================== *)
(** ** The Vendure admin client *)
(* ===================================================================== *)

(** The sum of a list of quantities. *)
Definition sumZ (l : list Z) : Z := foldr Z.add 0 l.

Module VendureClient.
Section Client.
Context (W : World).

(** [updateCookies]: the new value of [cookieJar]. *)
Definition updateCookies (cookieJar : option string) (setCookieHeader : option (list string))
  : option string :=
  match setCookieHeader with
  | None => cookieJar
  | Some entries =>
      if (length entries =? 0)%nat then cookieJar
      else
        let cookies := List.filter truthy_str (map (before_first ";") entries) in
        if (0 <? length cookies)%nat then Some (join "; " cookies) else cookieJar
  end.

(** [buildHeaders(extra)] *)
Definition buildHeaders (cookieJar : option string) (extra : list (string * string))
  : gmap string string :=
  let headers := foldl (fun h entry => <[fst entry := snd entry]> h)
                       {[ "content-type" := "application/json" ]} extra in
  if truthy cookieJar then <["cookie" := nullish cookieJar ""]> headers else headers.

(** [graphql<T>(query, variables)]: one request, one entry in the trace;
    transport failures, GraphQL [errors] and a missing [data] payload all
    surface as a thrown error. *)
Definition graphql (q : Query) : M (Reply q) :=
  fun t => (vendure_graphql W t q, t ++ [EGraphql q]).

Definition login (user pass : string) : M unit :=
  fun t => (vendure_login W t user pass, t ++ [ELogin user pass]).

(** [toOrderSummary]: the fulfilled quantity of a line is the sum of the
    quantities of its fulfillment lines.  (The source skips non-finite
    summands; integers are always finite.) *)
Definition toOrderSummary (order : RawOrder) : OrderSummary :=
  {| order_id := raw_id order;
     order_code := raw_code order;
     order_state := raw_state order;
     order_createdAt := raw_createdAt order;
     order_fulfillments :=
       map (fun f => {| fulfillment_id := fulfillment_id f;
                        fulfillment_state := fulfillment_state f;
                        fulfillment_trackingCode := fulfillment_trackingCode f |})
           (raw_fulfillments order);
     order_lines :=
       map (fun line =>
              {| line_id := raw_line_id line;
                 line_quantity := raw_line_quantity line;
                 line_productVariant := raw_line_productVariant line;
                 line_fulfilledQuantity :=
                   fold_left (fun total qty => total + qty)
                             (nullish (raw_line_fulfillmentLines line) []) 0 |})
           (raw_lines order);
     order_shippingAddress := raw_shippingAddress order;
     order_customer := raw_customer order |}.

Definition fetchOrders (states : list OrderState.t) (take : Z) : M (list OrderSummary) :=
  items <- graphql (OrdersToFulfill take) ;;
  let summaries := map toOrderSummary items in
  ret (List.filter (fun o => bool_decide (order_state o ∈ states)) summaries).

Definition fetchOrderByCode (code : string) : M (option OrderSummary) :=
  data <- graphql (OrderByCode code) ;;
  match data with
  | None => ret None
  | Some raw => ret (Some (toOrderSummary raw))
  end.

(** [names.includes(name)] on an array of strings. *)
Definition names_include (name : string) (names : list string) : bool :=
  bool_decide (name ∈ names).

Definition supportsCreateFulfillment : M bool :=
  try_catch
    (names <- graphql IntrospectMutations ;;
     ret (names_include "createFulfillment" names
          || names_include "addFulfillmentToOrder" names))
    (fun _ => ret false).

(** [[message, transitionError].filter(Boolean).join(' — ') ||
    'Unknown fulfillment error'] *)
Definition error_message (result : FulfillmentUnion) : string :=
  let joined := join " — " (filter_Boolean [fu_message result; fu_transitionError result]) in
  if truthy_str joined then joined else "Unknown fulfillment error".

Definition isInvalidHandler (result : FulfillmentUnion) : bool :=
  let code := nullish (fu_errorCode result) "" in
  let msg := nullish (fu_message result) "" in
  regex_test_i "INVALID_FULFILLMENT_HANDLER" code
  || regex_test_i "InvalidFulfillmentHandler" msg.

Definition modern_input (input : CreateFulfillmentArgs) (handlerCode : string)
  : CreateFulfillmentInput :=
  {| cf_orderId := arg_orderId input;
     cf_lines := arg_lines input;
     cf_handlerCode := handlerCode;
     cf_method := arg_method input;
     cf_trackingCode := arg_trackingCode input;
     cf_customFields := arg_customFields input |}.

Definition handlerArgs (input : CreateFulfillmentArgs) : list (string * string) :=
  (if truthy (arg_method input) then [("method", nullish (arg_method input) "")] else [])
  ++ (if truthy (arg_trackingCode input)
      then [("trackingCode", nullish (arg_trackingCode input) "")] else []).

Definition legacy_input (input : CreateFulfillmentArgs) (handlerCode : string)
    (args : list (string * string)) : FulfillOrderInput :=
  {| fo_lines := arg_lines input;
     fo_handler_code := handlerCode;
     fo_handler_arguments := args;
     fo_customFields := arg_customFields input |}.

Definition createFulfillment (input : CreateFulfillmentArgs) : M CreateFulfillmentResult :=
  names <- graphql IntrospectMutations ;;
  if names_include "createFulfillment" names then
    result <- graphql (CreateFulfillmentMutation (modern_input input (arg_handlerCode input))) ;;
    if isFulfillmentSuccess result then
      ret (FulfillmentCreated (fu_id result) (fu_state result) (fu_method result))
    else if isInvalidHandler result then
      retryResult <- graphql (CreateFulfillmentMutation (modern_input input "manual-fulfillment")) ;;
      if isFulfillmentSuccess retryResult then
        ret (FulfillmentCreated (fu_id retryResult) (fu_state retryResult) (fu_method retryResult))
      else ret (FulfillmentFailed (error_message retryResult))
    else ret (FulfillmentFailed (error_message result))
  else if names_include "addFulfillmentToOrder" names then
    let args := handlerArgs input in
    result <- graphql (AddFulfillmentToOrderMutation (legacy_input input (arg_handlerCode input) args)) ;;
    if isFulfillmentSuccess result then
      ret (FulfillmentCreated (fu_id result) (fu_state result) (fu_method result))
    else if isInvalidHandler result then
      let retryArgs := args in
      retryResult <- graphql (AddFulfillmentToOrderMutation (legacy_input input "manual-fulfillment" retryArgs)) ;;
      if isFulfillmentSuccess retryResult then
        ret (FulfillmentCreated (fu_id retryResult) (fu_state retryResult) (fu_method retryResult))
      else ret (FulfillmentFailed (error_message retryResult))
    else ret (FulfillmentFailed (error_message result))
  else throw "Vendure Admin API does not support fulfillment mutations".

Definition transitionFulfillmentToState (id state : string) : M unit :=
  result <- graphql (TransitionFulfillmentToState id state) ;;
  if bool_decide (tr_typename result = "Fulfillment") then ret tt
  else
    let err := join " — " (filter_Boolean [tr_message result; tr_transitionError result]) in
    throw (if truthy_str err then err else "Failed to transition fulfillment state").

(** [transitionFulfillmentToState(id, undefined)]: the same method when the
    state it is given is [undefined]. *)
Definition transitionFulfillmentToUndefined (id : string) : M unit :=
  result <- graphql (TransitionFulfillmentWithoutState id) ;;
  if bool_decide (tr_typename result = "Fulfillment") then ret tt
  else
    let err := join " — " (filter_Boolean [tr_message result; tr_transitionError result]) in
    throw (if truthy_str err then err else "Failed to transition fulfillment state").

Definition updateFulfillmentTracking (id : string) (trackingCode method : option string) : M unit :=
  result <- graphql (UpdateFulfillmentTracking id trackingCode method) ;;
  if bool_decide (up_typename result = "Fulfillment") then ret tt
  else throw (or_else (up_message result) "Failed to update fulfillment tracking").

End Client.
End VendureClient.

Record OutstandingLine := {
  out_orderLineId : string;
  out_quantity : Z;
  out_sku : option string;
  out_variantName : string
}.

(** [getOutstandingFulfillmentLines]: each line is mapped to an entry or to
    [null], and the [null]s are filtered out afterwards. *)
Definition outstanding_entry (line : OrderLineSummary) : option OutstandingLine :=
  let outstanding := line_quantity line - line_fulfilledQuantity line in
  if outstanding <=? 0 then None
  else Some {| out_orderLineId := line_id line;
               out_quantity := outstanding;
               out_sku := variant_sku (line_productVariant line);
               out_variantName := variant_name (line_productVariant line) |}.

Fixpoint filter_not_null {A} (l : list (option A)) : list A :=
  match l with
  | [] => []
  | None :: r => filter_not_null r
  | Some a :: r => a :: filter_not_null r
  end.

Definition getOutstandingFulfillmentLines (order : OrderSummary) : list OutstandingLine :=
  filter_not_null (map outstanding_entry (order_lines order)).

(* ===================================================================== *)
(** ** Splitting a full name on white space *)
(* ===================================================================== *)

(** The white space of [trim()] and of [\s] is the WhiteSpace and
    LineTerminator of ECMAScript: the ASCII characters below and, beyond
    ASCII, U+00A0, U+1680, U+2000 to U+200A, U+2028, U+2029, U+202F, U+205F,
    U+3000 and U+FEFF. *)
Definition is_space (c : ascii) : bool :=
  let n := nat_of_ascii c in (((9 <=? n) && (n <=? 13)) || (n =? 32))%nat.

(** The white space characters beyond ASCII, by the bytes of their UTF-8
    encoding. *)
Definition is_wide_space (a b c : nat) : bool :=
  (((a =? 225) && (b =? 154) && (c =? 128))
   || ((a =? 226) && (b =? 128)
       && (((128 <=? c) && (c <=? 138)) || (c =? 168) || (c =? 169) || (c =? 175)))
   || ((a =? 226) && (b =? 129) && (c =? 159))
   || ((a =? 227) && (b =? 128) && (c =? 128))
   || ((a =? 239) && (b =? 187) && (c =? 191)))%nat.

(** The number of bytes of the white space character [s] starts with, and
    0 when it starts with none. *)
Definition white_space_prefix (s : string) : nat :=
  match s with
  | String a rest =>
      if is_space a then 1%nat
      else
        match rest with
        | String b rest' =>
            if ((nat_of_ascii a =? 194) && (nat_of_ascii b =? 160))%nat then 2%nat
            else
              match rest' with
              | String c _ =>
                  if is_wide_space (nat_of_ascii a) (nat_of_ascii b) (nat_of_ascii c)
                  then 3%nat else 0%nat
              | EmptyString => 0%nat
              end
        | EmptyString => 0%nat
        end
  | EmptyString => 0%nat
  end.

(** The maximal runs of non-space characters of [s], in order: what
    [s.trim().split(/\s+/).filter(Boolean)] yields.  [skip] counts the
    bytes of a white space character that are still to be passed over. *)
Fixpoint words_from (skip : nat) (current s : string) : list string :=
  match s with
  | EmptyString => if truthy_str current then [current] else []
  | String c r =>
      match skip with
      | S k => words_from k current r
      | O =>
          match white_space_prefix s with
          | O => words_from 0 (current +:+ String c "") r
          | S k => (if truthy_str current then [current] else []) ++ words_from k "" r
          end
      end
  end.

Definition words (s : string) : list string := words_from 0 "" s.

(** U+00A0 (no-break space), U+3000 (ideographic space) and U+2028 (line
    separator) as UTF-8 text. *)
Definition no_break_space : string :=
  String (ascii_of_nat 194) (String (ascii_of_nat 160) "").

Definition ideographic_space : string :=
  String (ascii_of_nat 227) (String (ascii_of_nat 128) (String (ascii_of_nat 128) "")).

Definition line_separator : string :=
  String (ascii_of_nat 226) (String (ascii_of_nat 128) (String (ascii_of_nat 168) "")).

(* ===================================================================== *)
(** ** The batch job and the webhook job (part_001, part_002) *)
(* ===================================================================== *)

Module Job.
Import TelegramReporter.

(** [splitName] *)
Definition splitName (name : option string) : string * string :=
  match words (nullish name "") with
  | [] => ("Customer", "")
  | first :: rest => (first, join " " rest)
  end.

(** The lookup key of an outstanding line: [line.sku ?? line.variantName]. *)
Definition lookup_key (line : OutstandingLine) : string :=
  nullish (out_sku line) (out_variantName line).

(** The loop of [buildPrintifyLineItems]; [result] is the array being
    filled. *)
Fixpoint build_loop (mapping : gmap string ProductMappingEntry)
    (outstanding : list OutstandingLine) (result : list PrintifyLineItemInput)
  : Result (list PrintifyLineItemInput) :=
  match outstanding with
  | [] => Ok result
  | line :: rest =>
      let sku := lookup_key line in
      let map := if truthy_str sku then property mapping sku else NoProperty in
      match map with
      | NoProperty => Throw ("No Printify mapping found for SKU '" +:+ sku +:+ "'")
      | OwnValue m =>
          build_loop mapping rest
            (result ++ [{| li_productId := Some (productId m);
                           li_variantId := Some (variantId m);
                           li_quantity := out_quantity line;
                           li_metadata := None |}])
      | InheritedMember =>
          build_loop mapping rest
            (result ++ [{| li_productId := None;
                           li_variantId := None;
                           li_quantity := out_quantity line;
                           li_metadata := None |}])
      end
  end.

Definition buildPrintifyLineItems (order : OrderSummary)
    (mapping : gmap string ProductMappingEntry)
  : Result (list PrintifyLineItemInput) :=
  build_loop mapping (getOutstandingFulfillmentLines order) [].

Definition lift {A} (r : Result A) : M A := fun t => (r, t).

(** The address block of [fulfillOrder]. *)
Definition address_of (order : OrderSummary) : PrintifyAddressInput :=
  let shipping := order_shippingAddress order in
  let field (f : ShippingAddress -> option string) : option string :=
    match shipping with Some a => f a | None => None end in
  let '(first, last) := splitName (field fullName) in
  {| first_name := first;
     last_name := last;
     email := or_else (match order_customer order with
                       | Some c => emailAddress c
                       | None => None
                       end) "unknown@example.com";
     phone := Some (or_else (field phoneNumber) "");
     country := or_else (field countryCode) "US";
     region := Some (or_else (or_opt (field provinceCode) (field province)) "");
     address1 := or_else (field streetLine1) "";
     address2 := Some (or_else (field streetLine2) "");
     addr_city := or_else (field city) "";
     zip := or_else (field postalCode) "" |}.

(** The Printify order [fulfillOrder] asks for. *)
Definition order_input (cfg : AutomationConfig) (order : OrderSummary)
    (line_items : list PrintifyLineItemInput) : CreatePrintifyOrderInput :=
  {| external_id := order_code order;
     label := Some ("Order " +:+ order_code order);
     line_items := line_items;
     shipping_method := shippingMethod (cfg_printify cfg);
     send_shipping_notification := Some false;
     address_to := address_of order;
     metadata := [("vendure_order_id", order_id order)] |}.

Section Run.
Context (W : World).

(** The tail of [fulfillOrder], after the optional Printify order. *)
Definition create_vendure_fulfillment (cfg : AutomationConfig) (order : OrderSummary)
    (linesForVendure : list FulfillmentLineInput) (printifyOrderId : option string)
  : M unit :=
  if dryRun (cfg_job cfg) then
    notify ("Dry-run: would create Vendure fulfillment for " +:+ order_code order) None
  else
    notify ("Create Vendure fulfillment for " +:+ order_code order) None ;;;
    created <- VendureClient.createFulfillment W
                 {| arg_orderId := order_id order;
                    arg_lines := linesForVendure;
                    arg_handlerCode := fulfillmentHandlerCode (cfg_vendure cfg);
                    arg_method := Some (if truthy printifyOrderId then "Printify" else "Manual");
                    arg_trackingCode := None;
                    arg_customFields := None |} ;;
    match created with
    | FulfillmentFailed message => throw ("Vendure fulfillment failed: " +:+ message)
    | FulfillmentCreated fulfillmentId state _ =>
        notify ("Vendure fulfillment created for " +:+ order_code order)
               (Some ("Fulfillment ID: " +:+ fulfillmentId +:+ ", state: " +:+ state))
    end.

Definition fulfillOrder (printify : option PrintifyClient.Options)
    (cfg : AutomationConfig) (order : OrderSummary) : M unit :=
  let outstanding := getOutstandingFulfillmentLines order in
  if (length outstanding =? 0)%nat then
    notify ("Skip order " +:+ order_code order) (Some "No outstanding lines to fulfill")
  else
    let linesForVendure :=
      map (fun l => {| orderLineId := out_orderLineId l; quantity := out_quantity l |})
          outstanding in
    match (if printify_enabled (cfg_printify cfg) then printify else None) with
    | Some client =>
        let mapping := productMapping (cfg_printify cfg) in
        let missingSkus :=
          List.filter (fun sku => negb (has_property mapping sku))
                      (map lookup_key outstanding) in
        if (0 <? length missingSkus)%nat then
          notify ("Thiếu mapping Printify cho order " +:+ order_code order)
                 (Some ("SKUs thiếu: " +:+ join ", " missingSkus))
        else
          line_items <- lift (buildPrintifyLineItems order mapping) ;;
          let input := order_input cfg order line_items in
          notify ("Create Printify draft order for " +:+ order_code order) None ;;;
          resp <- PrintifyClient.createOrder W client input ;;
          notify ("Printify draft order created for " +:+ order_code order)
                 (Some ("Printify ID: " +:+ printify_id resp)) ;;;
          create_vendure_fulfillment cfg order linesForVendure (Some (printify_id resp))
    | None => create_vendure_fulfillment cfg order linesForVendure None
    end.

(** [runFulfillOrders]: a failure of one order is caught, reported and the
    loop goes on; a failure outside the loop is reported and rethrown. *)
Definition runFulfillOrders (loadConfig : Result AutomationConfig) : M unit :=
  cfg <- lift loadConfig ;;
  VendureClient.login W (username (cfg_vendure cfg)) (password (cfg_vendure cfg)) ;;;
  let printify :=
    if printify_enabled (cfg_printify cfg)
    then Some {| PrintifyClient.opt_apiToken := apiToken (cfg_printify cfg);
                 PrintifyClient.opt_shopId := shopId (cfg_printify cfg);
                 PrintifyClient.opt_baseUrl := Some (apiBaseUrl (cfg_printify cfg));
                 PrintifyClient.opt_mock := mockApi (cfg_printify cfg) |}
    else None in
  notify "Bắt đầu chạy xử lý giao hàng" None ;;;
  try_catch
    (orders <- VendureClient.fetchOrders W
                 [OrderState.PaymentSettled; OrderState.PartiallyFulfilled]
                 (maxOrdersPerRun (cfg_vendure cfg)) ;;
     for_each orders
       (fun order _ =>
          try_catch (fulfillOrder printify cfg order)
            (fun message =>
               notify ("Lỗi khi xử lý đơn hàng " +:+ order_code order) (Some message)))
       tt ;;;
     notify "Hoàn thành chạy xử lý giao hàng" None)
    (fun message =>
       notify "Chạy xử lý giao hàng thất bại" (Some message) ;;;
       throw message).

(** *** The webhook job (part_002) *)

Definition empty_event : PrintifyWebhookEvent :=
  {| evt_type := None; evt_status := None; evt_external_id := None; evt_shipments := None |}.

(** Whether [normalizeEvent] returns [null]: the text is not empty and
    parses to [null]. *)
Definition event_is_null (body : string) : bool :=
  truthy_str body
  && match JSON_parse_event W body with
     | ParsedNull => true
     | _ => false
     end.

(** [normalizeEvent] on the raw text of the body, when its result is not
    [null]; the case of [null] is told by [event_is_null], and the record
    returned here for it is never read. *)
Definition normalizeEvent (body : string) : PrintifyWebhookEvent :=
  if negb (truthy_str body) then empty_event
  else match JSON_parse_event W body with
       | Document evt => evt
       | ParsedNull => empty_event
       | Unparsable => empty_event
       end.

Definition mapEventToState (evt : PrintifyWebhookEvent) : option FulfillmentState.t :=
  let t := toLowerCase (nullish (evt_type evt) "") in
  let s := toLowerCase (nullish (evt_status evt) "") in
  if includes "delivered" t || bool_decide (s = "delivered") then Some FulfillmentState.Delivered
  else if includes "shipped" t || bool_decide (s = "shipped") then Some FulfillmentState.Shipped
  else if includes "fulfilled" t || bool_decide (s = "fulfilled") then Some FulfillmentState.Fulfilled
  else None.

(** [verifySignature]: lenient whenever one of the three inputs is
    missing or empty, and when the [crypto] module cannot be loaded. *)
Definition verifySignature (secret bodyRaw signature : option string) : bool :=
  if negb (truthy secret) || negb (truthy bodyRaw) || negb (truthy signature) then true
  else if require_crypto W then
    bool_decide (Node.createHmac_sha256_hex (nullish secret "") (nullish bodyRaw "")
                 = nullish signature "")
  else true.

(** The [body] argument: a string, an already parsed object, or nothing. *)
Inductive WebhookBody :=
| BodyText (text : string)
| BodyObject (evt : PrintifyWebhookEvent)
| BodyMissing.

Record WebhookOutcome := { ok : bool; message : option string }.

Definition state_text (s : option FulfillmentState.t) : string :=
  match s with Some st => FulfillmentState.to_string st | None => "null" end.

Definition text_or_undefined (o : option string) : string := nullish o "undefined".

(** The part of [handlePrintifyWebhook] that runs once the signature has
    been accepted. *)
Definition process_event (cfg : AutomationConfig) (bodyRaw : string) : M WebhookOutcome :=
  if event_is_null bodyRaw then
    (* [mapEventToState(null)] reads [evt.type] *)
    throw "Cannot read properties of null (reading 'type')"
  else
  let evt := normalizeEvent bodyRaw in
  let targetState := mapEventToState evt in
  VendureClient.login W (username (cfg_vendure cfg)) (password (cfg_vendure cfg)) ;;;
  if negb (truthy (evt_external_id evt)) then
    notify "Webhook Printify thiếu external_id" None ;;;
    ret {| ok := false; message := Some "Missing external_id" |}
  else
    let external := nullish (evt_external_id evt) "" in
    order <- VendureClient.fetchOrderByCode W external ;;
    match order with
    | None =>
        notify "Không tìm thấy đơn hàng cho webhook" (Some ("external_id=" +:+ external)) ;;;
        ret {| ok := false; message := Some "Order not found" |}
    | Some order =>
        match last_elem (order_fulfillments order) with
        | None =>
            notify "Không có fulfillment để cập nhật" (Some ("order=" +:+ order_code order)) ;;;
            ret {| ok := false; message := Some "No fulfillment found" |}
        | Some fulfillment =>
            if dryRun (cfg_job cfg) then
              notify "Chế độ thử: sẽ cập nhật fulfillment"
                     (Some ("order=" +:+ order_code order +:+ ", state=" +:+ state_text targetState)) ;;;
              ret {| ok := true; message := None |}
            else
              (if bool_decide (targetState = Some FulfillmentState.Shipped) then
                 let shipment := head (nullish (evt_shipments evt) []) in
                 let tracking := match shipment with Some sh => tracking_number sh | None => None end in
                 let method := match shipment with Some sh => carrier sh | None => None end in
                 if truthy tracking || truthy method then
                   VendureClient.updateFulfillmentTracking W (fulfillment_id fulfillment) tracking method ;;;
                   notify "Đã cập nhật thông tin vận chuyển"
                          (Some ("order=" +:+ order_code order +:+ ", tracking=" +:+ text_or_undefined tracking))
                 else ret tt
               else ret tt) ;;;
              match targetState with
              | Some st =>
                  VendureClient.transitionFulfillmentToState W (fulfillment_id fulfillment)
                    (FulfillmentState.to_string st) ;;;
                  notify "Đã chuyển trạng thái giao hàng"
                         (Some ("order=" +:+ order_code order +:+ ", state=" +:+ FulfillmentState.to_string st))
              | None => ret tt
              end ;;;
              ret {| ok := true; message := None |}
        end
    end.

Definition body_text (body : WebhookBody) : string :=
  match body with
  | BodyText text => text
  | BodyObject evt => JSON_stringify_event W evt
  | BodyMissing => "{}"
  end.

Definition handlePrintifyWebhook (loadConfig : Result AutomationConfig)
    (body : WebhookBody) (headers : gmap string string) : M WebhookOutcome :=
  cfg <- lift loadConfig ;;
  let bodyRaw := body_text body in
  let signature :=
    or_else (or_opt (headers !! "X-Printify-Signature") (headers !! "x-printify-signature")) "" in
  let sigOk := verifySignature (webhookSecret (cfg_printify cfg)) (Some bodyRaw) (Some signature) in
  if negb sigOk then
    notify "Từ chối webhook Printify: chữ ký không hợp lệ" None ;;;
    ret {| ok := false; message := Some "Invalid signature" |}
  else process_event cfg bodyRaw.

End Run.

End Job.

(* ===================================================================== *)
(** ** The batch endpoint and the webhook endpoint (part_004, part_005) *)
(* ===================================================================== *)

Module Api.
Import TelegramReporter.

Definition lift {A} (r : Result A) : M A := fun t => (r, t).

(** [splitFullName] *)
Definition splitFullName (name : option string) : string * string :=
  if negb (truthy name) then ("Customer", "Unknown")
  else match words (nullish name "") with
       | [] => ("Customer", "Unknown")
       | [only] => (only, "Customer")
       | first :: rest => (first, join " " rest)
       end.

(** [buildPrintifyLineItems]: an [Array.map] whose callback may throw. *)
Fixpoint buildPrintifyLineItems (outstanding : list OutstandingLine)
    (productMapping : gmap string ProductMappingEntry)
  : Result (list PrintifyLineItemInput) :=
  match outstanding with
  | [] => Ok []
  | line :: rest =>
      let sku := nullish (out_sku line) "" in
      let ids := match property productMapping sku with
                 | OwnValue mapping => Some (Some (productId mapping), Some (variantId mapping))
                 | InheritedMember => Some (None, None)
                 | NoProperty => None
                 end in
      match ids with
      | None => Throw ("Missing PRINTIFY_PRODUCT_MAPPING entry for SKU " +:+ quoted sku)
      | Some (mappedProductId, mappedVariantId) =>
          match buildPrintifyLineItems rest productMapping with
          | Throw e => Throw e
          | Ok items =>
              Ok ({| li_productId := mappedProductId;
                     li_variantId := mappedVariantId;
                     li_quantity := out_quantity line;
                     li_metadata := Some [("vendureOrderLineId", out_orderLineId line);
                                          ("sku", sku);
                                          ("variantName", out_variantName line)] |} :: items)
          end
      end
  end.

Record FulfillRequest := {
  req_method : option string;
  req_query : gmap string HeaderValue;
  req_headers : gmap string HeaderValue
}.

Definition string_value (v : option HeaderValue) : option string :=
  match v with Some (HeaderString s) => Some s | _ => None end.

(** [validateSecret] *)
Definition validateSecret (req : FulfillRequest) (expected : option string) : bool :=
  if negb (truthy expected) then true
  else
    let provided := or_opt (string_value (req_query req !! "secret"))
                           (string_value (req_headers req !! "x-automation-secret")) in
    bool_decide (provided = expected).

(** The JSON bodies the batch endpoint answers with. *)
Inductive FulfillBody :=
| ErrorBody (error : string)
| NoOrdersBody (updatedOrders : Z) (message : string)
| DryRunBody (notes : list string)
| SummaryBody (updatedOrders : Z) (failures : list (string * string)).

Record Response (B : Type) := {
  status : Z;
  allow_header : option string;
  body : B
}.
Arguments status {B} _.
Arguments allow_header {B} _.
Arguments body {B} _.

Definition respond {B} (code : Z) (b : B) : M (Response B) :=
  ret {| status := code; allow_header := None; body := b |}.

(** The address block of the batch endpoint. *)
Definition address_of (order : OrderSummary) (address : ShippingAddress) : PrintifyAddressInput :=
  let '(firstName, lastName) := splitFullName (fullName address) in
  {| first_name := firstName;
     last_name := lastName;
     email := nullish (match order_customer order with
                       | Some c => emailAddress c
                       | None => None
                       end) "no-reply@example.com";
     phone := phoneNumber address;
     country := nullish (countryCode address) "US";
     region := province address;
     address1 := nullish (streetLine1 address) "Unknown address line 1";
     address2 := streetLine2 address;
     addr_city := nullish (city address) "Unknown city";
     zip := nullish (postalCode address) "00000" |}.

(** The Printify order the batch endpoint asks for. *)
Definition order_input (config : AutomationConfig) (order : OrderSummary)
    (address : ShippingAddress) (lineItems : list PrintifyLineItemInput)
  : CreatePrintifyOrderInput :=
  {| external_id := order_code order;
     label := Some ("Vendure order " +:+ order_code order);
     address_to := address_of order address;
     shipping_method := shippingMethod (cfg_printify config);
     send_shipping_notification := Some false;
     line_items := lineItems;
     metadata := [("vendureOrderId", order_id order);
                  ("vendureOrderCode", order_code order)] |}.

(** The variables the loop of the batch endpoint carries. *)
Record Tally := {
  successCount : Z;
  failures : list (string * string);
  dryRunNotes : list string
}.

Definition add_failure (code reason : string) (acc : Tally) : Tally :=
  {| successCount := successCount acc;
     failures := failures acc ++ [(code, reason)];
     dryRunNotes := dryRunNotes acc |}.

Section Run.
Context (W : World).

(** The Printify step of one order; [Some reason] when it failed. *)
Definition printify_step (client : PrintifyClient.Options) (config : AutomationConfig)
    (order : OrderSummary) (outstanding : list OutstandingLine) : M (option string) :=
  try_catch
    (match order_shippingAddress order with
     | None => throw "Order missing shipping address"
     | Some address =>
         lineItems <- lift (buildPrintifyLineItems outstanding (productMapping (cfg_printify config))) ;;
         printifyOrder <- PrintifyClient.createOrder W client
                            (order_input config order address lineItems) ;;
         notify "Printify order created"
                (Some ("Order " +:+ order_code order +:+ " → Printify " +:+ printify_id printifyOrder
                       +:+ " (" +:+ printify_status printifyOrder +:+ ")")) ;;;
         ret None
     end)
    (fun reason => ret (Some reason)).

(** The Vendure step of one order, once Printify has been served. *)
Definition vendure_step (config : AutomationConfig) (canVendureFulfill : bool)
    (order : OrderSummary) (outstanding : list OutstandingLine) (acc : Tally) : M Tally :=
  if negb canVendureFulfill then
    notify "Order fulfillment skipped"
           (Some ("Order " +:+ order_code order +:+ ": Vendure API lacks fulfillment mutations")) ;;;
    ret (add_failure (order_code order) "Vendure Admin API does not support createFulfillment" acc)
  else
    let lines := map (fun line => {| orderLineId := out_orderLineId line;
                                     quantity := out_quantity line |}) outstanding in
    attempt <- try_catch
      (r <- VendureClient.createFulfillment W
              {| arg_orderId := order_id order;
                 arg_lines := lines;
                 arg_method := Some (fulfillmentMethod (cfg_vendure config));
                 arg_handlerCode := fulfillmentHandlerCode (cfg_vendure config);
                 arg_trackingCode := None;
                 arg_customFields := None |} ;;
       ret (inr r))
      (fun reason => ret (inl reason)) ;;
    match attempt with
    | inl reason =>
        notify "Order fulfillment failed" (Some ("Order " +:+ order_code order +:+ ": " +:+ reason)) ;;;
        ret (add_failure (order_code order) reason acc)
    | inr (FulfillmentCreated fulfillmentId state _) =>
        notify "Order fulfilled"
               (Some ("Order " +:+ order_code order +:+ " → fulfillment " +:+ fulfillmentId
                      +:+ " (" +:+ state +:+ ")")) ;;;
        ret {| successCount := successCount acc + 1;
               failures := failures acc;
               dryRunNotes := dryRunNotes acc |}
    | inr (FulfillmentFailed reason) =>
        notify "Order fulfillment failed" (Some ("Order " +:+ order_code order +:+ ": " +:+ reason)) ;;;
        ret (add_failure (order_code order) reason acc)
    end.

(** The body of the [for (const order of orders)] loop. *)
Definition process_order (config : AutomationConfig) (printify : option PrintifyClient.Options)
    (canVendureFulfill : bool) (order : OrderSummary) (acc : Tally) : M Tally :=
  let outstanding := getOutstandingFulfillmentLines order in
  if (length outstanding =? 0)%nat then ret acc
  else if dryRun (cfg_job config) then
    ret {| successCount := successCount acc;
           failures := failures acc;
           dryRunNotes := dryRunNotes acc
             ++ ["Order " +:+ order_code order +:+ " would fulfill "
                 +:+ pretty (length outstanding) +:+ " line(s)."] |}
  else
    match printify with
    | Some client =>
        failed <- printify_step client config order outstanding ;;
        match failed with
        | Some reason =>
            notify "Printify order creation failed"
                   (Some ("Order " +:+ order_code order +:+ ": " +:+ reason)) ;;;
            ret (add_failure (order_code order) reason acc)
        | None => vendure_step config canVendureFulfill order outstanding acc
        end
    | None => vendure_step config canVendureFulfill order outstanding acc
    end.

Definition STATES_TO_FULFILL : list OrderState.t :=
  [OrderState.PaymentSettled; OrderState.PaymentAuthorized].

(** The [try] block of the batch endpoint. *)
Definition run_job (config : AutomationConfig) (printify : option PrintifyClient.Options)
  : M (Response FulfillBody) :=
  notify "Fulfillment job starting" None ;;;
  VendureClient.login W (username (cfg_vendure config)) (password (cfg_vendure config)) ;;;
  canVendureFulfill <- VendureClient.supportsCreateFulfillment W ;;
  (if negb canVendureFulfill then
     notify "Vendure fulfillment unsupported on current Admin API"
            (Some "Will skip Vendure fulfillment and continue with Printify (if enabled)")
   else ret tt) ;;;
  orders <- VendureClient.fetchOrders W STATES_TO_FULFILL (maxOrdersPerRun (cfg_vendure config)) ;;
  if (length orders =? 0)%nat then
    notify "Fulfillment job completed" (Some "No eligible orders found.") ;;;
    respond 200 (NoOrdersBody 0 "No eligible orders found.")
  else
    acc <- for_each orders (process_order config printify canVendureFulfill)
             {| successCount := 0; failures := []; dryRunNotes := [] |} ;;
    if dryRun (cfg_job config) then
      let notes := join (String "010" "") (dryRunNotes acc) in
      notify "Fulfillment job completed (dry-run)"
             (Some (if truthy_str notes then notes else "No pending lines.")) ;;;
      respond 200 (DryRunBody (dryRunNotes acc))
    else
      let summaryLines :=
        ["Successful fulfillments: " +:+ pretty (successCount acc)]
        ++ (if (0 <? length (failures acc))%nat then
              ["Thất bại: " +:+ pretty (length (failures acc));
               join (String "010" "")
                    (map (fun failure => "• " +:+ fst failure +:+ ": " +:+ snd failure)
                         (failures acc))]
            else []) in
      notify "Hoàn thành tác vụ giao hàng" (Some (join (String "010" "") summaryLines)) ;;;
      respond 200 (SummaryBody (successCount acc) (failures acc)).

(** The default export of the batch endpoint ([handler]). *)
Definition fulfillHandler (loadConfig : Result AutomationConfig) (req : FulfillRequest)
  : M (Response FulfillBody) :=
  if negb (bool_decide (req_method req = Some "POST")) then
    ret {| status := 405; allow_header := Some "POST";
           body := ErrorBody "Method not allowed. Use POST." |}
  else
    match loadConfig with
    | Throw message => respond 500 (ErrorBody message)
    | Ok config =>
        if negb (validateSecret req (job_secret (cfg_job config))) then
          respond 401 (ErrorBody "Invalid or missing automation secret.")
        else
          let printify :=
            if printify_enabled (cfg_printify config)
            then Some {| PrintifyClient.opt_apiToken := apiToken (cfg_printify config);
                         PrintifyClient.opt_shopId := shopId (cfg_printify config);
                         PrintifyClient.opt_baseUrl := Some (apiBaseUrl (cfg_printify config));
                         PrintifyClient.opt_mock :=
                           mockApi (cfg_printify config) || dryRun (cfg_job config) |}
            else None in
          try_catch (run_job config printify)
            (fun message =>
               notify "Tác vụ giao hàng thất bại" (Some message) ;;;
               respond 500 (ErrorBody message))
    end.

(** *** The webhook endpoint (part_005) *)

(** The own properties of the table; each entry holds its [targetState]. *)
Definition PRINTIFY_EVENT_MAP : gmap string FulfillmentState.t :=
  list_to_map [("order:sent-to-production", FulfillmentState.Fulfilled);
               ("order:shipment:created", FulfillmentState.Shipped);
               ("order:shipment:delivered", FulfillmentState.Delivered)].

Record WebhookRequest := {
  wreq_method : option string;
  wreq_headers : gmap string HeaderValue;
  wreq_body : option string
}.

(** [getHeader] *)
Definition getHeader (headers : gmap string HeaderValue) (name : string) : option string :=
  let value := match headers !! name with
               | Some v => Some v
               | None => headers !! toLowerCase name
               end in
  match value with
  | Some (HeaderArray values) => head values
  | Some (HeaderString v) => Some v
  | None => None
  end.

(** [verifySignature]; a [Throw] is the [RangeError] of
    [crypto.timingSafeEqual] on buffers of different lengths. *)
Definition verifySignature (rawBody : string) (secret signature : option string) : Result bool :=
  if negb (truthy secret) then Ok true
  else if negb (truthy signature) then Ok false
  else
    let hmac := Node.createHmac_sha256_hex (nullish secret "") rawBody in
    match Node.timingSafeEqual (Node.Buffer_from_hex hmac)
                               (Node.Buffer_from_hex (nullish signature "")) with
    | Some b => Ok b
    | None => Throw "Input buffers must have the same byte length"
    end.

(** [FulfillmentUpdate['tracking']] *)
Record Tracking := { trk_carrier : option string; trk_code : option string }.

(** [error instanceof Error ? error.message : String(error)] is the
    message itself here. *)
Definition rethrow_as {A} (prefix : string) (body : M A) : M A :=
  try_catch body (fun message => throw (prefix +:+ message)).

(** [targetState] is [None] when it was read off an inherited member of the
    event table, which has no [targetState] field. *)
Definition transitionFulfillments (order : OrderSummary)
    (targetState : option FulfillmentState.t) (tracking : option Tracking)
  : M (option string) :=
  match last_elem (order_fulfillments order) with
  | None => ret None
  | Some latest =>
      rethrow_as "Vendure transition failed: "
        (match targetState with
         | Some state =>
             VendureClient.transitionFulfillmentToState W (fulfillment_id latest)
               (FulfillmentState.to_string state)
         | None => VendureClient.transitionFulfillmentToUndefined W (fulfillment_id latest)
         end) ;;;
      (match tracking with
       | Some trk =>
           if truthy (trk_code trk) then
             rethrow_as "Vendure tracking update failed: "
               (VendureClient.updateFulfillmentTracking W (fulfillment_id latest)
                  (trk_code trk) (trk_carrier trk))
           else ret tt
       | None => ret tt
       end) ;;;
      ret (Some (fulfillment_id latest))
  end.

(** The JSON bodies the webhook endpoint answers with. *)
Inductive WebhookBody :=
| WebhookError (error : string)
| Ignored
| Success (bypass : bool).

(** [hasBypass] *)
Definition hasBypass (config : AutomationConfig) (bypassSecret : option string) : bool :=
  truthy (job_secret (cfg_job config)) && truthy bypassSecret
  && bool_decide (bypassSecret = job_secret (cfg_job config)).

(** [payload.data] is there whenever the [try] block is reached, since
    its [external_id] has been found truthy. *)
Definition no_data : PayloadData :=
  {| data_id := None; data_external_id := None; data_shipments := None |}.

(** The [try] block of the webhook endpoint. *)
Definition reconcile (config : AutomationConfig) (bypass : bool) (external : string)
    (data : PayloadData) (targetState : option FulfillmentState.t)
  : M (Response WebhookBody) :=
  VendureClient.login W (username (cfg_vendure config)) (password (cfg_vendure config)) ;;;
  order <- VendureClient.fetchOrderByCode W external ;;
  match order with
  | None =>
      notify "Bỏ qua webhook Printify" (Some ("Không tìm thấy đơn " +:+ external +:+ ".")) ;;;
      respond 404 (WebhookError "Order not found")
  | Some order =>
      let trackingInfo := match data_shipments data with
                          | Some shipments => head shipments
                          | None => None
                          end in
      let tracking := match trackingInfo with
                      | Some info => Some {| trk_carrier := carrier info;
                                             trk_code := tracking_number info |}
                      | None => None
                      end in
      fulfillmentId <- transitionFulfillments order targetState tracking ;;
      notify (if bypass then "Đã xử lý webhook Printify (bỏ qua chữ ký bằng secret)"
              else "Đã xử lý webhook Printify")
             (Some ("Đơn " +:+ order_code order +:+ " → fulfillment " +:+ nullish fulfillmentId "N/A"
                    +:+ " chuyển sang trạng thái "
                    +:+ match targetState with
                        | Some state => FulfillmentState.to_string state
                        | None => "undefined"
                        end +:+ ".")) ;;;
      respond 200 (Success bypass)
  end.

(** What the endpoint does with a request whose signature has been
    accepted.  A body that parses to [null] makes [payload.event] throw,
    outside any [try].  The event table is a plain object: [eventConfig] is
    the entry of the table, or an inherited member, whose [targetState] is
    [undefined]. *)
Definition accept (config : AutomationConfig) (bypass : bool) (rawBody : string)
  : M (Response WebhookBody) :=
  match JSON_parse_payload W rawBody with
  | Unparsable => respond 400 (WebhookError "Invalid JSON payload")
  | ParsedNull => throw "Cannot read properties of null (reading 'event')"
  | Document payload =>
      let external := match payload_data payload with
                      | Some data => data_external_id data
                      | None => None
                      end in
      if negb (truthy (payload_event payload)) || negb (truthy external) then
        respond 400 (WebhookError "Missing event or external_id")
      else
        let eventConfig := property PRINTIFY_EVENT_MAP (nullish (payload_event payload) "") in
        let targetState := match eventConfig with
                           | OwnValue state => Some (Some state)
                           | InheritedMember => Some None
                           | NoProperty => None
                           end in
        match targetState with
        | None => respond 200 Ignored
        | Some targetState =>
            try_catch (reconcile config bypass (nullish external "")
                         (nullish (payload_data payload) no_data) targetState)
              (fun message =>
                 notify "Xử lý webhook Printify thất bại" (Some message) ;;;
                 respond 500 (WebhookError message))
        end
  end.

(** The default export of the webhook endpoint ([handler]).  A [Throw] of the
    whole handler is an exception that escapes it. *)
Definition webhookHandler (loadConfig : Result AutomationConfig) (req : WebhookRequest)
  : M (Response WebhookBody) :=
  if negb (bool_decide (wreq_method req = Some "POST")) then
    ret {| status := 405; allow_header := Some "POST"; body := WebhookError "Method not allowed" |}
  else
    let rawBody := nullish (wreq_body req) "" in
    match loadConfig with
    | Throw message => respond 500 (WebhookError message)
    | Ok config =>
        let signature := getHeader (wreq_headers req) "printify-signature" in
        let bypassSecret := getHeader (wreq_headers req) "x-automation-secret" in
        let bypass := hasBypass config bypassSecret in
        verified <- (if bypass then ret true
                     else lift (verifySignature rawBody (webhookSecret (cfg_printify config)) signature)) ;;
        if negb verified then
          notify "Printify webhook rejected" (Some "Invalid signature") ;;;
          respond 401 (WebhookError "Invalid signature")
        else accept config bypass rawBody
    end.

End Run.

End Api.

(* ===================================================================== *)
(** ** Scripted backends for concrete runs *)
(* ===================================================================== *)

Module Scripted.

(** *** JSON text of the webhook documents *)

Definition field (name value : string) : string := quoted name +:+ ":" +:+ value.

Definition object (fields : list string) : string := "{" +:+ join "," fields +:+ "}".

Definition text_field (name : string) (value : option string) : list string :=
  match value with Some v => [field name (quoted v)] | None => [] end.

Definition render_shipment (sh : PrintifyShipment) : string :=
  object (text_field "carrier" (carrier sh) ++ text_field "tracking_number" (tracking_number sh)).

Definition shipments_field (shipments : option (list PrintifyShipment)) : list string :=
  match shipments with
  | Some l => [field "shipments" ("[" +:+ join "," (map render_shipment l) +:+ "]")]
  | None => []
  end.

Definition render_payload (p : PrintifyWebhookPayload) : string :=
  object (text_field "event" (payload_event p)
          ++ match payload_data p with
             | Some d => [field "data" (object (text_field "id" (data_id d)
                                                ++ text_field "external_id" (data_external_id d)
                                                ++ shipments_field (data_shipments d)))]
             | None => []
             end).

Definition render_event (e : PrintifyWebhookEvent) : string :=
  object (text_field "type" (evt_type e) ++ text_field "status" (evt_status e)
          ++ text_field "external_id" (evt_external_id e)
          ++ shipments_field (evt_shipments e)).

(** A backend that answers from fixed tables, whatever happened before. *)
Record Backend := {
  mutation_names : Result (list string);
  stored_orders : list RawOrder;
  on_create : CreateFulfillmentInput -> FulfillmentUnion;
  on_add : FulfillOrderInput -> FulfillmentUnion;
  on_printify : CreatePrintifyOrderInput -> Result PrintifyOrderResponse;
  webhook_documents : list (string * PrintifyWebhookPayload);
  event_documents : list (string * PrintifyWebhookEvent)
}.

Definition lookup_text {A} (table : list (string * A)) (text : string) : option A :=
  match List.find (fun entry => bool_decide (fst entry = text)) table with
  | Some entry => Some (snd entry)
  | None => None
  end.

(** The parser of a scripted backend: it knows the text [null] and the
    documents of its table, and takes every other text for malformed. *)
Definition parse_text {A} (table : list (string * A)) (text : string) : Parsed A :=
  if bool_decide (text = "null") then ParsedNull
  else match lookup_text table text with
       | Some document => Document document
       | None => Unparsable
       end.

Definition answer (b : Backend) (q : Query) : Result (Reply q) :=
  match q return Result (Reply q) with
  | IntrospectMutations => mutation_names b
  | OrdersToFulfill _ => Ok (stored_orders b)
  | OrderByCode code =>
      Ok (List.find (fun o => bool_decide (raw_code o = code)) (stored_orders b))
  | CreateFulfillmentMutation input => Ok (on_create b input)
  | AddFulfillmentToOrderMutation input => Ok (on_add b input)
  | TransitionFulfillmentToState _ _ =>
      Ok {| tr_typename := "Fulfillment"; tr_message := None; tr_transitionError := None |}
  | TransitionFulfillmentWithoutState _ =>
      Throw "Variable $state of required type String! was not provided."
  | UpdateFulfillmentTracking _ _ _ =>
      Ok {| up_typename := "Fulfillment"; up_message := None |}
  end.

Definition world (b : Backend) : World :=
  {| vendure_login := fun _ _ _ => Ok tt;
     vendure_graphql := fun _ q => answer b q;
     printify_post_order := fun _ input => on_printify b input;
     Date_now := fun _ => 0;
     JSON_parse_payload := parse_text (webhook_documents b);
     JSON_parse_event := parse_text (event_documents b);
     JSON_stringify_event := render_event;
     require_crypto := true |}.

(** The same backend when it refuses every state transition. *)
Definition refusing_transitions (b : Backend) : World :=
  {| vendure_login := fun _ _ _ => Ok tt;
     vendure_graphql := fun _ q =>
       match q return Result (Reply q) with
       | TransitionFulfillmentToState _ _ =>
           Ok {| tr_typename := "FulfillmentStateTransitionError";
                 tr_message := Some "Cannot transition";
                 tr_transitionError := Some "Not allowed from Pending" |}
       | other => answer b other
       end;
     printify_post_order := fun _ input => on_printify b input;
     Date_now := fun _ => 0;
     JSON_parse_payload := parse_text (webhook_documents b);
     JSON_parse_event := parse_text (event_documents b);
     JSON_stringify_event := render_event;
     require_crypto := true |}.

Definition created (id : string) (method : option string) : FulfillmentUnion :=
  {| fu_typename := "Fulfillment"; fu_id := id; fu_state := "Pending"; fu_method := method;
     fu_message := None; fu_transitionError := None; fu_errorCode := None |}.

Definition refused (typename code message : string) : FulfillmentUnion :=
  {| fu_typename := typename; fu_id := ""; fu_state := ""; fu_method := None;
     fu_message := Some message; fu_transitionError := None; fu_errorCode := Some code |}.

(** A backend of the current API generation that only knows the handler
    [manual-fulfillment]. *)
Definition strict_handlers : Backend :=
  {| mutation_names := Ok ["login"; "createFulfillment"; "transitionFulfillmentToState"];
     stored_orders := [];
     on_create := fun input =>
       if bool_decide (cf_handlerCode input = "manual-fulfillment")
       then created "F-1" (cf_method input)
       else refused "CreateFulfillmentError" "INVALID_FULFILLMENT_HANDLER"
                    "No handler with that code is registered";
     on_add := fun _ => refused "ErrorResult" "UNKNOWN" "not available";
     on_printify := fun _ => Throw "Printify request failed with status 500: ";
     webhook_documents := [];
     event_documents := [] |}.

Definition two_shirts : CreateFulfillmentArgs :=
  {| arg_orderId := "42";
     arg_lines := [{| orderLineId := "L1"; quantity := 2 |}];
     arg_handlerCode := "printify";
     arg_method := Some "printify";
     arg_trackingCode := None;
     arg_customFields := None |}.

Definition variant (sku : option string) (name : string) : ProductVariant :=
  {| variant_id := "V-" +:+ name; variant_sku := sku; variant_name := name |}.

Definition line (id : string) (ordered fulfilled : Z) (v : ProductVariant) : OrderLineSummary :=
  {| line_id := id; line_quantity := ordered; line_fulfilledQuantity := fulfilled;
     line_productVariant := v |}.

Definition order_with (code : string) (lines : list OrderLineSummary)
    (fulfillments : list FulfillmentRef) (customer : option Customer) : OrderSummary :=
  {| order_id := "id-" +:+ code; order_code := code;
     order_state := OrderState.PaymentSettled;
     order_createdAt := "2024-01-01T00:00:00.000Z";
     order_fulfillments := fulfillments;
     order_lines := lines;
     order_shippingAddress := None;
     order_customer := customer |}.

(** The order of the specification's example: three ordered and one
    fulfilled on the first line, two and two on the second. *)
Definition partly_fulfilled : OrderSummary :=
  order_with "ORD1"
    [line "L1" 3 1 (variant (Some "TEE-S") "Tee S");
     line "L2" 2 2 (variant (Some "TEE-M") "Tee M")] [] None.






(** The HMAC-SHA256 of the body [{}] under the secret [whsec] is
    [ae6341ea...7a2d]; this is the same text in capital letters. *)
Definition capital_signature : string :=
  "AE6341EA7F40A435DB57D903D02CBA19085EFB8A913F8CFBD8CFF3D7DF0C7A2D".

Definition exact_signature : string :=
  "ae6341ea7f40a435db57d903d02cba19085efb8a913f8cfbd8cff3d7df0c7a2d".

(** *** Configuration *)

Definition config (shared webhook : option string) : AutomationConfig :=
  {| cfg_vendure := {| apiUrl := "https://shop.example/admin-api";
                       username := "admin"; password := "admin-password";
                       fulfillmentHandlerCode := "manual-fulfillment";
                       fulfillmentMethod := "printify";
                       maxOrdersPerRun := 20 |};
     cfg_telegram := {| botToken := ""; chatId := ""; telegram_enabled := false |};
     cfg_job := {| dryRun := false; job_secret := shared |};
     cfg_printify := {| printify_enabled := false; apiToken := ""; shopId := "";
                        shippingMethod := None; webhookSecret := webhook;
                        apiBaseUrl := "https://api.printify.com/v1";
                        mockApi := false; enableWebhook := false;
                        productMapping := ∅ |} |}.

(** *** A shop with stored orders *)

Definition raw_line (id : string) (ordered : Z) (fulfilled : list Z) (v : ProductVariant)
  : RawOrderLine :=
  {| raw_line_id := id; raw_line_quantity := ordered; raw_line_productVariant := v;
     raw_line_fulfillmentLines := Some fulfilled |}.

Definition raw_order (code : string) (lines : list RawOrderLine)
    (fulfillments : list FulfillmentRef) : RawOrder :=
  {| raw_id := "id-" +:+ code; raw_code := code;
     raw_state := OrderState.PaymentSettled;
     raw_createdAt := "2024-01-01T00:00:00.000Z";
     raw_fulfillments := fulfillments;
     raw_lines := lines;
     raw_shippingAddress := None;
     raw_customer := None |}.

Definition shop (names : list string) (orders : list RawOrder)
    (payloads : list PrintifyWebhookPayload) (events : list PrintifyWebhookEvent) : Backend :=
  {| mutation_names := Ok names;
     stored_orders := orders;
     on_create := fun input => created "F-new" (cf_method input);
     on_add := fun input => created "F-new" None;
     on_printify := fun _ => Throw "Printify request failed with status 500: ";
     webhook_documents := map (fun p => (render_payload p, p)) payloads;
     event_documents := map (fun e => (render_event e, e)) events |}.

Definition pending (id : string) : FulfillmentRef :=
  {| fulfillment_id := id; fulfillment_state := "Pending"; fulfillment_trackingCode := None |}.

(** The webhook of the specification's example. *)
Definition shipment_created : PrintifyWebhookPayload :=
  {| payload_event := Some "order:shipment:created";
     payload_data := Some {| data_id := None;
                             data_external_id := Some "ORD123";
                             data_shipments :=
                               Some [{| tracking_number := Some "T1";
                                        carrier := Some "DHL" |}] |} |}.

(** The same event when the partner names the carrier only. *)
Definition carrier_only : PrintifyWebhookPayload :=
  {| payload_event := Some "order:shipment:created";
     payload_data := Some {| data_id := None;
                             data_external_id := Some "ORD123";
                             data_shipments :=
                               Some [{| tracking_number := None;
                                        carrier := Some "DHL" |}] |} |}.

(** An event type the endpoint has no entry for. *)
Definition order_updated : PrintifyWebhookPayload :=
  {| payload_event := Some "order:updated";
     payload_data := Some {| data_id := None;
                             data_external_id := Some "ORD123";
                             data_shipments := None |} |}.

(** The shipment event in the vocabulary of the webhook job. *)
Definition shipped_event : PrintifyWebhookEvent :=
  {| evt_type := Some "order:shipped";
     evt_status := None;
     evt_external_id := Some "ORD123";
     evt_shipments := Some [{| tracking_number := Some "T1"; carrier := Some "DHL" |}] |}.

(** An event that lacks the correlation id. *)
Definition shop_disconnected : PrintifyWebhookPayload :=
  {| payload_event := Some "shop:disconnected";
     payload_data := Some {| data_id := None;
                             data_external_id := None;
                             data_shipments := None |} |}.

(** An event named like a member every object inherits. *)
Definition named_constructor : PrintifyWebhookPayload :=
  {| payload_event := Some "constructor";
     payload_data := Some {| data_id := None;
                             data_external_id := Some "ORD123";
                             data_shipments := None |} |}.

(** An event the webhook job has no target state for. *)
Definition updated_event : PrintifyWebhookEvent :=
  {| evt_type := Some "order:updated";
     evt_status := None;
     evt_external_id := Some "ORD123";
     evt_shipments := None |}.

Definition all_payloads : list PrintifyWebhookPayload :=
  [shipment_created; carrier_only; order_updated; shop_disconnected; named_constructor].

(** ORD123 has one fulfillment. *)
Definition shop_with_fulfillment : Backend :=
  shop ["createFulfillment"]
       [raw_order "ORD123" [raw_line "L1" 1 [1] (variant (Some "TEE-S") "Tee S")] [pending "F-1"]]
       all_payloads [shipped_event; updated_event].

(** ORD123 has no fulfillment yet. *)
Definition shop_without_fulfillment : Backend :=
  shop ["createFulfillment"]
       [raw_order "ORD123" [raw_line "L1" 1 [] (variant (Some "TEE-S") "Tee S")] []]
       all_payloads [shipped_event].

(** A backend that exposes neither creation mutation, with two orders
    waiting. *)
Definition legacy_shop : Backend :=
  shop ["login"; "transitionFulfillmentToState"]
       [raw_order "ORD-A" [raw_line "L1" 1 [] (variant (Some "TEE-S") "Tee S")] [];
        raw_order "ORD-B" [raw_line "L2" 2 [1] (variant (Some "TEE-M") "Tee M")] []]
       [] [].

Definition webhook_post (p : PrintifyWebhookPayload) : Api.WebhookRequest :=
  {| Api.wreq_method := Some "POST";
     Api.wreq_headers := ∅;
     Api.wreq_body := Some (render_payload p) |}.

(** A webhook that carries a signature header. *)
Definition signed_post (signature body : string) : Api.WebhookRequest :=
  {| Api.wreq_method := Some "POST";
     Api.wreq_headers := {[ "printify-signature" := HeaderString signature ]};
     Api.wreq_body := Some body |}.

Definition job_post : Api.FulfillRequest :=
  {| Api.req_method := Some "POST"; Api.req_query := ∅; Api.req_headers := ∅ |}.

Definition some_address : ShippingAddress :=
  {| fullName := Some "Ada Lovelace"; company := None;
     streetLine1 := Some "12 St James Square"; streetLine2 := None;
     city := Some "London"; province := None; provinceCode := None;
     postalCode := Some "SW1Y 4JH"; countryCode := Some "GB"; phoneNumber := None |}.

(** An order with a shipping address and without customer. *)
Definition anonymous_order : OrderSummary :=
  {| order_id := "id-ORD4"; order_code := "ORD4";
     order_state := OrderState.PaymentSettled;
     order_createdAt := "2024-01-01T00:00:00.000Z";
     order_fulfillments := [];
     order_lines := [line "L1" 1 0 (variant (Some "TEE-S") "Tee S")];
     order_shippingAddress := Some some_address;
     order_customer := None |}.

(** A mapping table for the two tees. *)
Definition tees : gmap string ProductMappingEntry :=
  {[ "TEE-S" := {| productId := 101; variantId := 1001 |};
     "TEE-M" := {| productId := 101; variantId := 1002 |} ]}.

(** Printify switched on, with the table of the two tees. *)
Definition printing_config : AutomationConfig :=
  {| cfg_vendure := cfg_vendure (config None None);
     cfg_telegram := cfg_telegram (config None None);
     cfg_job := cfg_job (config None None);
     cfg_printify := {| printify_enabled := true; apiToken := "token"; shopId := "7";
                        shippingMethod := Some 1; webhookSecret := None;
                        apiBaseUrl := "https://api.printify.com/v1";
                        mockApi := false; enableWebhook := false;
                        productMapping := tees |} |}.

Definition printify_client : PrintifyClient.Options :=
  {| PrintifyClient.opt_apiToken := "token"; PrintifyClient.opt_shopId := "7";
     PrintifyClient.opt_baseUrl := Some "https://api.printify.com/v1";
     PrintifyClient.opt_mock := false |}.

(** A shop whose partner accepts every order. *)
Definition printing_shop : Backend :=
  {| mutation_names := Ok ["createFulfillment"];
     stored_orders := [];
     on_create := fun input => created "F-new" (cf_method input);
     on_add := fun input => created "F-new" None;
     on_printify := fun _ => Ok {| printify_id := "P-1"; printify_status := "pending" |};
     webhook_documents := [];
     event_documents := [] |}.

End Scripted.

(* ===================================================================== *)
(** ** Vocabulary of the specification *)
(* ===================================================================== *)

(** What is left to fulfil on a line. *)
Definition remaining (line : OrderLineSummary) : Z :=
  line_quantity line - line_fulfilledQuantity line.

(** The entry reported for a line that still has something to fulfil. *)
Definition entry_of (line : OrderLineSummary) : OutstandingLine :=
  {| out_orderLineId := line_id line;
     out_quantity := remaining line;
     out_sku := variant_sku (line_productVariant line);
     out_variantName := variant_name (line_productVariant line) |}.


(** [s] contains [pat], up to the case of ASCII letters. *)
Definition contains_ci (pat s : string) : Prop :=
  exists before found after,
    s = before +:+ found +:+ after /\ toLowerCase found = toLowerCase pat.

(** The error class "invalid or unregistered fulfillment handler". *)
Definition invalid_handler_error (r : FulfillmentUnion) : Prop :=
  contains_ci "INVALID_FULFILLMENT_HANDLER" (nullish (fu_errorCode r) "")
  \/ contains_ci "InvalidFulfillmentHandler" (nullish (fu_message r) "").

(** The creation request for a handler code, in the shape the backend
    exposes. *)
Definition creation_query (modern : bool) (input : CreateFulfillmentArgs)
    (handlerCode : string) : Query :=
  if modern
  then CreateFulfillmentMutation (VendureClient.modern_input input handlerCode)
  else AddFulfillmentToOrderMutation
         (VendureClient.legacy_input input handlerCode (VendureClient.handlerArgs input)).

(** The backend answers the creation request sent after [t] with [r]. *)
Definition answers (W : World) (t : Trace) (modern : bool) (input : CreateFulfillmentArgs)
    (handlerCode : string) (r : FulfillmentUnion) : Prop :=
  if modern
  then vendure_graphql W t
         (CreateFulfillmentMutation (VendureClient.modern_input input handlerCode)) = Ok r
  else vendure_graphql W t
         (AddFulfillmentToOrderMutation
            (VendureClient.legacy_input input handlerCode (VendureClient.handlerArgs input))) = Ok r.

(** Two creation requests that agree on every field but the handler code,
    the second one naming [manual-fulfillment]. *)
Definition retry_of (first retry : Query) : Prop :=
  match first, retry with
  | CreateFulfillmentMutation a, CreateFulfillmentMutation b =>
      cf_orderId b = cf_orderId a /\ cf_lines b = cf_lines a /\ cf_method b = cf_method a
      /\ cf_trackingCode b = cf_trackingCode a /\ cf_customFields b = cf_customFields a
      /\ cf_handlerCode b = "manual-fulfillment"
  | AddFulfillmentToOrderMutation a, AddFulfillmentToOrderMutation b =>
      fo_lines b = fo_lines a /\ fo_handler_arguments b = fo_handler_arguments a
      /\ fo_customFields b = fo_customFields a
      /\ fo_handler_code b = "manual-fulfillment"
  | _, _ => False
  end.

(** The text that carries a structured error: its message and its
    transition error, with a dash between them when it has both, and a fixed
    text when it has neither.  A part that is missing and a part that is
    empty count alike. *)
Definition error_text (r : FulfillmentUnion) : string :=
  match nullish (fu_message r) "", nullish (fu_transitionError r) "" with
  | "", "" => "Unknown fulfillment error"
  | message, "" => message
  | "", transitionError => transitionError
  | message, transitionError => message +:+ " — " +:+ transitionError
  end.

(** The result that stands for an answer of the backend: the fulfillment it
    created, or a failure that carries its error. *)
Definition reported (r : FulfillmentUnion) : CreateFulfillmentResult :=
  if isFulfillmentSuccess r
  then FulfillmentCreated (fu_id r) (fu_state r) (fu_method r)
  else FulfillmentFailed (error_text r).





(** The HMAC-SHA256 of a body under a secret, as bytes. *)
Definition hmac_of (secret : option string) (rawBody : string) : list byte :=
  Node.hmac_sha256 (Node.bytes_of_string (nullish secret "")) (Node.bytes_of_string rawBody).

(** The requests that change a fulfillment or create one. *)
Definition is_mutation (e : Event) : bool :=
  match e with
  | EGraphql (CreateFulfillmentMutation _) => true
  | EGraphql (AddFulfillmentToOrderMutation _) => true
  | EGraphql (TransitionFulfillmentToState _ _) => true
  | EGraphql (TransitionFulfillmentWithoutState _) => true
  | EGraphql (UpdateFulfillmentTracking _ _ _) => true
  | _ => false
  end.

Definition mutations (t : Trace) : list Event := List.filter is_mutation t.


(** The customer of the order has no email address. *)
Definition email_absent (order : OrderSummary) : Prop :=
  match order_customer order with
  | Some c => emailAddress c = None
  | None => True
  end.

(** The order still has something to fulfil. *)
Definition has_outstanding (order : OrderSummary) : bool :=
  negb (length (getOutstandingFulfillmentLines order) =? 0)%nat.

(** The per-order guard of [runFulfillOrders]. *)
Definition guarded_fulfillOrder (W : World) (printify : option PrintifyClient.Options)
    (cfg : AutomationConfig) (order : OrderSummary) (_ : unit) : M unit :=
  try_catch (Job.fulfillOrder W printify cfg order)
    (fun message =>
       TelegramReporter.notify ("Lỗi khi xử lý đơn hàng " +:+ order_code order) (Some message)).

(** The fulfillment a mutation addresses. *)
Definition target_of (e : Event) : option string :=
  match e with
  | EGraphql (TransitionFulfillmentToState id _) => Some id
  | EGraphql (TransitionFulfillmentWithoutState id) => Some id
  | EGraphql (UpdateFulfillmentTracking id _ _) => Some id
  | _ => None
  end.

(** The orders a run asked the partner to create. *)
Definition printify_requests (t : Trace) : list CreatePrintifyOrderInput :=
  omap (fun e => match e with EPrintifyOrder input => Some input | _ => None end) t.

(** A Printify order as the batch endpoint builds it for [order]. *)
Definition from_endpoint (config : AutomationConfig) (order : OrderSummary)
    (input : CreatePrintifyOrderInput) : Prop :=
  exists address items, input = Api.order_input config order address items.

(** A Printify order as the batch job builds it for [order]. *)
Definition from_job (cfg : AutomationConfig) (order : OrderSummary)
    (input : CreatePrintifyOrderInput) : Prop :=
  exists items, input = Job.order_input cfg order items.

(** The requests of a run that go to the Order System. *)
Definition is_vendure_request (e : Event) : bool :=
  match e with
  | EGraphql _ => true
  | ELogin _ _ => true
  | _ => false
  end.

(** The configuration with its dry-run switch set to [flag]. *)
Definition with_dryRun (flag : bool) (config : AutomationConfig) : AutomationConfig :=
  {| cfg_vendure := cfg_vendure config;
     cfg_telegram := cfg_telegram config;
     cfg_job := {| dryRun := flag; job_secret := job_secret (cfg_job config) |};
     cfg_printify := cfg_printify config |}.

(** What has been fulfilled of a line as the backend reports it. *)
Definition fulfilled_so_far (line : RawOrderLine) : Z :=
  sumZ (nullish (raw_line_fulfillmentLines line) []).

(** The text one character becomes in escaped HTML. *)
Definition entity (c : ascii) : string :=
  if Ascii.eqb c "&" then "&amp;"
  else if Ascii.eqb c "<" then "&lt;"
  else if Ascii.eqb c ">" then "&gt;"
  else String c "".

(** One order has been accounted for: either one more success, or one more
    failure recorded under the code of the order. *)
Definition counted_once (code : string) (before after : Api.Tally) : Prop :=
  Api.dryRunNotes after = Api.dryRunNotes before
  /\ ((Api.successCount after = Api.successCount before + 1
       /\ Api.failures after = Api.failures before)
      \/ (Api.successCount after = Api.successCount before
          /\ exists reason, Api.failures after = Api.failures before ++ [(code, reason)])).

(** The number of orders a tally accounts for. *)
Definition accounted (acc : Api.Tally) : Z :=
  Api.successCount acc + Z.of_nat (length (Api.failures acc)).

(** The key is the name of a member that every object inherits. *)
Definition inherited (key : string) : Prop := key ∈ Object_prototype_members.


#[global] Instance inherited_dec (key : string) : Decision (inherited key).
Proof. unfold inherited. apply _. Defined.

(** The messages of the two exceptions that escape the webhook endpoint:
    the one [crypto.timingSafeEqual] throws for buffers of different
    lengths, and the one of reading [payload.event] on [null]. *)
Definition signature_length_error : string := "Input buffers must have the same byte length".


(** The backend exposes neither creation mutation: whenever it is probed, it
    answers with a list of names that contains neither. *)
Definition lacks_creation_mutations (W : World) : Prop :=
  forall t, exists names,
    vendure_graphql W t IntrospectMutations = Ok names
    /\ VendureClient.names_include "createFulfillment" names = false
    /\ VendureClient.names_include "addFulfillmentToOrder" names = false.

Definition unsupported_backend_error : string :=
  "Vendure Admin API does not support fulfillment mutations".

(** The report of the batch job on an order whose creation call failed for
    want of a creation mutation. *)
Definition unsupported_report (order : OrderSummary) : Event :=
  ENotify ("Lỗi khi xử lý đơn hàng " +:+ order_code order) (Some unsupported_backend_error).

(** What the batch job does for one order against a backend without
    creation mutations.  It sends no mutation.  If it reaches the creation
    call, which starts with the probe, the probe is the last request for
    this order and it is followed by the report on this order only.  With
    Printify switched off, outside a dry run, that is what happens to every
    order that has outstanding lines. *)
Definition handled_on_its_own (cfg : AutomationConfig) (order : OrderSummary)
    (block : Trace) : Prop :=
  mutations block = []
  /\ (In (EGraphql IntrospectMutations) block ->
      exists before,
        block = before ++ [EGraphql IntrospectMutations; unsupported_report order])
  /\ (printify_enabled (cfg_printify cfg) = false ->
      dryRun (cfg_job cfg) = false ->
      has_outstanding order = true ->
      block = [ENotify ("Create Vendure fulfillment for " +:+ order_code order) None;
               EGraphql IntrospectMutations;
               unsupported_report order]).

(* ===================================================================== *)
(** ** Test vectors for the platform primitives *)
(* ===================================================================== *)

Example sha256_abc :
  Node.hex_of_bytes (Node.sha256 (Node.bytes_of_string "abc"))
  = "ba7816bf8f01cfea414140de5dae2223b00361a396177a9cb410ff61f20015ad".
Proof. vm_compute. reflexivity. Qed.

Example sha256_empty :
  Node.hex_of_bytes (Node.sha256 [])
  = "e3b0c44298fc1c149afbf4c8996fb92427ae41e4649b934ca495991b7852b855".
Proof. vm_compute. reflexivity. Qed.

Example hmac_rfc4231_case2 :
  Node.createHmac_sha256_hex "Jefe" "what do ya want for nothing?"
  = "5bdcc146bf60754e6a042426089575c75a003f089d2739839dec58b964ec3843".
Proof. vm_compute. reflexivity. Qed.


(* ===================================================================== *)
(** ** The helpers on small inputs *)
(* ===================================================================== *)

(** The examples of the Node.js documentation for [Buffer.from(_, 'hex')]. *)
Example Buffer_from_hex_documented :
  Node.Buffer_from_hex "1ag123" = [x1a]
  /\ Node.Buffer_from_hex "1a7" = [x1a]
  /\ Node.Buffer_from_hex "1634" = [x16; x34].
Proof. repeat split. Qed.

Example regex_test_i_examples :
  regex_test_i "INVALID_FULFILLMENT_HANDLER" "invalid_fulfillment_handler_error" = true
  /\ regex_test_i "InvalidFulfillmentHandler" "Error: invalidfulfillmenthandler" = true
  /\ regex_test_i "INVALID_FULFILLMENT_HANDLER" "INSUFFICIENT_STOCK_ERROR" = false.
Proof. repeat split. Qed.

Example error_message_examples :
  join " — " (filter_Boolean [Some "no stock"; None]) = "no stock"
  /\ join " — " (filter_Boolean [Some "refused"; Some "Pending to Shipped"])
     = "refused — Pending to Shipped"
  /\ join " — " (filter_Boolean [Some ""; None]) = "".
Proof. repeat split. Qed.

Example split_name_examples :
  words "  Ada   Lovelace " = ["Ada"; "Lovelace"]
  /\ Job.splitName (Some " Ada Augusta  Lovelace") = ("Ada", "Augusta Lovelace")
  /\ Job.splitName None = ("Customer", "")
  /\ Api.splitFullName (Some "Ada") = ("Ada", "Customer")
  /\ Api.splitFullName (Some "   ") = ("Customer", "Unknown").
Proof. repeat split. Qed.

Example wide_space_examples :
  words ("Ada" +:+ no_break_space +:+ "Lovelace") = ["Ada"; "Lovelace"]
  /\ words (ideographic_space +:+ "Ada" +:+ line_separator +:+ " Lovelace" +:+ no_break_space)
     = ["Ada"; "Lovelace"]
  /\ words ("Zo" +:+ String (ascii_of_nat 195) (String (ascii_of_nat 171) "") +:+ " B")
     = ["Zo" +:+ String (ascii_of_nat 195) (String (ascii_of_nat 171) ""); "B"].
Proof. repeat split. Qed.

Example mapEventToState_examples :
  Job.mapEventToState {| evt_type := Some "Order:Shipped"; evt_status := None;
                         evt_external_id := None; evt_shipments := None |}
  = Some FulfillmentState.Shipped
  /\ Job.mapEventToState {| evt_type := None; evt_status := Some "DELIVERED";
                            evt_external_id := None; evt_shipments := None |}
     = Some FulfillmentState.Delivered
  /\ Job.mapEventToState {| evt_type := Some "order:created"; evt_status := Some "on-hold";
                            evt_external_id := None; evt_shipments := None |}
     = None.
Proof. repeat split. Qed.

Example PRINTIFY_EVENT_MAP_entries :
  Api.PRINTIFY_EVENT_MAP !! "order:sent-to-production" = Some FulfillmentState.Fulfilled
  /\ Api.PRINTIFY_EVENT_MAP !! "order:shipment:created" = Some FulfillmentState.Shipped
  /\ Api.PRINTIFY_EVENT_MAP !! "order:shipment:delivered" = Some FulfillmentState.Delivered
  /\ Api.PRINTIFY_EVENT_MAP !! "order:updated" = None.
Proof. repeat split; vm_compute; reflexivity. Qed.

(* ===================================================================== *)
(** ** Outstanding lines *)
(* ===================================================================== *)

Lemma outstanding_entry_cases (line : OrderLineSummary) :
  outstanding_entry line = if 0 <? remaining line then Some (entry_of line) else None.
Proof.
  unfold outstanding_entry, entry_of, remaining.
  destruct (Z.leb_spec (line_quantity line - line_fulfilledQuantity line) 0) as [Hle | Hgt];
    destruct (Z.ltb_spec 0 (line_quantity line - line_fulfilledQuantity line)); trivial; lia.
Qed.

Lemma outstanding_filter_map (lines : list OrderLineSummary) :
  filter_not_null (map outstanding_entry lines)
  = map entry_of (List.filter (fun l => 0 <? remaining l) lines).
Proof.
  induction lines as [| line rest IH]; simpl; [reflexivity |].
  rewrite outstanding_entry_cases.
  destruct (0 <? remaining line); simpl; now rewrite IH.
Qed.

Lemma outstanding_positive (order : OrderSummary) :
  Forall (fun o => 0 < out_quantity o) (getOutstandingFulfillmentLines order).
Proof.
  unfold getOutstandingFulfillmentLines. rewrite outstanding_filter_map.
  induction (order_lines order) as [| line rest IH]; simpl; [constructor |].
  destruct (Z.ltb_spec 0 (remaining line)); simpl; [constructor |]; assumption.
Qed.

Lemma outstanding_sum (lines : list OrderLineSummary) :
  Forall (fun l => 0 <= line_fulfilledQuantity l <= line_quantity l) lines ->
  sumZ (map out_quantity (filter_not_null (map outstanding_entry lines)))
  = sumZ (map line_quantity lines) - sumZ (map line_fulfilledQuantity lines).
Proof.
  induction 1 as [| line rest Hline _ IH]; simpl; [reflexivity |].
  rewrite outstanding_entry_cases. unfold sumZ in *.
  destruct (Z.ltb_spec 0 (remaining line)) as [Hpos | Hzero]; simpl; rewrite IH;
    unfold remaining in *; lia.
Qed.

(** C2. For an order whose lines all satisfy 0 <= fulfilledQuantity <=
    quantity, [getOutstandingFulfillmentLines] returns, in the order of the
    order's lines, exactly the lines whose outstanding quantity
    (quantity - fulfilledQuantity) is strictly positive, each entry carrying
    that outstanding quantity; hence every returned quantity is positive and
    the returned quantities add up to the sum of the ordered quantities
    minus the sum of the fulfilled quantities. *)
Theorem getOutstandingFulfillmentLines_correct (order : OrderSummary) :
  Forall (fun l => 0 <= line_fulfilledQuantity l <= line_quantity l) (order_lines order) ->
  getOutstandingFulfillmentLines order
  = map entry_of (List.filter (fun l => 0 <? remaining l) (order_lines order))
  /\ Forall (fun o => 0 < out_quantity o) (getOutstandingFulfillmentLines order)
  /\ sumZ (map out_quantity (getOutstandingFulfillmentLines order))
     = sumZ (map line_quantity (order_lines order))
       - sumZ (map line_fulfilledQuantity (order_lines order)).
Proof.
  intros Hinv. split; [| split].
  - apply outstanding_filter_map.
  - apply outstanding_positive.
  - now apply outstanding_sum.
Qed.

(* ===================================================================== *)
(** ** Case-insensitive search *)
(* ===================================================================== *)

Lemma toLowerCase_app (a b : string) :
  toLowerCase (a +:+ b) = toLowerCase a +:+ toLowerCase b.
Proof. induction a as [| c a IH]; simpl; [reflexivity | now rewrite IH]. Qed.

Lemma toLowerCase_split (s u v : string) :
  toLowerCase s = u +:+ v ->
  exists a b, s = a +:+ b /\ toLowerCase a = u /\ toLowerCase b = v.
Proof.
  revert s. induction u as [| c u IH]; intros s Heq.
  - exists "", s. auto.
  - destruct s as [| d s]; simpl in Heq; [discriminate |].
    injection Heq as Hc Hrest.
    destruct (IH _ Hrest) as (a & b & -> & Ha & Hb).
    exists (String d a), b. simpl. now rewrite Hc, Ha.
Qed.

Lemma startsWith_spec (p s : string) :
  startsWith p s = true <-> exists rest, s = p +:+ rest.
Proof.
  revert s. induction p as [| a p IH]; intros s; simpl.
  - split; [intros _; now exists s | reflexivity].
  - destruct s as [| b s].
    + split; [discriminate | intros [rest H]; discriminate].
    + rewrite andb_true_iff, IH, Ascii.eqb_eq. split.
      * intros [-> [rest ->]]. now exists rest.
      * intros [rest H]. injection H as -> ->. eauto.
Qed.

Lemma includes_spec (needle s : string) :
  includes needle s = true <-> exists before rest, s = before +:+ needle +:+ rest.
Proof.
  induction s as [| c s IH]; simpl.
  - rewrite orb_false_r, startsWith_spec. split.
    + intros [rest H]. now exists "", rest.
    + intros (before & rest & H). destruct before; [now exists rest | discriminate].
  - rewrite orb_true_iff, startsWith_spec, IH. split.
    + intros [[rest H] | (before & rest & H)].
      * now exists "", rest.
      * exists (String c before), rest. simpl. now rewrite H.
    + intros (before & rest & H). destruct before as [| d before]; simpl in H.
      * left. now exists rest.
      * right. injection H as _ H. now exists before, rest.
Qed.

Lemma regex_test_i_spec (pat s : string) :
  regex_test_i pat s = true <-> contains_ci pat s.
Proof.
  unfold regex_test_i, contains_ci. rewrite includes_spec. split.
  - intros (u & v & H).
    destruct (toLowerCase_split _ _ _ H) as (before & tail & -> & Hb & Ht).
    destruct (toLowerCase_split _ _ _ Ht) as (found & rest & -> & Hf & Hr).
    now exists before, found, rest.
  - intros (before & found & rest & -> & Hf).
    exists (toLowerCase before), (toLowerCase rest).
    now rewrite !toLowerCase_app, Hf.
Qed.

Lemma isInvalidHandler_spec (r : FulfillmentUnion) :
  VendureClient.isInvalidHandler r = true <-> invalid_handler_error r.
Proof.
  unfold VendureClient.isInvalidHandler, invalid_handler_error.
  now rewrite orb_true_iff, !regex_test_i_spec.
Qed.

(* ===================================================================== *)
(** ** Fulfillment creation protocol *)
(* ===================================================================== *)

Lemma isFulfillmentSuccess_false (r : FulfillmentUnion) :
  fu_typename r <> "Fulfillment" -> isFulfillmentSuccess r = false.
Proof. intros H. unfold isFulfillmentSuccess. now apply bool_decide_eq_false. Qed.

Lemma retry_of_creation_query (modern : bool) (input : CreateFulfillmentArgs) :
  retry_of (creation_query modern input (arg_handlerCode input))
           (creation_query modern input "manual-fulfillment").
Proof. destruct modern; simpl; repeat split. Qed.

(** The failure message [createFulfillment] builds is the text of the
    error. *)
Lemma error_message_text (r : FulfillmentUnion) :
  VendureClient.error_message r = error_text r.
Proof.
  unfold VendureClient.error_message, error_text, filter_Boolean.
  destruct (fu_message r) as [[| a message] |], (fu_transitionError r) as [[| b text] |];
    reflexivity.
Qed.

(** C1. When the first creation attempt is answered with a structured error
    of the invalid-handler class (its error code contains
    INVALID_FULFILLMENT_HANDLER or its message contains
    InvalidFulfillmentHandler, whatever the case of the letters),
    [createFulfillment] sends exactly one more request, equal to the first
    one in every field but the handler code, which is [manual-fulfillment],
    and returns what that retry produced.  For any other structured error
    it sends nothing more and returns a failure whose message is the text
    of that first error: its message and its transition error, joined by a
    dash when it has both. *)
Theorem createFulfillment_retries_once
    (W : World) (input : CreateFulfillmentArgs) (t : Trace)
    (names : list string) (modern : bool) (first : FulfillmentUnion) :
  vendure_graphql W t IntrospectMutations = Ok names ->
  modern = VendureClient.names_include "createFulfillment" names ->
  modern = true \/ VendureClient.names_include "addFulfillmentToOrder" names = true ->
  let probe := EGraphql IntrospectMutations in
  let attempt := creation_query modern input (arg_handlerCode input) in
  let retry := creation_query modern input "manual-fulfillment" in
  answers W (t ++ [probe]) modern input (arg_handlerCode input) first ->
  fu_typename first <> "Fulfillment" ->
  retry_of attempt retry
  /\ (invalid_handler_error first ->
      forall second : FulfillmentUnion,
        answers W (t ++ [probe; EGraphql attempt]) modern input "manual-fulfillment" second ->
        VendureClient.createFulfillment W input t
        = (Ok (reported second), t ++ [probe; EGraphql attempt; EGraphql retry]))
  /\ (~ invalid_handler_error first ->
      VendureClient.createFulfillment W input t
      = (Ok (FulfillmentFailed (error_text first)),
         t ++ [probe; EGraphql attempt])).
Proof.
  intros Hnames Hmodern Hexposed probe attempt retry Hfirst Herror.
  apply isFulfillmentSuccess_false in Herror.
  split; [apply retry_of_creation_query |].
  assert (Hlegacy : modern = false ->
            VendureClient.names_include "addFulfillmentToOrder" names = true)
    by (destruct Hexposed; congruence).
  split.
  - intros Hinvalid second Hsecond.
    apply isInvalidHandler_spec in Hinvalid.
    unfold VendureClient.createFulfillment, bind, VendureClient.graphql, ret, reported.
    rewrite Hnames, <- Hmodern.
    subst probe attempt retry. unfold answers, creation_query in *.
    destruct modern.
    + rewrite Hfirst, Herror, Hinvalid.
      replace ((t ++ [EGraphql IntrospectMutations]) ++ _)
        with (t ++ [EGraphql IntrospectMutations;
                    EGraphql (CreateFulfillmentMutation
                                (VendureClient.modern_input input (arg_handlerCode input)))])
        by now rewrite <- app_assoc.
      rewrite Hsecond, <- app_assoc, error_message_text.
      now destruct (isFulfillmentSuccess second).
    + rewrite (Hlegacy eq_refl), Hfirst, Herror, Hinvalid.
      replace ((t ++ [EGraphql IntrospectMutations]) ++ _)
        with (t ++ [EGraphql IntrospectMutations;
                    EGraphql (AddFulfillmentToOrderMutation
                                (VendureClient.legacy_input input (arg_handlerCode input)
                                   (VendureClient.handlerArgs input)))])
        by now rewrite <- app_assoc.
      rewrite Hsecond, <- app_assoc, error_message_text.
      now destruct (isFulfillmentSuccess second).
  - intros Hother.
    assert (Hno : VendureClient.isInvalidHandler first = false).
    { destruct (VendureClient.isInvalidHandler first) eqn:E; [| reflexivity].
      now apply isInvalidHandler_spec in E. }
    unfold VendureClient.createFulfillment, bind, VendureClient.graphql, ret.
    rewrite Hnames, <- Hmodern.
    subst probe attempt. unfold answers, creation_query in *.
    destruct modern.
    + now rewrite Hfirst, Herror, Hno, <- app_assoc, error_message_text.
    + now rewrite (Hlegacy eq_refl), Hfirst, Herror, Hno, <- app_assoc, error_message_text.
Qed.

Lemma createFulfillment_retries_once_witness :
  VendureClient.createFulfillment (Scripted.world Scripted.strict_handlers) Scripted.two_shirts []
  = (Ok (FulfillmentCreated "F-1" "Pending" (Some "printify")),
     [EGraphql IntrospectMutations;
      EGraphql (CreateFulfillmentMutation
                  (VendureClient.modern_input Scripted.two_shirts "printify"));
      EGraphql (CreateFulfillmentMutation
                  (VendureClient.modern_input Scripted.two_shirts "manual-fulfillment"))]).
Proof.
  refine (proj1 (proj2 (createFulfillment_retries_once
            (Scripted.world Scripted.strict_handlers) Scripted.two_shirts []
            ["login"; "createFulfillment"; "transitionFulfillmentToState"] true
            (Scripted.refused "CreateFulfillmentError" "INVALID_FULFILLMENT_HANDLER"
               "No handler with that code is registered")
            eq_refl eq_refl (or_introl eq_refl) eq_refl _)) _
          (Scripted.created "F-1" (Some "printify")) eq_refl).
  - discriminate.
  - left. exists "", "INVALID_FULFILLMENT_HANDLER", "". split; reflexivity.
Defined.

Lemma getOutstandingFulfillmentLines_correct_witness :
  getOutstandingFulfillmentLines Scripted.partly_fulfilled
  = [{| out_orderLineId := "L1"; out_quantity := 2;
        out_sku := Some "TEE-S"; out_variantName := "Tee S" |}]
  /\ sumZ (map out_quantity (getOutstandingFulfillmentLines Scripted.partly_fulfilled))
     = (3 + 2) - (1 + 2).
Proof.
  assert (Hinv : Forall (fun l => 0 <= line_fulfilledQuantity l <= line_quantity l)
                        (order_lines Scripted.partly_fulfilled)).
  { repeat constructor; simpl; lia. }
  destruct (getOutstandingFulfillmentLines_correct Scripted.partly_fulfilled Hinv)
    as (Hlines & _ & Hsum).
  split; [exact Hlines | exact Hsum].
Defined.

(* ===================================================================== *)
(** ** Partner line items *)
(* ===================================================================== *)














(* ===================================================================== *)
(** ** Hex buffers and the digest *)
(* ===================================================================== *)

Lemma Buffer_from_hex_byte (b : byte) (rest : string) :
  Node.Buffer_from_hex (Node.hex_of_byte b +:+ rest) = b :: Node.Buffer_from_hex rest.
Proof. destruct b; reflexivity. Qed.

Lemma Buffer_from_hex_of_bytes (bs : list byte) :
  Node.Buffer_from_hex (Node.hex_of_bytes bs) = bs.
Proof.
  induction bs as [| b bs IH]; [reflexivity |].
  cbn [Node.hex_of_bytes]. now rewrite Buffer_from_hex_byte, IH.
Qed.

Lemma sha256_length (msg : list byte) : length (Node.sha256 msg) = 32%nat.
Proof. reflexivity. Qed.

Lemma hmac_sha256_length (key msg : list byte) : length (Node.hmac_sha256 key msg) = 32%nat.
Proof. apply sha256_length. Qed.

Lemma hex_of_bytes_truthy (bs : list byte) :
  bs <> [] -> truthy_str (Node.hex_of_bytes bs) = true.
Proof. destruct bs as [| b bs]; [congruence | reflexivity]. Qed.

Lemma hmac_of_not_empty (secret : option string) (rawBody : string) :
  hmac_of secret rawBody <> [].
Proof.
  intros H. pose proof (hmac_sha256_length (Node.bytes_of_string (nullish secret ""))
                          (Node.bytes_of_string rawBody)) as Hlen.
  unfold hmac_of in H. rewrite H in Hlen. discriminate.
Qed.

Lemma timingSafeEqual_true (a b : list byte) :
  Node.timingSafeEqual a b = Some true <-> b = a.
Proof.
  unfold Node.timingSafeEqual. split.
  - destruct (length a =? length b)%nat; [| discriminate].
    intros [= H]. now apply bool_decide_eq_true in H.
  - intros ->. rewrite Nat.eqb_refl. f_equal. now apply bool_decide_eq_true.
Qed.

(* ===================================================================== *)
(** ** Webhook authenticity in the webhook endpoint (part_005) *)
(* ===================================================================== *)

Lemma verifySignature_accepts (rawBody : string) (secret signature : option string) :
  truthy secret = true ->
  (Api.verifySignature rawBody secret signature = Ok true
   <-> exists sig, signature = Some sig /\ Node.Buffer_from_hex sig = hmac_of secret rawBody).
Proof.
  intros Hsecret. unfold Api.verifySignature. rewrite Hsecret. cbn [negb].
  unfold Node.createHmac_sha256_hex. fold (hmac_of secret rawBody).
  rewrite Buffer_from_hex_of_bytes.
  destruct signature as [sig |]; cbn [truthy nullish].
  - destruct (truthy_str sig) eqn:Hsig; cbn [negb].
    + destruct (Node.timingSafeEqual (hmac_of secret rawBody) (Node.Buffer_from_hex sig))
        as [[|] |] eqn:Hcmp.
      * apply timingSafeEqual_true in Hcmp. split; [intros _; now exists sig | reflexivity].
      * split; [discriminate |]. intros (sig' & [= <-] & Heq).
        apply timingSafeEqual_true in Heq. congruence.
      * split; [discriminate |]. intros (sig' & [= <-] & Heq).
        apply timingSafeEqual_true in Heq. congruence.
    + split; [discriminate |]. intros (sig' & [= <-] & Heq).
      destruct sig; [| discriminate]. exfalso.
      apply (hmac_of_not_empty secret rawBody). now rewrite <- Heq.
  - split; [discriminate | intros (sig' & [=] & _)].
Qed.

(** C5, as the code has it.  Without a configured secret every request
    passes.  With a secret, the signature that is the hex HMAC-SHA256 of the
    raw body passes, and a signature passes exactly when it is present and
    its hexadecimal reading (as [Buffer.from(_, 'hex')] reads it) is the
    HMAC: any signature that reads as other bytes is not accepted.  When the
    [x-automation-secret] header carries the configured job secret, the
    signature is not looked at and the request goes on as accepted. *)
Theorem verifySignature_correct (rawBody : string) (secret signature : option string) :
  (truthy secret = false -> Api.verifySignature rawBody secret signature = Ok true)
  /\ (truthy secret = true ->
      signature = Some (Node.createHmac_sha256_hex (nullish secret "") rawBody) ->
      Api.verifySignature rawBody secret signature = Ok true)
  /\ (truthy secret = true ->
      (Api.verifySignature rawBody secret signature = Ok true
       <-> exists sig, signature = Some sig
                       /\ Node.Buffer_from_hex sig = hmac_of secret rawBody))
  /\ (forall (W : World) (config : AutomationConfig) (req : Api.WebhookRequest)
             (shared : string) (t : Trace),
        Api.wreq_method req = Some "POST" ->
        nullish (Api.wreq_body req) "" = rawBody ->
        truthy_str shared = true ->
        job_secret (cfg_job config) = Some shared ->
        Api.getHeader (Api.wreq_headers req) "x-automation-secret" = Some shared ->
        Api.webhookHandler W (Ok config) req t = Api.accept W config true rawBody t).
Proof.
  repeat split.
  - intros Hsecret. unfold Api.verifySignature. now rewrite Hsecret.
  - intros Hsecret ->. apply verifySignature_accepts; [assumption |].
    eexists. split; [reflexivity |]. apply Buffer_from_hex_of_bytes.
  - now apply verifySignature_accepts.
  - now apply verifySignature_accepts.
  - intros W config req shared t Hmethod Hbody Hshared Hjob Hheader.
    unfold Api.webhookHandler, Api.hasBypass.
    rewrite Hmethod, Hbody, Hheader, Hjob. cbn [truthy]. rewrite Hshared.
    rewrite !bool_decide_eq_true_2 by reflexivity.
    reflexivity.
Qed.

Lemma verifySignature_correct_witness :
  Api.verifySignature "{}" (Some "whsec") (Some Scripted.exact_signature) = Ok true.
Proof.
  apply (proj1 (proj2 (verifySignature_correct "{}" (Some "whsec")
                         (Some Scripted.exact_signature)))).
  - reflexivity.
  - vm_compute. reflexivity.
Defined.

(** A signature that is not the hex HMAC of the body and passes. *)
Lemma verifySignature_counterexample :
  Scripted.capital_signature <> Node.createHmac_sha256_hex "whsec" "{}"
  /\ Api.verifySignature "{}" (Some "whsec") (Some Scripted.capital_signature) = Ok true.
Proof.
  split.
  - vm_compute. discriminate.
  - vm_compute. reflexivity.
Qed.

(* ===================================================================== *)
(** ** Webhook reconciliation in the webhook endpoint (part_005) *)
(* ===================================================================== *)








(** C3 on the webhook endpoint.  For the event of the specification's
    example the endpoint first asks for the transition to [Shipped] and only
    then updates the tracking data; when the shipment names a carrier but no
    tracking number it never updates the tracking data. *)
Lemma webhook_endpoint_transitions_before_tracking :
  mutations (snd (Api.webhookHandler (Scripted.world Scripted.shop_with_fulfillment)
                    (Ok (Scripted.config None None))
                    (Scripted.webhook_post Scripted.shipment_created) []))
  = [EGraphql (TransitionFulfillmentToState "F-1" "Shipped");
     EGraphql (UpdateFulfillmentTracking "F-1" (Some "T1") (Some "DHL"))]
  /\ mutations (snd (Api.webhookHandler (Scripted.world Scripted.shop_with_fulfillment)
                       (Ok (Scripted.config None None))
                       (Scripted.webhook_post Scripted.carrier_only) []))
     = [EGraphql (TransitionFulfillmentToState "F-1" "Shipped")].
Proof. split; vm_compute; reflexivity. Qed.

(** C6 on the webhook endpoint.  A recognised event for an order without
    fulfillment is answered with status 200 and [{success: true}], and the
    run is reported as a processed webhook. *)
Lemma webhook_endpoint_without_fulfillment :
  Api.webhookHandler (Scripted.world Scripted.shop_without_fulfillment)
    (Ok (Scripted.config None None)) (Scripted.webhook_post Scripted.shipment_created) []
  = (Ok {| Api.status := 200; Api.allow_header := None; Api.body := Api.Success false |},
     [ELogin "admin" "admin-password";
      EGraphql (OrderByCode "ORD123");
      ENotify "Đã xử lý webhook Printify"
        (Some "Đơn ORD123 → fulfillment N/A chuyển sang trạng thái Shipped.")]).
Proof. vm_compute. reflexivity. Qed.

(* ===================================================================== *)
(** ** Webhook authenticity in the webhook job (part_002) *)
(* ===================================================================== *)

(** C10. In the webhook job (part_002), [verifySignature] answers [true]
    whatever the secret and the body when the signature is missing or empty,
    and whatever the secret and the signature when the body is empty; so a
    request that carries no signature header, or an empty one, is accepted
    and processed even though a webhook secret is configured. *)
Theorem unsigned_webhook_is_accepted (W : World) (cfg : AutomationConfig)
    (secret bodyRaw signature : option string)
    (body : Job.WebhookBody) (headers : gmap string string) (t : Trace) :
  (truthy signature = false \/ truthy bodyRaw = false ->
   Job.verifySignature W secret bodyRaw signature = true)
  /\ (truthy (headers !! "X-Printify-Signature") = false ->
      truthy (headers !! "x-printify-signature") = false ->
      Job.handlePrintifyWebhook W (Ok cfg) body headers t
      = Job.process_event W cfg (Job.body_text W body) t).
Proof.
  split.
  - intros [H | H]; unfold Job.verifySignature; rewrite H; cbn [negb];
      now rewrite ?orb_true_r.
  - intros Hupper Hlower.
    unfold Job.handlePrintifyWebhook, bind, Job.lift, Job.verifySignature, or_opt.
    rewrite Hupper.
    assert (Hempty : truthy (Some (or_else (headers !! "x-printify-signature") "")) = false).
    { destruct (headers !! "x-printify-signature") as [s |]; [| reflexivity].
      cbn in *. now rewrite Hlower. }
    rewrite Hempty. cbn [negb]. now rewrite orb_true_r.
Qed.

Lemma unsigned_webhook_is_accepted_witness :
  Job.verifySignature (Scripted.world Scripted.shop_with_fulfillment)
    (Some "whsec") (Some "{}") None = true
  /\ Job.handlePrintifyWebhook (Scripted.world Scripted.shop_with_fulfillment)
       (Ok (Scripted.config None (Some "whsec")))
       (Job.BodyText (Scripted.render_event Scripted.shipped_event)) ∅ []
     = Job.process_event (Scripted.world Scripted.shop_with_fulfillment)
         (Scripted.config None (Some "whsec"))
         (Scripted.render_event Scripted.shipped_event) [].
Proof.
  destruct (unsigned_webhook_is_accepted (Scripted.world Scripted.shop_with_fulfillment)
              (Scripted.config None (Some "whsec")) (Some "whsec") (Some "{}") None
              (Job.BodyText (Scripted.render_event Scripted.shipped_event)) ∅ [])
    as [Hverify Hhandler].
  split.
  - apply Hverify. now left.
  - apply Hhandler; reflexivity.
Defined.

(* ===================================================================== *)
(** ** Placeholder email *)
(* ===================================================================== *)

Lemma printify_requests_app (t1 t2 : Trace) :
  printify_requests (t1 ++ t2) = printify_requests t1 ++ printify_requests t2.
Proof. apply omap_app. Qed.

Ltac silent := rewrite <- ?app_assoc; cbn [app]; eexists; split; reflexivity.

Lemma createFulfillment_sends_no_order (W : World) (input : CreateFulfillmentArgs) (t : Trace) :
  exists suffix,
    snd (VendureClient.createFulfillment W input t) = t ++ suffix
    /\ printify_requests suffix = [].
Proof.
  unfold VendureClient.createFulfillment, bind, VendureClient.graphql, ret, throw.
  repeat match goal with
         | |- context [vendure_graphql ?W ?t ?q] => destruct (vendure_graphql W t q)
         | |- context [if ?b then _ else _] => destruct b
         end; silent.
Qed.

Lemma fulfillOrder_requests (W : World) (printify : option PrintifyClient.Options)
    (cfg : AutomationConfig) (order : OrderSummary) (t : Trace) :
  exists suffix,
    snd (Job.fulfillOrder W printify cfg order t) = t ++ suffix
    /\ Forall (from_job cfg order)
              (printify_requests suffix).
Proof.
  assert (Htail : forall lines id t0 pre,
            t0 = t ++ pre ->
            Forall (from_job cfg order)
                   (printify_requests pre) ->
            exists suffix,
              snd (Job.create_vendure_fulfillment W cfg order lines id t0) = t ++ suffix
              /\ Forall (from_job cfg order)
                        (printify_requests suffix)).
  { intros lines id t0 pre -> Hpre. unfold Job.create_vendure_fulfillment.
    destruct (dryRun _).
    - unfold TelegramReporter.notify, emit. cbn [snd]. rewrite <- app_assoc.
      eexists. split; [reflexivity |]. rewrite printify_requests_app. cbn. now rewrite app_nil_r.
    - unfold bind, TelegramReporter.notify at 1, emit.
      match goal with
      | |- context [VendureClient.createFulfillment W ?i ?t1] =>
          destruct (createFulfillment_sends_no_order W i t1) as (mid & Hmid & Hnone);
          destruct (VendureClient.createFulfillment W i t1) as [[created | e] t2]
      end; cbn [snd] in Hmid; subst t2.
      + destruct created; unfold throw, TelegramReporter.notify, emit; cbn [snd];
          rewrite <- ?app_assoc; eexists; (split; [reflexivity |]);
          rewrite !printify_requests_app, Hnone; cbn; now rewrite ?app_nil_r.
      + cbn [snd]. rewrite <- ?app_assoc. eexists. split; [reflexivity |].
        rewrite !printify_requests_app, Hnone. cbn. now rewrite ?app_nil_r. }
  unfold Job.fulfillOrder.
  destruct (length _ =? 0)%nat.
  { unfold TelegramReporter.notify, emit. cbn [snd]. eexists. split; [reflexivity |]. constructor. }
  destruct (if printify_enabled _ then printify else None) as [client |].
  2:{ apply (Htail _ _ t []); [now rewrite app_nil_r | constructor]. }
  destruct (0 <? length _)%nat.
  { unfold TelegramReporter.notify, emit. cbn [snd]. eexists. split; [reflexivity |]. constructor. }
  unfold bind, Job.lift.
  destruct (Job.buildPrintifyLineItems order _) as [items | e].
  2:{ cbn [snd]. exists []. rewrite app_nil_r. split; [reflexivity | constructor]. }
  unfold TelegramReporter.notify at 1, emit, PrintifyClient.createOrder.
  destruct (PrintifyClient.opt_mock client).
  - unfold TelegramReporter.notify at 1, emit.
    eapply Htail; [rewrite <- app_assoc; reflexivity | constructor].
  - destruct (printify_post_order W _ _) as [resp | e].
    + unfold TelegramReporter.notify at 1, emit.
      eapply Htail; [rewrite <- !app_assoc; reflexivity |].
      cbn. constructor; [now exists items | constructor].
    + cbn [snd]. rewrite <- app_assoc. eexists. split; [reflexivity |].
      cbn. constructor; [now exists items | constructor].
Qed.

Lemma process_order_requests (W : World) (config : AutomationConfig)
    (printify : option PrintifyClient.Options) (canVendureFulfill : bool)
    (order : OrderSummary) (acc : Api.Tally) (t : Trace) :
  exists suffix,
    snd (Api.process_order W config printify canVendureFulfill order acc t) = t ++ suffix
    /\ Forall (from_endpoint config order) (printify_requests suffix).
Proof.
  assert (Htail : forall outstanding t0 pre,
            t0 = t ++ pre ->
            Forall (from_endpoint config order) (printify_requests pre) ->
            exists suffix,
              snd (Api.vendure_step W config canVendureFulfill order outstanding acc t0)
              = t ++ suffix
              /\ Forall (from_endpoint config order) (printify_requests suffix)).
  { intros outstanding t0 pre -> Hpre. unfold Api.vendure_step.
    destruct canVendureFulfill; cbn [negb].
    - unfold bind, try_catch, ret.
      match goal with
      | |- context [VendureClient.createFulfillment W ?i ?t1] =>
          destruct (createFulfillment_sends_no_order W i t1) as (mid & Hmid & Hnone);
          destruct (VendureClient.createFulfillment W i t1) as [[created | e] t2]
      end; cbn [snd] in Hmid; subst t2.
      + destruct created; unfold TelegramReporter.notify, emit, ret; cbn [snd];
          rewrite <- ?app_assoc; eexists; (split; [reflexivity |]);
          rewrite !printify_requests_app, Hnone; cbn; now rewrite ?app_nil_r.
      + unfold TelegramReporter.notify, emit, ret; cbn [snd].
        rewrite <- ?app_assoc; eexists; (split; [reflexivity |]).
        rewrite !printify_requests_app, Hnone; cbn; now rewrite ?app_nil_r.
    - unfold bind, TelegramReporter.notify, emit, ret. cbn [snd].
      rewrite <- ?app_assoc. eexists. split; [reflexivity |].
      rewrite printify_requests_app. cbn. now rewrite app_nil_r. }
  unfold Api.process_order.
  destruct (length _ =? 0)%nat.
  { exists []. rewrite app_nil_r. split; [reflexivity | constructor]. }
  destruct (dryRun _).
  { exists []. rewrite app_nil_r. split; [reflexivity | constructor]. }
  destruct printify as [client |].
  2:{ apply (Htail _ t []); [now rewrite app_nil_r | constructor]. }
  unfold bind, Api.printify_step, try_catch.
  destruct (order_shippingAddress order) as [address |].
  2:{ unfold throw, ret, TelegramReporter.notify, emit. cbn [snd].
      eexists. split; [reflexivity | constructor]. }
  unfold bind, Api.lift.
  destruct (Api.buildPrintifyLineItems _ _) as [items | e].
  2:{ unfold ret, TelegramReporter.notify, emit. cbn [snd].
      eexists. split; [reflexivity | constructor]. }
  unfold PrintifyClient.createOrder.
  destruct (PrintifyClient.opt_mock client).
  - unfold TelegramReporter.notify at 1, emit, ret.
    eapply Htail; [reflexivity | constructor].
  - destruct (printify_post_order W _ _) as [resp | e].
    + unfold TelegramReporter.notify at 1, emit, ret.
      eapply Htail; [rewrite <- !app_assoc; reflexivity |].
      cbn. constructor; [now exists address, items | constructor].
    + unfold ret, TelegramReporter.notify, emit. cbn [snd].
      rewrite <- app_assoc. eexists. split; [reflexivity |].
      cbn. constructor; [now exists address, items | constructor].
Qed.

Lemma job_placeholder (cfg : AutomationConfig) (order : OrderSummary)
    (input : CreatePrintifyOrderInput) :
  email_absent order -> from_job cfg order input ->
  email (address_to input) = "unknown@example.com".
Proof.
  unfold email_absent, from_job, Job.order_input, Job.address_of.
  intros Habsent [items ->]. cbn [address_to]. destruct (Job.splitName _). cbn [email].
  destruct (order_customer order) as [c |]; [now rewrite Habsent | reflexivity].
Qed.

Lemma endpoint_placeholder (config : AutomationConfig) (order : OrderSummary)
    (input : CreatePrintifyOrderInput) :
  email_absent order -> from_endpoint config order input ->
  email (address_to input) = "no-reply@example.com".
Proof.
  unfold email_absent, from_endpoint, Api.order_input, Api.address_of.
  intros Habsent (address & items & ->). cbn [address_to].
  destruct (Api.splitFullName _). cbn [email].
  destruct (order_customer order) as [c |]; [now rewrite Habsent | reflexivity].
Qed.

(** The batch job (part_001): for an order whose customer has no email
    address, every Printify order the job builds, and every one a run of
    [fulfillOrder] sends, carries the documented placeholder
    [unknown@example.com]. *)
Theorem missing_email_placeholder (W : World) (cfg : AutomationConfig) (order : OrderSummary) :
  email_absent order ->
  (forall items,
      email (address_to (Job.order_input cfg order items)) = "unknown@example.com")
  /\ (forall (printify : option PrintifyClient.Options) (t : Trace),
        exists suffix,
          snd (Job.fulfillOrder W printify cfg order t) = t ++ suffix
          /\ Forall (fun input => email (address_to input) = "unknown@example.com")
                    (printify_requests suffix)).
Proof.
  intros Habsent. split.
  - intros items. apply (job_placeholder cfg order); [assumption | now exists items].
  - intros printify t.
    destruct (fulfillOrder_requests W printify cfg order t) as (suffix & Htrace & Hall).
    exists suffix. split; [assumption |].
    eapply Forall_impl; [exact Hall |]. intros input. now apply (job_placeholder cfg order).
Qed.

Lemma missing_email_placeholder_witness :
  email (address_to (Job.order_input Scripted.printing_config Scripted.anonymous_order []))
  = "unknown@example.com".
Proof.
  apply (proj1 (missing_email_placeholder (Scripted.world Scripted.printing_shop)
                  Scripted.printing_config Scripted.anonymous_order I)).
Defined.

(** The batch endpoint (part_004): for an order whose customer has no email
    address, every Printify order the endpoint builds, and every one the
    loop body sends, carries the email [no-reply@example.com]. *)
Lemma endpoint_email_placeholder (W : World) (cfg : AutomationConfig) (order : OrderSummary) :
  email_absent order ->
  (forall address items,
      email (address_to (Api.order_input cfg order address items)) = "no-reply@example.com")
  /\ (forall (printify : option PrintifyClient.Options) (canVendureFulfill : bool)
             (acc : Api.Tally) (t : Trace),
        exists suffix,
          snd (Api.process_order W cfg printify canVendureFulfill order acc t) = t ++ suffix
          /\ Forall (fun input => email (address_to input) = "no-reply@example.com")
                    (printify_requests suffix)).
Proof.
  intros Habsent. split.
  - intros address items.
    apply (endpoint_placeholder cfg order); [assumption | now exists address, items].
  - intros printify can acc t.
    destruct (process_order_requests W cfg printify can order acc t)
      as (suffix & Htrace & Hall).
    exists suffix. split; [assumption |].
    eapply Forall_impl; [exact Hall |]. intros input. now apply (endpoint_placeholder cfg order).
Qed.

Lemma endpoint_email_placeholder_witness :
  email (address_to (Api.order_input Scripted.printing_config Scripted.anonymous_order
                       Scripted.some_address []))
  = "no-reply@example.com".
Proof.
  apply (proj1 (endpoint_email_placeholder (Scripted.world Scripted.printing_shop)
                  Scripted.printing_config Scripted.anonymous_order I)).
Defined.

(** C9.  The batch endpoint departs from the documented placeholder.  For
    an order without customer email, the Printify order the loop of the
    batch endpoint (part_004) sends carries the email
    [no-reply@example.com], where the claim asks for [unknown@example.com];
    the batch job (part_001), run on the same order, sends
    [unknown@example.com]. *)
Theorem batch_endpoint_missing_email :
  email_absent Scripted.anonymous_order
  /\ map (fun input => email (address_to input))
         (printify_requests
            (snd (Api.process_order (Scripted.world Scripted.printing_shop)
                    Scripted.printing_config (Some Scripted.printify_client) true
                    Scripted.anonymous_order
                    {| Api.successCount := 0; Api.failures := []; Api.dryRunNotes := [] |} [])))
     = ["no-reply@example.com"]
  /\ map (fun input => email (address_to input))
         (printify_requests
            (snd (Job.fulfillOrder (Scripted.world Scripted.printing_shop)
                    (Some Scripted.printify_client) Scripted.printing_config
                    Scripted.anonymous_order [])))
     = ["unknown@example.com"].
Proof. split; [exact I | split; vm_compute; reflexivity]. Qed.

(* ===================================================================== *)
(** ** A backend without fulfillment mutations *)
(* ===================================================================== *)

Lemma mutations_app (t1 t2 : Trace) : mutations (t1 ++ t2) = mutations t1 ++ mutations t2.
Proof. apply List.filter_app. Qed.

Ltac quiet_trace :=
  rewrite ?mutations_app; cbn [mutations List.filter is_mutation]; rewrite ?app_nil_r;
  try reflexivity.

Lemma createFulfillment_unsupported (W : World) (input : CreateFulfillmentArgs) (t : Trace)
    (names : list string) :
  vendure_graphql W t IntrospectMutations = Ok names ->
  VendureClient.names_include "createFulfillment" names = false ->
  VendureClient.names_include "addFulfillmentToOrder" names = false ->
  VendureClient.createFulfillment W input t
  = (Throw "Vendure Admin API does not support fulfillment mutations",
     t ++ [EGraphql IntrospectMutations]).
Proof.
  intros Hnames Hmodern Hlegacy.
  unfold VendureClient.createFulfillment, bind, VendureClient.graphql.
  now rewrite Hnames, Hmodern, Hlegacy.
Qed.

Lemma printify_step_quiet (W : World) (client : PrintifyClient.Options)
    (config : AutomationConfig) (order : OrderSummary)
    (outstanding : list OutstandingLine) (t : Trace) :
  exists failed t',
    Api.printify_step W client config order outstanding t = (Ok failed, t')
    /\ mutations t' = mutations t.
Proof.
  unfold Api.printify_step, try_catch.
  destruct (order_shippingAddress order) as [address |].
  - unfold bind, Api.lift.
    destruct (Api.buildPrintifyLineItems outstanding _) as [items | e].
    + unfold PrintifyClient.createOrder.
      destruct (PrintifyClient.opt_mock client).
      * unfold TelegramReporter.notify, emit, ret. eexists _, _. split; [reflexivity |].
        quiet_trace.
      * destruct (printify_post_order W t _) as [resp | e].
        -- unfold TelegramReporter.notify, emit, ret. eexists _, _. split; [reflexivity |].
           quiet_trace.
        -- unfold ret. eexists _, _. split; [reflexivity |]. quiet_trace.
    + unfold ret. eexists _, _. split; reflexivity.
  - unfold throw, ret. eexists _, _. split; reflexivity.
Qed.

Lemma process_order_unsupported (W : World) (config : AutomationConfig)
    (printify : option PrintifyClient.Options) (order : OrderSummary)
    (acc : Api.Tally) (t : Trace) :
  dryRun (cfg_job config) = false ->
  exists acc' t',
    Api.process_order W config printify false order acc t = (Ok acc', t')
    /\ mutations t' = mutations t
    /\ Api.successCount acc' = Api.successCount acc
    /\ map fst (Api.failures acc')
       = map fst (Api.failures acc)
         ++ (if has_outstanding order then [order_code order] else []).
Proof.
  intros Hwet. unfold Api.process_order, has_outstanding.
  destruct (length (getOutstandingFulfillmentLines order) =? 0)%nat; cbn [negb].
  - exists acc, t. rewrite app_nil_r. now repeat split.
  - rewrite Hwet.
    assert (Hvendure : forall t0, mutations t0 = mutations t ->
              exists acc' t',
                Api.vendure_step W config false order
                  (getOutstandingFulfillmentLines order) acc t0 = (Ok acc', t')
                /\ mutations t' = mutations t
                /\ Api.successCount acc' = Api.successCount acc
                /\ map fst (Api.failures acc')
                   = map fst (Api.failures acc) ++ [order_code order]).
    { intros t0 Ht0. unfold Api.vendure_step. cbn [negb].
      unfold bind, TelegramReporter.notify, emit, ret. eexists _, _.
      split; [reflexivity |]. split; [quiet_trace; assumption |].
      split; [reflexivity |]. cbn. now rewrite map_app. }
    destruct printify as [client |]; [| now apply Hvendure].
    unfold bind.
    destruct (printify_step_quiet W client config order
                (getOutstandingFulfillmentLines order) t) as (failed & t1 & -> & Ht1).
    destruct failed as [reason |]; [| now apply Hvendure].
    unfold TelegramReporter.notify, emit, ret. eexists _, _.
    split; [reflexivity |]. split; [quiet_trace; assumption |].
    split; [reflexivity |]. cbn. now rewrite map_app.
Qed.

Lemma batch_loop_unsupported (W : World) (config : AutomationConfig)
    (printify : option PrintifyClient.Options) (orders : list OrderSummary)
    (acc : Api.Tally) (t : Trace) :
  dryRun (cfg_job config) = false ->
  exists acc' t',
    for_each orders (Api.process_order W config printify false) acc t = (Ok acc', t')
    /\ mutations t' = mutations t
    /\ Api.successCount acc' = Api.successCount acc
    /\ map fst (Api.failures acc')
       = map fst (Api.failures acc) ++ map order_code (List.filter has_outstanding orders).
Proof.
  intros Hwet. revert acc t. induction orders as [| order rest IH]; intros acc t.
  - exists acc, t. cbn. rewrite app_nil_r. now repeat split.
  - cbn [for_each]. unfold bind.
    destruct (process_order_unsupported W config printify order acc t Hwet)
      as (acc1 & t1 & -> & Ht1 & Hcount1 & Hfail1).
    destruct (IH acc1 t1) as (acc2 & t2 & -> & Ht2 & Hcount2 & Hfail2).
    exists acc2, t2. split; [reflexivity |]. split; [congruence |]. split; [congruence |].
    rewrite Hfail2, Hfail1, <- app_assoc. f_equal.
    cbn [List.filter]. now destruct (has_outstanding order).
Qed.

(** The loop of [runFulfillOrders] is the guarded loop. *)
Lemma runFulfillOrders_loop (W : World) (printify : option PrintifyClient.Options)
    (cfg : AutomationConfig) (orders : list OrderSummary) :
  for_each orders
    (fun order _ =>
       try_catch (Job.fulfillOrder W printify cfg order)
         (fun message =>
            TelegramReporter.notify ("Lỗi khi xử lý đơn hàng " +:+ order_code order)
              (Some message))) tt
  = for_each orders (guarded_fulfillOrder W printify cfg) tt.
Proof. reflexivity. Qed.

Lemma supportsCreateFulfillment_unsupported (W : World) (t : Trace) :
  lacks_creation_mutations W ->
  VendureClient.supportsCreateFulfillment W t = (Ok false, t ++ [EGraphql IntrospectMutations]).
Proof.
  intros Hlacks. destruct (Hlacks t) as (names & Hnames & Hmodern & Hlegacy).
  unfold VendureClient.supportsCreateFulfillment, try_catch, bind, VendureClient.graphql, ret.
  now rewrite Hnames, Hmodern, Hlegacy.
Qed.

Lemma create_vendure_fulfillment_unsupported (W : World) (cfg : AutomationConfig)
    (order : OrderSummary) (lines : list FulfillmentLineInput) (id : option string)
    (t : Trace) :
  lacks_creation_mutations W ->
  Job.create_vendure_fulfillment W cfg order lines id t
  = if dryRun (cfg_job cfg)
    then (Ok tt, t ++ [ENotify ("Dry-run: would create Vendure fulfillment for "
                                +:+ order_code order) None])
    else (Throw unsupported_backend_error,
          t ++ [ENotify ("Create Vendure fulfillment for " +:+ order_code order) None;
                EGraphql IntrospectMutations]).
Proof.
  intros Hlacks. unfold Job.create_vendure_fulfillment.
  destruct (dryRun (cfg_job cfg)); [reflexivity |].
  unfold bind, TelegramReporter.notify at 1, emit.
  match goal with
  | |- context [VendureClient.createFulfillment W ?i ?t1] =>
      destruct (Hlacks t1) as (names & Hnames & Hmodern & Hlegacy);
      rewrite (createFulfillment_unsupported W i t1 names Hnames Hmodern Hlegacy)
  end.
  now rewrite <- app_assoc.
Qed.

Ltac own_block :=
  rewrite <- ?app_assoc; cbn [app]; eexists; split; [reflexivity |];
  split; [reflexivity |];
  split; [cbn [In]; intros Hin; exfalso; intuition discriminate |].

(** One order of the batch job against a backend without creation
    mutations. *)
Lemma guarded_fulfillOrder_unsupported (W : World) (printify : option PrintifyClient.Options)
    (cfg : AutomationConfig) (order : OrderSummary) (t : Trace) :
  lacks_creation_mutations W ->
  exists block,
    guarded_fulfillOrder W printify cfg order tt t = (Ok tt, t ++ block)
    /\ handled_on_its_own cfg order block.
Proof.
  intros Hlacks. unfold handled_on_its_own.
  assert (Htail : forall lines id pre,
            mutations pre = [] ->
            ~ In (EGraphql IntrospectMutations) pre ->
            (printify_enabled (cfg_printify cfg) = false -> pre = []) ->
            exists block,
              match Job.create_vendure_fulfillment W cfg order lines id (t ++ pre) with
              | (Ok a, t') => (Ok a, t')
              | (Throw e, t') =>
                  TelegramReporter.notify ("Lỗi khi xử lý đơn hàng " +:+ order_code order)
                    (Some e) t'
              end = (Ok tt, t ++ block)
              /\ mutations block = []
              /\ (In (EGraphql IntrospectMutations) block ->
                  exists before,
                    block = before ++ [EGraphql IntrospectMutations; unsupported_report order])
              /\ (printify_enabled (cfg_printify cfg) = false ->
                  dryRun (cfg_job cfg) = false ->
                  has_outstanding order = true ->
                  block = [ENotify ("Create Vendure fulfillment for " +:+ order_code order)
                             None;
                           EGraphql IntrospectMutations;
                           unsupported_report order])).
  { intros lines id pre Hquiet Hnone Hfirst.
    rewrite (create_vendure_fulfillment_unsupported W cfg order lines id _ Hlacks).
    destruct (dryRun (cfg_job cfg)).
    - exists (pre ++ [ENotify ("Dry-run: would create Vendure fulfillment for "
                               +:+ order_code order) None]).
      split; [now rewrite app_assoc |]. split; [now rewrite mutations_app, Hquiet |].
      split; [| discriminate].
      intros Hin. apply in_app_or in Hin as [Hin | Hin]; [contradiction |].
      cbn [In] in Hin. exfalso. intuition discriminate.
    - unfold TelegramReporter.notify, emit.
      exists (pre ++ [ENotify ("Create Vendure fulfillment for " +:+ order_code order) None;
                      EGraphql IntrospectMutations; unsupported_report order]).
      split; [now rewrite <- !app_assoc |]. split; [now rewrite mutations_app, Hquiet |].
      split.
      + intros _.
        exists (pre ++ [ENotify ("Create Vendure fulfillment for " +:+ order_code order)
                          None]).
        now rewrite <- app_assoc.
      + intros Hoff _ _. now rewrite (Hfirst Hoff). }
  unfold guarded_fulfillOrder, try_catch, Job.fulfillOrder.
  destruct (length (getOutstandingFulfillmentLines order) =? 0)%nat eqn:Hlen.
  { unfold TelegramReporter.notify, emit. own_block.
    intros _ _ Hsome. unfold has_outstanding in Hsome. rewrite Hlen in Hsome. discriminate. }
  destruct (printify_enabled (cfg_printify cfg)) eqn:Henabled; cbv iota.
  2:{ destruct (Htail (map (fun l => {| orderLineId := out_orderLineId l;
                                         quantity := out_quantity l |})
                           (getOutstandingFulfillmentLines order)) None [])
        as (block & Hrun & Hblock); [reflexivity | intros [] | reflexivity |].
      rewrite app_nil_r in Hrun. exists block. split; [exact Hrun | exact Hblock]. }
  destruct printify as [client |].
  2:{ destruct (Htail (map (fun l => {| orderLineId := out_orderLineId l;
                                         quantity := out_quantity l |})
                           (getOutstandingFulfillmentLines order)) None [])
        as (block & Hrun & Hblock); [reflexivity | intros [] | discriminate |].
      rewrite app_nil_r in Hrun. exists block. split; [exact Hrun | exact Hblock]. }
  destruct (0 <? length _)%nat.
  { unfold TelegramReporter.notify, emit. own_block. discriminate. }
  unfold bind, Job.lift.
  destruct (Job.buildPrintifyLineItems order _) as [items | e].
  2:{ unfold TelegramReporter.notify, emit. own_block. discriminate. }
  unfold TelegramReporter.notify at 1, emit, PrintifyClient.createOrder.
  destruct (PrintifyClient.opt_mock client).
  - unfold TelegramReporter.notify at 1, emit. rewrite <- app_assoc.
    apply Htail; [reflexivity | cbn [In app]; intuition discriminate | discriminate].
  - destruct (printify_post_order W _ _) as [resp | e].
    + unfold TelegramReporter.notify at 1, emit. rewrite <- !app_assoc.
      apply Htail; [reflexivity | cbn [In app]; intuition discriminate | discriminate].
    + unfold TelegramReporter.notify, emit. own_block. discriminate.
Qed.

Lemma job_loop_unsupported (W : World) (printify : option PrintifyClient.Options)
    (cfg : AutomationConfig) (orders : list OrderSummary) (t : Trace) :
  lacks_creation_mutations W ->
  exists blocks,
    for_each orders (guarded_fulfillOrder W printify cfg) tt t = (Ok tt, t ++ concat blocks)
    /\ Forall2 (handled_on_its_own cfg) orders blocks.
Proof.
  intros Hlacks. revert t. induction orders as [| order rest IH]; intros t.
  - exists []. cbn. rewrite app_nil_r. split; [reflexivity | constructor].
  - cbn [for_each]. unfold bind.
    destruct (guarded_fulfillOrder_unsupported W printify cfg order t Hlacks)
      as (block & -> & Hblock).
    destruct (IH (t ++ block)) as (blocks & -> & Hblocks).
    exists (block :: blocks). cbn [concat]. rewrite <- app_assoc.
    split; [reflexivity | now constructor].
Qed.

(** The whole batch endpoint against a backend without creation mutations,
    outside a dry run. *)
Lemma fulfillHandler_unsupported (W : World) (config : AutomationConfig)
    (req : Api.FulfillRequest) (items : list RawOrder) (t : Trace) :
  let login := ELogin (username (cfg_vendure config)) (password (cfg_vendure config)) in
  let started := t ++ [ENotify "Fulfillment job starting" None] in
  let probed :=
    started ++ [login; EGraphql IntrospectMutations;
                ENotify "Vendure fulfillment unsupported on current Admin API"
                  (Some "Will skip Vendure fulfillment and continue with Printify (if enabled)")] in
  let orders :=
    List.filter (fun o => bool_decide (order_state o ∈ Api.STATES_TO_FULFILL))
                (map VendureClient.toOrderSummary items) in
  lacks_creation_mutations W ->
  Api.req_method req = Some "POST" ->
  Api.validateSecret req (job_secret (cfg_job config)) = true ->
  dryRun (cfg_job config) = false ->
  vendure_login W started (username (cfg_vendure config)) (password (cfg_vendure config))
  = Ok tt ->
  vendure_graphql W probed (OrdersToFulfill (maxOrdersPerRun (cfg_vendure config)))
  = Ok items ->
  exists failures t',
    Api.fulfillHandler W (Ok config) req t
    = (Ok {| Api.status := 200; Api.allow_header := None;
             Api.body := if (length orders =? 0)%nat
                         then Api.NoOrdersBody 0 "No eligible orders found."
                         else Api.SummaryBody 0 failures |}, t')
    /\ map fst failures = map order_code (List.filter has_outstanding orders)
    /\ mutations t' = mutations t.
Proof.
  intros login started probed orders Hlacks Hmethod Hsecret Hwet Hlogin Hfetch.
  unfold Api.fulfillHandler. rewrite Hmethod, Hsecret, bool_decide_eq_true_2 by reflexivity.
  cbn [negb]. unfold try_catch, Api.run_job.
  unfold bind at 1. unfold TelegramReporter.notify at 1, emit. fold started.
  unfold bind at 1. unfold VendureClient.login. rewrite Hlogin.
  unfold bind at 1. rewrite (supportsCreateFulfillment_unsupported W _ Hlacks). cbn [negb].
  unfold bind at 1. unfold TelegramReporter.notify at 1, emit.
  match goal with
  | |- context [Api.process_order W config ?p false] => generalize p; intros printify
  end.
  unfold bind at 1. unfold VendureClient.fetchOrders. unfold bind at 1.
  unfold VendureClient.graphql, ret.
  rewrite <- !app_assoc. cbn [app]. fold login.
  change (t ++ ENotify "Fulfillment job starting" None :: login :: ?rest)
    with (started ++ login :: rest).
  fold probed. rewrite Hfetch. fold orders.
  destruct (length orders =? 0)%nat eqn:Hlen.
  - apply Nat.eqb_eq, length_zero_iff_nil in Hlen.
    unfold bind, TelegramReporter.notify, emit, Api.respond, ret.
    eexists [], _. split; [reflexivity |]. split; [now rewrite Hlen |].
    subst probed started. quiet_trace.
  - unfold bind at 1.
    match goal with
    | |- context [for_each orders ?body ?acc ?t0] =>
        destruct (batch_loop_unsupported W config printify orders acc t0 Hwet)
          as (acc' & t1 & -> & Ht1 & Hcount & Hfail)
    end.
    rewrite Hwet. unfold bind, TelegramReporter.notify, emit, Api.respond, ret.
    eexists (Api.failures acc'), _. cbn [Api.successCount Api.failures map app] in Hcount, Hfail.
    rewrite Hcount. split; [reflexivity |]. split; [exact Hfail |].
    rewrite mutations_app, Ht1. subst probed started. quiet_trace.
Qed.
(** The whole batch job against a backend without creation mutations. *)
Lemma runFulfillOrders_unsupported (W : World) (cfg : AutomationConfig)
    (items : list RawOrder) (t : Trace) :
  let login := ELogin (username (cfg_vendure cfg)) (password (cfg_vendure cfg)) in
  let started := t ++ [login; ENotify "Bắt đầu chạy xử lý giao hàng" None] in
  let query := OrdersToFulfill (maxOrdersPerRun (cfg_vendure cfg)) in
  let orders :=
    List.filter (fun o => bool_decide (order_state o
                                       ∈ [OrderState.PaymentSettled;
                                          OrderState.PartiallyFulfilled]))
                (map VendureClient.toOrderSummary items) in
  lacks_creation_mutations W ->
  vendure_login W t (username (cfg_vendure cfg)) (password (cfg_vendure cfg)) = Ok tt ->
  vendure_graphql W started query = Ok items ->
  exists blocks,
    Job.runFulfillOrders W (Ok cfg) t
    = (Ok tt, started ++ EGraphql query :: concat blocks
              ++ [ENotify "Hoàn thành chạy xử lý giao hàng" None])
    /\ Forall2 (handled_on_its_own cfg) orders blocks.
Proof.
  intros login started query orders Hlacks Hlogin Hfetch.
  unfold Job.runFulfillOrders, bind, Job.lift, VendureClient.login.
  rewrite Hlogin. unfold TelegramReporter.notify at 1, emit. unfold try_catch at 1.
  unfold VendureClient.fetchOrders, bind, VendureClient.graphql, ret.
  rewrite <- app_assoc. cbn [app]. fold login. fold started. fold query. rewrite Hfetch.
  fold orders. rewrite runFulfillOrders_loop.
  match goal with
  | |- context [for_each orders (guarded_fulfillOrder W ?p cfg) tt ?t0] =>
      destruct (job_loop_unsupported W p cfg orders t0 Hlacks) as (blocks & -> & Hblocks)
  end.
  exists blocks. split; [| exact Hblocks].
  unfold TelegramReporter.notify, emit. f_equal. now rewrite <- !app_assoc.
Qed.

(** C8, as the code has it.  When the probe shows neither [createFulfillment]
    nor [addFulfillmentToOrder], a creation call fails at once, after the
    probe and before any mutation, with the error "Vendure Admin API does
    not support fulfillment mutations".  Against a backend that exposes
    neither, the failure is handled order by order and the run goes through
    all the orders.  The batch endpoint, in a run that is not a dry run,
    derives from its own probe that it must not call the backend for a
    fulfillment: it answers 200 with no successful fulfillment and one
    failure for every fetched order that has outstanding lines, and sends
    no mutation.  The batch job completes and reports completion: every
    fetched order has its own stretch of the run, without any mutation, and
    a stretch that reaches the creation call ends with the probe followed
    by the report of the failure on that order alone, after which the run
    goes on with the next order. *)
Theorem unsupported_backend_is_handled_per_order (W : World) :
  (forall (input : CreateFulfillmentArgs) (t : Trace) (names : list string),
      vendure_graphql W t IntrospectMutations = Ok names ->
      VendureClient.names_include "createFulfillment" names = false ->
      VendureClient.names_include "addFulfillmentToOrder" names = false ->
      VendureClient.createFulfillment W input t
      = (Throw unsupported_backend_error, t ++ [EGraphql IntrospectMutations]))
  /\ (lacks_creation_mutations W ->
      forall (config : AutomationConfig) (req : Api.FulfillRequest)
             (items : list RawOrder) (t : Trace),
        let login := ELogin (username (cfg_vendure config)) (password (cfg_vendure config)) in
        let started := t ++ [ENotify "Fulfillment job starting" None] in
        let probed :=
          started ++ [login; EGraphql IntrospectMutations;
                      ENotify "Vendure fulfillment unsupported on current Admin API"
                        (Some "Will skip Vendure fulfillment and continue with Printify (if enabled)")] in
        let orders :=
          List.filter (fun o => bool_decide (order_state o ∈ Api.STATES_TO_FULFILL))
                      (map VendureClient.toOrderSummary items) in
        Api.req_method req = Some "POST" ->
        Api.validateSecret req (job_secret (cfg_job config)) = true ->
        dryRun (cfg_job config) = false ->
        vendure_login W started (username (cfg_vendure config))
          (password (cfg_vendure config)) = Ok tt ->
        vendure_graphql W probed (OrdersToFulfill (maxOrdersPerRun (cfg_vendure config)))
        = Ok items ->
        exists failures t',
          Api.fulfillHandler W (Ok config) req t
          = (Ok {| Api.status := 200; Api.allow_header := None;
                   Api.body := if (length orders =? 0)%nat
                               then Api.NoOrdersBody 0 "No eligible orders found."
                               else Api.SummaryBody 0 failures |}, t')
          /\ map fst failures = map order_code (List.filter has_outstanding orders)
          /\ mutations t' = mutations t)
  /\ (lacks_creation_mutations W ->
      forall (cfg : AutomationConfig) (items : list RawOrder) (t : Trace),
        let login := ELogin (username (cfg_vendure cfg)) (password (cfg_vendure cfg)) in
        let started := t ++ [login; ENotify "Bắt đầu chạy xử lý giao hàng" None] in
        let query := OrdersToFulfill (maxOrdersPerRun (cfg_vendure cfg)) in
        let orders :=
          List.filter (fun o => bool_decide (order_state o
                                             ∈ [OrderState.PaymentSettled;
                                                OrderState.PartiallyFulfilled]))
                      (map VendureClient.toOrderSummary items) in
        vendure_login W t (username (cfg_vendure cfg)) (password (cfg_vendure cfg)) = Ok tt ->
        vendure_graphql W started query = Ok items ->
        exists blocks,
          Job.runFulfillOrders W (Ok cfg) t
          = (Ok tt, started ++ EGraphql query :: concat blocks
                    ++ [ENotify "Hoàn thành chạy xử lý giao hàng" None])
          /\ Forall2 (handled_on_its_own cfg) orders blocks).
Proof.
  split; [| split].
  - apply createFulfillment_unsupported.
  - intros Hlacks config req items t. now apply fulfillHandler_unsupported.
  - intros Hlacks cfg items t. now apply runFulfillOrders_unsupported.
Qed.

Lemma unsupported_backend_is_handled_per_order_witness :
  exists blocks,
    Job.runFulfillOrders (Scripted.world Scripted.legacy_shop)
      (Ok (Scripted.config None None)) []
    = (Ok tt,
       ([] ++ [ELogin (username (cfg_vendure (Scripted.config None None)))
                 (password (cfg_vendure (Scripted.config None None)));
               ENotify "Bắt đầu chạy xử lý giao hàng" None])
       ++ EGraphql (OrdersToFulfill (maxOrdersPerRun (cfg_vendure (Scripted.config None None))))
          :: concat blocks ++ [ENotify "Hoàn thành chạy xử lý giao hàng" None])
    /\ Forall2 (handled_on_its_own (Scripted.config None None))
         (List.filter (fun o => bool_decide (order_state o
                                             ∈ [OrderState.PaymentSettled;
                                                OrderState.PartiallyFulfilled]))
            (map VendureClient.toOrderSummary (Scripted.stored_orders Scripted.legacy_shop)))
         blocks.
Proof.
  apply (proj2 (proj2 (unsupported_backend_is_handled_per_order
                         (Scripted.world Scripted.legacy_shop)))
           (fun t => ex_intro _ ["login"; "transitionFulfillmentToState"]
                       (conj eq_refl (conj eq_refl eq_refl)))
           (Scripted.config None None) (Scripted.stored_orders Scripted.legacy_shop) []);
    reflexivity.
Defined.

(** A backend without creation mutations and two orders waiting.  A
    creation call fails with the unsupported-backend error, yet neither run
    ends there.  The batch endpoint goes through both orders and answers 200
    with one failure for each.  The batch job reports the failure on the
    first order, goes on to the second one, reports its failure as well and
    completes. *)
Lemma unsupported_backend_counterexample :
  fst (VendureClient.createFulfillment (Scripted.world Scripted.legacy_shop)
         Scripted.two_shirts [])
  = Throw "Vendure Admin API does not support fulfillment mutations"
  /\ fst (Api.fulfillHandler (Scripted.world Scripted.legacy_shop)
            (Ok (Scripted.config None None)) Scripted.job_post [])
     = Ok {| Api.status := 200; Api.allow_header := None;
             Api.body :=
               Api.SummaryBody 0
                 [("ORD-A", "Vendure Admin API does not support createFulfillment");
                  ("ORD-B", "Vendure Admin API does not support createFulfillment")] |}
  /\ Job.runFulfillOrders (Scripted.world Scripted.legacy_shop)
       (Ok (Scripted.config None None)) []
     = (Ok tt,
        [ELogin "admin" "admin-password";
         ENotify "Bắt đầu chạy xử lý giao hàng" None;
         EGraphql (OrdersToFulfill 20);
         ENotify "Create Vendure fulfillment for ORD-A" None;
         EGraphql IntrospectMutations;
         ENotify "Lỗi khi xử lý đơn hàng ORD-A"
           (Some "Vendure Admin API does not support fulfillment mutations");
         ENotify "Create Vendure fulfillment for ORD-B" None;
         EGraphql IntrospectMutations;
         ENotify "Lỗi khi xử lý đơn hàng ORD-B"
           (Some "Vendure Admin API does not support fulfillment mutations");
         ENotify "Hoàn thành chạy xử lý giao hàng" None]).
Proof. split; [| split]; vm_compute; reflexivity. Qed.

(* ===================================================================== *)
(** ** The two webhook handlers compared *)
(* ===================================================================== *)

Ltac run_login :=
  match goal with
  | |- context [vendure_login ?W ?t ?u ?p] => destruct (vendure_login W t u p) as [[] | ?]
  end.

Ltac run_query reply :=
  match goal with
  | |- context [vendure_graphql ?W ?t ?q] => destruct (vendure_graphql W t q) as [reply | ?]
  end.

Ltac flatten_trace := rewrite <- ?app_assoc; cbn [app].

Ltac stops_here := flatten_trace; eexists; split; [reflexivity |].

(** A body that parses to [null] has none of the fields of an event. *)
Lemma event_is_null_empty (W : World) (bodyRaw : string) :
  Job.event_is_null W bodyRaw = true -> Job.normalizeEvent W bodyRaw = Job.empty_event.
Proof.
  unfold Job.event_is_null, Job.normalizeEvent.
  destruct (truthy_str bodyRaw); cbn [negb andb]; [| reflexivity].
  now destruct (JSON_parse_event W bodyRaw).
Qed.

(** The webhook job (part_002): for an event that maps to [Shipped] and whose
    first shipment names a tracking number or a carrier, the mutations of a
    run are none, the tracking update alone, or the tracking update followed
    by the transition to [Shipped]: the transition is never requested
    before the tracking data is in place. *)
Lemma job_webhook_tracking_first (W : World) (cfg : AutomationConfig) (bodyRaw : string)
    (t : Trace) (shipment : PrintifyShipment) :
  Job.mapEventToState (Job.normalizeEvent W bodyRaw) = Some FulfillmentState.Shipped ->
  head (nullish (evt_shipments (Job.normalizeEvent W bodyRaw)) []) = Some shipment ->
  truthy (tracking_number shipment) || truthy (carrier shipment) = true ->
  exists suffix,
    snd (Job.process_event W cfg bodyRaw t) = t ++ suffix
    /\ (mutations suffix = []
        \/ exists id,
             mutations suffix
             = [EGraphql (UpdateFulfillmentTracking id (tracking_number shipment)
                            (carrier shipment))]
             \/ mutations suffix
                = [EGraphql (UpdateFulfillmentTracking id (tracking_number shipment)
                               (carrier shipment));
                   EGraphql (TransitionFulfillmentToState id "Shipped")]).
Proof.
  intros Hstate Hhead Hdetails.
  unfold Job.process_event.
  destruct (Job.event_is_null W bodyRaw);
    [exists []; rewrite app_nil_r; split; [reflexivity | now left] |].
  rewrite Hstate, Hhead, Hdetails.
  rewrite bool_decide_eq_true_2 by reflexivity.
  unfold bind, VendureClient.login, VendureClient.fetchOrderByCode, VendureClient.graphql,
    TelegramReporter.notify, emit, ret, bind.
  run_login; [| stops_here; now left].
  destruct (truthy (evt_external_id _)); cbn [negb]; [| stops_here; now left].
  run_query found; [| stops_here; now left].
  destruct found as [raw |]; [| stops_here; now left].
  destruct (last_elem _) as [latest |]; [| stops_here; now left].
  destruct (dryRun _); [stops_here; now left |].
  unfold VendureClient.updateFulfillmentTracking, VendureClient.transitionFulfillmentToState,
    bind, VendureClient.graphql, throw, ret, TelegramReporter.notify, emit.
  run_query updated;
    [| stops_here; right; exists (fulfillment_id latest); now left].
  destruct (bool_decide (up_typename updated = "Fulfillment"));
    [| stops_here; right; exists (fulfillment_id latest); now left].
  run_query moved;
    [| stops_here; right; exists (fulfillment_id latest); now right].
  destruct (bool_decide (tr_typename moved = "Fulfillment"));
    stops_here; right; exists (fulfillment_id latest); now right.
Qed.

(** The webhook endpoint (part_005): [transitionFulfillments] asks for the
    transition first; a tracking update, if any, comes second, and all it
    sends addresses the last fulfillment of the order. *)
Lemma transitionFulfillments_order (W : World) (order : OrderSummary)
    (targetState : FulfillmentState.t) (tracking : option Api.Tracking) (t : Trace) :
  exists suffix,
    snd (Api.transitionFulfillments W order (Some targetState) tracking t) = t ++ suffix
    /\ match last_elem (order_fulfillments order) with
       | None =>
           suffix = []
           /\ fst (Api.transitionFulfillments W order (Some targetState) tracking t)
              = Ok None
       | Some latest =>
           let transition :=
             EGraphql (TransitionFulfillmentToState (fulfillment_id latest)
                         (FulfillmentState.to_string targetState)) in
           suffix = [transition]
           \/ exists code method,
                suffix = [transition;
                          EGraphql (UpdateFulfillmentTracking (fulfillment_id latest)
                                      code method)]
       end.
Proof.
  unfold Api.transitionFulfillments.
  destruct (last_elem (order_fulfillments order)) as [latest |].
  - unfold bind, Api.rethrow_as, try_catch, VendureClient.transitionFulfillmentToState,
      VendureClient.updateFulfillmentTracking, bind, VendureClient.graphql, throw, ret.
    run_query moved; [| stops_here; now left].
    destruct (bool_decide (tr_typename moved = "Fulfillment")); [| stops_here; now left].
    destruct tracking as [trk |]; [| stops_here; now left].
    destruct (truthy (Api.trk_code trk)); [| stops_here; now left].
    run_query updated; [| stops_here; right; now eexists _, _].
    destruct (bool_decide (up_typename updated = "Fulfillment"));
      stops_here; right; now eexists _, _.
  - exists []. rewrite app_nil_r. now repeat split.
Qed.

(** The webhook job (part_002): an order without fulfillment ends the run
    with the outcome [{ok: false, message: 'No fulfillment found'}] and
    without any mutation. *)
Lemma job_webhook_without_fulfillment (W : World) (cfg : AutomationConfig)
    (bodyRaw : string) (t : Trace) (raw : RawOrder) :
  let evt := Job.normalizeEvent W bodyRaw in
  let login := ELogin (username (cfg_vendure cfg)) (password (cfg_vendure cfg)) in
  let lookup := EGraphql (OrderByCode (nullish (evt_external_id evt) "")) in
  truthy (evt_external_id evt) = true ->
  vendure_login W t (username (cfg_vendure cfg)) (password (cfg_vendure cfg)) = Ok tt ->
  vendure_graphql W (t ++ [login]) (OrderByCode (nullish (evt_external_id evt) "")) = Ok (Some raw) ->
  raw_fulfillments raw = [] ->
  Job.process_event W cfg bodyRaw t
  = (Ok {| Job.ok := false; Job.message := Some "No fulfillment found" |},
     t ++ [login; lookup;
           ENotify "Không có fulfillment để cập nhật" (Some ("order=" +:+ raw_code raw))]).
Proof.
  intros evt login lookup Hexternal Hlogin Hfound Hnone.
  unfold Job.process_event.
  destruct (Job.event_is_null W bodyRaw) eqn:Hnull;
    [apply event_is_null_empty in Hnull; subst evt; rewrite Hnull in Hexternal;
     discriminate |].
  fold evt. rewrite Hexternal.
  unfold bind, VendureClient.login, VendureClient.fetchOrderByCode, VendureClient.graphql,
    TelegramReporter.notify, emit, ret, bind.
  rewrite Hlogin. cbn [negb]. fold login. rewrite Hfound.
  unfold VendureClient.toOrderSummary at 1. cbn [order_fulfillments]. rewrite Hnone.
  cbn [map last_elem List.last]. flatten_trace. reflexivity.
Qed.

Lemma job_webhook_without_fulfillment_witness :
  Job.process_event (Scripted.world Scripted.shop_without_fulfillment)
    (Scripted.config None None) (Scripted.render_event Scripted.shipped_event) []
  = (Ok {| Job.ok := false; Job.message := Some "No fulfillment found" |},
     [ELogin "admin" "admin-password";
      EGraphql (OrderByCode "ORD123");
      ENotify "Không có fulfillment để cập nhật" (Some "order=ORD123")]).
Proof.
  apply (job_webhook_without_fulfillment (Scripted.world Scripted.shop_without_fulfillment)
           (Scripted.config None None) (Scripted.render_event Scripted.shipped_event) []
           (Scripted.raw_order "ORD123"
              [Scripted.raw_line "L1" 1 [] (Scripted.variant (Some "TEE-S") "Tee S")] []));
    vm_compute; reflexivity.
Defined.

Lemma job_webhook_tracking_first_witness :
  exists suffix,
    snd (Job.process_event (Scripted.world Scripted.shop_with_fulfillment)
           (Scripted.config None None) (Scripted.render_event Scripted.shipped_event) [])
    = [] ++ suffix
    /\ (mutations suffix = []
        \/ exists id,
             mutations suffix = [EGraphql (UpdateFulfillmentTracking id (Some "T1") (Some "DHL"))]
             \/ mutations suffix
                = [EGraphql (UpdateFulfillmentTracking id (Some "T1") (Some "DHL"));
                   EGraphql (TransitionFulfillmentToState id "Shipped")]).
Proof.
  apply (job_webhook_tracking_first (Scripted.world Scripted.shop_with_fulfillment)
           (Scripted.config None None) (Scripted.render_event Scripted.shipped_event) []
           {| tracking_number := Some "T1"; carrier := Some "DHL" |});
    vm_compute; reflexivity.
Defined.

(** The run of the webhook job (part_002) on the shipment event. *)
Example job_webhook_shipment_run :
  mutations (snd (Job.process_event (Scripted.world Scripted.shop_with_fulfillment)
                    (Scripted.config None None)
                    (Scripted.render_event Scripted.shipped_event) []))
  = [EGraphql (UpdateFulfillmentTracking "F-1" (Some "T1") (Some "DHL"));
     EGraphql (TransitionFulfillmentToState "F-1" "Shipped")].
Proof. vm_compute. reflexivity. Qed.

Lemma last_elem_map {A B} (f : A -> B) (l : list A) :
  last_elem (map f l) = option_map f (last_elem l).
Proof.
  unfold last_elem. induction l as [| a l IH]; [reflexivity |].
  destruct l as [| b l]; [reflexivity |]. exact IH.
Qed.

(** The webhook job (part_002): every mutation of a run addresses the last
    fulfillment of the order the lookup returned. *)
Lemma job_webhook_targets_latest (W : World) (cfg : AutomationConfig) (bodyRaw : string)
    (t : Trace) (raw : RawOrder) :
  let evt := Job.normalizeEvent W bodyRaw in
  let login := ELogin (username (cfg_vendure cfg)) (password (cfg_vendure cfg)) in
  truthy (evt_external_id evt) = true ->
  vendure_login W t (username (cfg_vendure cfg)) (password (cfg_vendure cfg)) = Ok tt ->
  vendure_graphql W (t ++ [login]) (OrderByCode (nullish (evt_external_id evt) "")) = Ok (Some raw) ->
  exists suffix,
    snd (Job.process_event W cfg bodyRaw t) = t ++ suffix
    /\ Forall (fun e => target_of e = option_map fulfillment_id (last_elem (raw_fulfillments raw)))
              (mutations suffix).
Proof.
  intros evt login Hexternal Hlogin Hfound.
  unfold Job.process_event.
  destruct (Job.event_is_null W bodyRaw) eqn:Hnull;
    [apply event_is_null_empty in Hnull; subst evt; rewrite Hnull in Hexternal;
     discriminate |].
  fold evt. rewrite Hexternal.
  unfold bind, VendureClient.login, VendureClient.fetchOrderByCode, VendureClient.graphql,
    TelegramReporter.notify, emit, ret, bind.
  rewrite Hlogin. cbn [negb]. fold login. rewrite Hfound.
  unfold VendureClient.toOrderSummary at 1. cbn [order_fulfillments].
  rewrite last_elem_map.
  destruct (last_elem (raw_fulfillments raw)) as [latest |]; cbn [option_map fulfillment_id];
    [| stops_here; constructor].
  destruct (dryRun _); [stops_here; constructor |].
  unfold VendureClient.updateFulfillmentTracking, VendureClient.transitionFulfillmentToState,
    bind, VendureClient.graphql, throw, ret, TelegramReporter.notify, emit.
  destruct (bool_decide (Job.mapEventToState evt = Some FulfillmentState.Shipped)).
  - destruct (truthy _ || truthy _).
    + run_query updated; [| destruct (Job.mapEventToState evt); stops_here; repeat constructor].
      destruct (bool_decide (up_typename updated = "Fulfillment"));
        [| stops_here; repeat constructor].
      destruct (Job.mapEventToState evt) as [st |]; [| stops_here; repeat constructor].
      run_query moved; [| stops_here; repeat constructor].
      destruct (bool_decide (tr_typename moved = "Fulfillment"));
        stops_here; repeat constructor.
    + destruct (Job.mapEventToState evt) as [st |]; [| stops_here; repeat constructor].
      run_query moved; [| stops_here; repeat constructor].
      destruct (bool_decide (tr_typename moved = "Fulfillment"));
        stops_here; repeat constructor.
  - destruct (Job.mapEventToState evt) as [st |]; [| stops_here; repeat constructor].
    run_query moved; [| stops_here; repeat constructor].
    destruct (bool_decide (tr_typename moved = "Fulfillment"));
      stops_here; repeat constructor.
Qed.

Lemma job_webhook_targets_latest_witness :
  exists suffix,
    snd (Job.process_event (Scripted.world Scripted.shop_with_fulfillment)
           (Scripted.config None None) (Scripted.render_event Scripted.shipped_event) [])
    = [] ++ suffix
    /\ Forall (fun e => target_of e = Some "F-1") (mutations suffix).
Proof.
  apply (job_webhook_targets_latest (Scripted.world Scripted.shop_with_fulfillment)
           (Scripted.config None None) (Scripted.render_event Scripted.shipped_event) []
           (Scripted.raw_order "ORD123"
              [Scripted.raw_line "L1" 1 [1] (Scripted.variant (Some "TEE-S") "Tee S")]
              [Scripted.pending "F-1"]));
    vm_compute; reflexivity.
Defined.

(* ===================================================================== *)
(** ** The admin client beyond the retry protocol (part_000) *)
(* ===================================================================== *)

Lemma prefix_of_pair_cases {A} (x y : A) (l : list A) :
  l = [x] \/ l = [x; y] -> l `prefix_of` [x; y].
Proof. intros [-> | ->]; [now exists [y] | now exists []]. Qed.

(** The requests of one creation call: the probe, then, if the backend
    exposes one of the two mutations, one or two attempts. *)
Lemma createFulfillment_trace (W : World) (input : CreateFulfillmentArgs) (t : Trace) :
  exists attempts,
    snd (VendureClient.createFulfillment W input t)
    = t ++ EGraphql IntrospectMutations :: map EGraphql attempts
    /\ match vendure_graphql W t IntrospectMutations with
       | Throw _ => attempts = []
       | Ok names =>
           if VendureClient.names_include "createFulfillment" names
           then attempts = [creation_query true input (arg_handlerCode input)]
                \/ attempts = [creation_query true input (arg_handlerCode input);
                               creation_query true input "manual-fulfillment"]
           else if VendureClient.names_include "addFulfillmentToOrder" names
           then attempts = [creation_query false input (arg_handlerCode input)]
                \/ attempts = [creation_query false input (arg_handlerCode input);
                               creation_query false input "manual-fulfillment"]
           else attempts = []
       end.
Proof.
  unfold VendureClient.createFulfillment, bind, VendureClient.graphql, ret, throw, creation_query.
  destruct (vendure_graphql W t IntrospectMutations) as [names | e];
    [| exists []; split; reflexivity].
  destruct (VendureClient.names_include "createFulfillment" names).
  - run_query attempt1; [| eexists [_]; flatten_trace; split; [reflexivity | now left]].
    destruct (isFulfillmentSuccess attempt1);
      [eexists [_]; flatten_trace; split; [reflexivity | now left] |].
    destruct (VendureClient.isInvalidHandler attempt1);
      [| eexists [_]; flatten_trace; split; [reflexivity | now left]].
    run_query attempt2; [destruct (isFulfillmentSuccess attempt2) |];
      eexists [_; _]; flatten_trace; (split; [reflexivity | now right]).
  - destruct (VendureClient.names_include "addFulfillmentToOrder" names);
      [| exists []; split; reflexivity].
    run_query attempt1; [| eexists [_]; flatten_trace; split; [reflexivity | now left]].
    destruct (isFulfillmentSuccess attempt1);
      [eexists [_]; flatten_trace; split; [reflexivity | now left] |].
    destruct (VendureClient.isInvalidHandler attempt1);
      [| eexists [_]; flatten_trace; split; [reflexivity | now left]].
    run_query attempt2; [destruct (isFulfillmentSuccess attempt2) |];
      eexists [_; _]; flatten_trace; (split; [reflexivity | now right]).
Qed.

(** [createFulfillment] never sends more than the probe and two creation
    requests: what follows the probe is a prefix of the attempt with the
    configured handler followed by the attempt with [manual-fulfillment],
    both in the same generation of the API. *)
Theorem createFulfillment_sends_at_most_two
    (W : World) (input : CreateFulfillmentArgs) (t : Trace) :
  exists (modern : bool) (attempts : list Query),
    snd (VendureClient.createFulfillment W input t)
    = t ++ EGraphql IntrospectMutations :: map EGraphql attempts
    /\ attempts `prefix_of` [creation_query modern input (arg_handlerCode input);
                             creation_query modern input "manual-fulfillment"].
Proof.
  destruct (createFulfillment_trace W input t) as (attempts & Htrace & Hshape).
  destruct (vendure_graphql W t IntrospectMutations) as [names | e].
  - destruct (VendureClient.names_include "createFulfillment" names).
    + exists true, attempts. split; [exact Htrace | now apply prefix_of_pair_cases].
    + destruct (VendureClient.names_include "addFulfillmentToOrder" names).
      * exists false, attempts. split; [exact Htrace | now apply prefix_of_pair_cases].
      * exists true, attempts. subst attempts. split; [exact Htrace | apply prefix_nil].
  - exists true, attempts. subst attempts. split; [exact Htrace | apply prefix_nil].
Qed.

(** [supportsCreateFulfillment] always answers, after exactly one request,
    and it answers [false] exactly when a creation call made in the same
    situation ends right after its own probe with an exception, before any
    mutation (the probe failed, or it shows neither mutation). *)
Theorem probe_agrees_with_createFulfillment
    (W : World) (input : CreateFulfillmentArgs) (t : Trace) :
  (exists supported,
      VendureClient.supportsCreateFulfillment W t
      = (Ok supported, t ++ [EGraphql IntrospectMutations]))
  /\ (fst (VendureClient.supportsCreateFulfillment W t) = Ok false
      <-> exists e, VendureClient.createFulfillment W input t
                    = (Throw e, t ++ [EGraphql IntrospectMutations])).
Proof.
  destruct (createFulfillment_trace W input t) as (attempts & Htrace & Hshape).
  assert (Hlong : attempts <> [] ->
            ~ exists e, VendureClient.createFulfillment W input t
                        = (Throw e, t ++ [EGraphql IntrospectMutations])).
  { intros Hsome [e He]. rewrite He in Htrace. cbn [snd] in Htrace.
    apply app_inv_head in Htrace. destruct attempts; [congruence | discriminate]. }
  unfold VendureClient.supportsCreateFulfillment, try_catch, bind, VendureClient.graphql, ret
    in *.
  destruct (vendure_graphql W t IntrospectMutations) as [names | e] eqn:Hprobe.
  - split; [now eexists |]. cbn [fst].
    destruct (VendureClient.names_include "createFulfillment" names) eqn:Hmodern.
    + split; [discriminate |]. intros H. exfalso. apply Hlong; [| exact H].
      destruct Hshape as [-> | ->]; discriminate.
    + destruct (VendureClient.names_include "addFulfillmentToOrder" names) eqn:Hlegacy.
      * split; [discriminate |]. intros H. exfalso. apply Hlong; [| exact H].
        destruct Hshape as [-> | ->]; discriminate.
      * split; [intros _ | reflexivity].
        eexists. now apply createFulfillment_unsupported with (names := names).
  - split; [now eexists |]. split; [intros _ | reflexivity].
    exists e. unfold VendureClient.createFulfillment, bind, VendureClient.graphql.
    now rewrite Hprobe.
Qed.

(** When the first creation attempt is answered with a fulfillment, the
    call returns it and sends nothing more: one probe, one mutation. *)
Theorem createFulfillment_first_attempt_success
    (W : World) (input : CreateFulfillmentArgs) (t : Trace)
    (names : list string) (modern : bool) (answer : FulfillmentUnion) :
  vendure_graphql W t IntrospectMutations = Ok names ->
  modern = VendureClient.names_include "createFulfillment" names ->
  modern = true \/ VendureClient.names_include "addFulfillmentToOrder" names = true ->
  answers W (t ++ [EGraphql IntrospectMutations]) modern input (arg_handlerCode input) answer ->
  fu_typename answer = "Fulfillment" ->
  VendureClient.createFulfillment W input t
  = (Ok (FulfillmentCreated (fu_id answer) (fu_state answer) (fu_method answer)),
     t ++ [EGraphql IntrospectMutations;
           EGraphql (creation_query modern input (arg_handlerCode input))]).
Proof.
  intros Hnames Hmodern Hexposed Hanswer Hsuccess.
  assert (Hyes : isFulfillmentSuccess answer = true)
    by (unfold isFulfillmentSuccess; now apply bool_decide_eq_true).
  unfold VendureClient.createFulfillment, bind, VendureClient.graphql, ret.
  rewrite Hnames, <- Hmodern. unfold answers, creation_query in *.
  destruct modern.
  - now rewrite Hanswer, Hyes, <- app_assoc.
  - destruct Hexposed as [? | Hlegacy]; [discriminate |].
    now rewrite Hlegacy, Hanswer, Hyes, <- app_assoc.
Qed.

Lemma createFulfillment_first_attempt_success_witness :
  VendureClient.createFulfillment (Scripted.world Scripted.printing_shop) Scripted.two_shirts []
  = (Ok (FulfillmentCreated "F-new" "Pending" (Some "printify")),
     [EGraphql IntrospectMutations;
      EGraphql (CreateFulfillmentMutation
                  (VendureClient.modern_input Scripted.two_shirts "printify"))]).
Proof.
  apply (createFulfillment_first_attempt_success
           (Scripted.world Scripted.printing_shop) Scripted.two_shirts []
           ["createFulfillment"] true (Scripted.created "F-new" (Some "printify")));
    try reflexivity.
  now left.
Defined.

Lemma fallback_text_not_empty (text fallback : string) :
  fallback <> "" -> (if truthy_str text then text else fallback) <> "".
Proof. intros Hfallback. destruct text; [exact Hfallback | discriminate]. Qed.

(** [transitionFulfillmentToState] and [updateFulfillmentTracking] send one
    request each; once the backend has answered, they return normally
    exactly when the answer is a [Fulfillment], and otherwise throw an error
    whose message is never empty. *)
Theorem fulfillment_updates_fail_loudly (W : World) (id : string) (t : Trace) :
  (forall (state : string) (r : TransitionResult),
      vendure_graphql W t (TransitionFulfillmentToState id state) = Ok r ->
      let run := VendureClient.transitionFulfillmentToState W id state t in
      snd run = t ++ [EGraphql (TransitionFulfillmentToState id state)]
      /\ (fst run = Ok tt <-> tr_typename r = "Fulfillment")
      /\ (forall message, fst run = Throw message -> message <> ""))
  /\ (forall (trackingCode method : option string) (r : UpdateResult),
        vendure_graphql W t (UpdateFulfillmentTracking id trackingCode method) = Ok r ->
        let run := VendureClient.updateFulfillmentTracking W id trackingCode method t in
        snd run = t ++ [EGraphql (UpdateFulfillmentTracking id trackingCode method)]
        /\ (fst run = Ok tt <-> up_typename r = "Fulfillment")
        /\ (forall message, fst run = Throw message -> message <> "")).
Proof.
  split.
  - intros state r Hanswer.
    unfold VendureClient.transitionFulfillmentToState, bind, VendureClient.graphql, ret, throw.
    rewrite Hanswer.
    destruct (bool_decide (tr_typename r = "Fulfillment")) eqn:Hkind; cbn.
    + apply bool_decide_eq_true in Hkind.
      split; [reflexivity |]. split; [tauto | discriminate].
    + apply bool_decide_eq_false in Hkind.
      split; [reflexivity |]. split; [split; [discriminate | tauto] |].
      intros message [= <-]. now apply fallback_text_not_empty.
  - intros trackingCode method r Hanswer.
    unfold VendureClient.updateFulfillmentTracking, bind, VendureClient.graphql, ret, throw.
    rewrite Hanswer.
    destruct (bool_decide (up_typename r = "Fulfillment")) eqn:Hkind; cbn.
    + apply bool_decide_eq_true in Hkind.
      split; [reflexivity |]. split; [tauto | discriminate].
    + apply bool_decide_eq_false in Hkind.
      split; [reflexivity |]. split; [split; [discriminate | tauto] |].
      intros message [= <-]. unfold or_else.
      destruct (up_message r) as [text |]; [| discriminate].
      now apply fallback_text_not_empty.
Qed.

Lemma fold_left_sum (l : list Z) (start : Z) :
  fold_left (fun total qty => total + qty) l start = start + sumZ l.
Proof.
  revert start. induction l as [| x l IH]; intros start; cbn.
  - lia.
  - rewrite IH. unfold sumZ. lia.
Qed.

Lemma toOrderSummary_remaining (raw : RawOrder) :
  map remaining (order_lines (VendureClient.toOrderSummary raw))
  = map (fun l => raw_line_quantity l - fulfilled_so_far l) (raw_lines raw).
Proof.
  unfold VendureClient.toOrderSummary. cbn [order_lines]. rewrite map_map.
  apply map_ext. intros l. unfold remaining, fulfilled_so_far. cbn.
  now rewrite fold_left_sum.
Qed.

(** What the client reports as outstanding for an order of the backend:
    in the order of its lines, the lines whose fulfillment lines add up to
    less than the ordered quantity (a line without fulfillment lines counts
    as not fulfilled at all), each with its id, its SKU and variant name,
    and the ordered quantity minus that sum. *)
Theorem outstanding_of_raw_order (raw : RawOrder) :
  Forall2 (fun l o => out_orderLineId o = raw_line_id l
                      /\ out_quantity o = raw_line_quantity l - fulfilled_so_far l
                      /\ out_sku o = variant_sku (raw_line_productVariant l)
                      /\ out_variantName o = variant_name (raw_line_productVariant l))
          (List.filter (fun l => fulfilled_so_far l <? raw_line_quantity l) (raw_lines raw))
          (getOutstandingFulfillmentLines (VendureClient.toOrderSummary raw)).
Proof.
  unfold getOutstandingFulfillmentLines. rewrite outstanding_filter_map.
  unfold VendureClient.toOrderSummary. cbn [order_lines].
  induction (raw_lines raw) as [| l rest IH]; [constructor |].
  cbn [map List.filter]. unfold remaining at 1. cbn [line_quantity line_fulfilledQuantity].
  rewrite fold_left_sum. fold (fulfilled_so_far l).
  replace (0 <? raw_line_quantity l - (0 + fulfilled_so_far l))
    with (fulfilled_so_far l <? raw_line_quantity l)
    by (destruct (Z.ltb_spec (fulfilled_so_far l) (raw_line_quantity l));
        destruct (Z.ltb_spec 0 (raw_line_quantity l - (0 + fulfilled_so_far l))); trivial; lia).
  destruct (fulfilled_so_far l <? raw_line_quantity l); [| exact IH].
  cbn [map]. constructor; [| exact IH].
  unfold entry_of, remaining. cbn. repeat split.
Qed.

(** [fetchOrders] sends one query and returns, in the order of the backend,
    the summaries of exactly those orders whose state is one of the
    requested states. *)
Theorem fetchOrders_selects_states
    (W : World) (states : list OrderState.t) (take : Z) (t : Trace) (items : list RawOrder) :
  vendure_graphql W t (OrdersToFulfill take) = Ok items ->
  exists orders,
    VendureClient.fetchOrders W states take t
    = (Ok orders, t ++ [EGraphql (OrdersToFulfill take)])
    /\ orders = map VendureClient.toOrderSummary
                    (List.filter (fun r => bool_decide (raw_state r ∈ states)) items)
    /\ Forall (fun o => order_state o ∈ states) orders.
Proof.
  intros Hanswer.
  unfold VendureClient.fetchOrders, bind, VendureClient.graphql, ret. rewrite Hanswer.
  eexists. split; [reflexivity |]. clear Hanswer. split.
  - induction items as [| r rest IH]; [reflexivity |].
    cbn [map List.filter]. cbn [VendureClient.toOrderSummary order_state].
    destruct (bool_decide (raw_state r ∈ states)); cbn [map]; now rewrite IH.
  - apply List.Forall_forall. intros o Hin. apply List.filter_In in Hin as [_ Hstate].
    now apply bool_decide_eq_true in Hstate.
Qed.

Lemma fetchOrders_selects_states_witness :
  exists orders,
    VendureClient.fetchOrders (Scripted.world Scripted.legacy_shop)
      [OrderState.PaymentSettled; OrderState.PartiallyFulfilled] 20 []
    = (Ok orders, [] ++ [EGraphql (OrdersToFulfill 20)])
    /\ orders = map VendureClient.toOrderSummary
                    (List.filter
                       (fun r => bool_decide (raw_state r ∈ [OrderState.PaymentSettled;
                                                            OrderState.PartiallyFulfilled]))
                       (Scripted.stored_orders Scripted.legacy_shop))
    /\ Forall (fun o => order_state o ∈ [OrderState.PaymentSettled;
                                         OrderState.PartiallyFulfilled]) orders.
Proof.
  apply (fetchOrders_selects_states (Scripted.world Scripted.legacy_shop)
           [OrderState.PaymentSettled; OrderState.PartiallyFulfilled] 20 []
           (Scripted.stored_orders Scripted.legacy_shop)).
  reflexivity.
Defined.

(* ===================================================================== *)
(** ** The batch job beyond the claims (part_001) *)
(* ===================================================================== *)

Lemma vendure_requests_app (t1 t2 : Trace) :
  List.filter is_vendure_request (t1 ++ t2)
  = List.filter is_vendure_request t1 ++ List.filter is_vendure_request t2.
Proof. apply List.filter_app. Qed.

(** A successful build means that the guard of [fulfillOrder] found no
    missing SKU. *)
Lemma build_loop_no_missing (mapping : gmap string ProductMappingEntry)
    (outstanding : list OutstandingLine) (acc items : list PrintifyLineItemInput) :
  Job.build_loop mapping outstanding acc = Ok items ->
  List.filter (fun sku => negb (has_property mapping sku))
              (map Job.lookup_key outstanding) = [].
Proof.
  revert acc. induction outstanding as [| line rest IH]; intros acc; cbn [map List.filter];
    [reflexivity |].
  cbn [Job.build_loop]. unfold has_property at 1.
  destruct (truthy_str (Job.lookup_key line)); [| discriminate].
  destruct (property mapping (Job.lookup_key line)) as [m | |] eqn:Hm; [| | discriminate];
    intros Hrest; cbn [negb]; now apply IH in Hrest.
Qed.


(** Dry-run in the batch job.  [fulfillOrder] then sends nothing to the
    Order System, not even the probe; but the Printify order is placed as in
    a real run: with a client that is not in mock mode and a mapping table
    that covers the order, exactly one order request goes to Printify. *)
Theorem job_dry_run_still_orders_from_printify
    (W : World) (cfg : AutomationConfig) (order : OrderSummary) (t : Trace) :
  dryRun (cfg_job cfg) = true ->
  (forall printify : option PrintifyClient.Options,
      exists suffix,
        snd (Job.fulfillOrder W printify cfg order t) = t ++ suffix
        /\ List.filter is_vendure_request suffix = [])
  /\ (forall (client : PrintifyClient.Options) (items : list PrintifyLineItemInput),
        printify_enabled (cfg_printify cfg) = true ->
        PrintifyClient.opt_mock client = false ->
        has_outstanding order = true ->
        Job.buildPrintifyLineItems order (productMapping (cfg_printify cfg)) = Ok items ->
        printify_requests (snd (Job.fulfillOrder W (Some client) cfg order t))
        = printify_requests t ++ [Job.order_input cfg order items]).
Proof.
  intros Hdry. split.
  - intros printify. unfold Job.fulfillOrder, Job.create_vendure_fulfillment. rewrite Hdry.
    unfold bind, Job.lift, PrintifyClient.createOrder, TelegramReporter.notify, emit.
    destruct (length _ =? 0)%nat; [silent |].
    destruct (if printify_enabled _ then printify else None) as [client |]; [| silent].
    destruct (0 <? length _)%nat; [silent |].
    destruct (Job.buildPrintifyLineItems order _) as [items | e];
      [| exists []; now rewrite app_nil_r].
    destruct (PrintifyClient.opt_mock client); [silent |].
    destruct (printify_post_order W _ _) as [resp | e]; silent.
  - intros client items Henabled Hreal Hsome Hbuilt.
    unfold Job.fulfillOrder, Job.create_vendure_fulfillment. rewrite Hdry, Henabled.
    unfold has_outstanding in Hsome. apply negb_true_iff in Hsome. rewrite Hsome.
    rewrite (build_loop_no_missing _ _ _ _ Hbuilt). cbn [length Nat.ltb Nat.leb].
    unfold bind, Job.lift, PrintifyClient.createOrder, TelegramReporter.notify, emit.
    rewrite Hbuilt, Hreal.
    destruct (printify_post_order W _ _) as [resp | e]; cbn [snd];
      rewrite !printify_requests_app; cbn; now rewrite ?app_nil_r.
Qed.

Lemma job_dry_run_still_orders_from_printify_witness :
  printify_requests
    (snd (Job.fulfillOrder (Scripted.world Scripted.printing_shop)
            (Some Scripted.printify_client)
            (with_dryRun true Scripted.printing_config) Scripted.anonymous_order []))
  = printify_requests []
    ++ [Job.order_input (with_dryRun true Scripted.printing_config) Scripted.anonymous_order
          [{| li_productId := Some 101; li_variantId := Some 1001; li_quantity := 1;
              li_metadata := None |}]].
Proof.
  apply (proj2 (job_dry_run_still_orders_from_printify
                  (Scripted.world Scripted.printing_shop)
                  (with_dryRun true Scripted.printing_config)
                  Scripted.anonymous_order [] eq_refl));
    vm_compute; reflexivity.
Defined.



Lemma job_loop_extends (W : World) (printify : option PrintifyClient.Options)
    (cfg : AutomationConfig) (orders : list OrderSummary) (t : Trace) :
  exists middle,
    for_each orders (guarded_fulfillOrder W printify cfg) tt t = (Ok tt, t ++ middle).
Proof.
  revert t. induction orders as [| order rest IH]; intros t.
  - exists []. now rewrite app_nil_r.
  - cbn [for_each]. unfold bind, guarded_fulfillOrder at 1, try_catch.
    destruct (fulfillOrder_requests W printify cfg order t) as (suffix & Htrace & _).
    destruct (Job.fulfillOrder W printify cfg order t) as [[[] | e] t1];
      cbn [snd] in Htrace; subst t1.
    + destruct (IH (t ++ suffix)) as (middle & ->).
      exists (suffix ++ middle). now rewrite app_assoc.
    + unfold TelegramReporter.notify, emit.
      destruct (IH ((t ++ suffix) ++ [ENotify ("Lỗi khi xử lý đơn hàng " +:+ order_code order)
                                              (Some e)])) as (middle & ->).
      eexists. now rewrite <- !app_assoc.
Qed.

(** How a run of the batch job ends.  A failed login ends it at once,
    without any notification; a failure to fetch the orders is reported and
    rethrown; once the orders have been fetched the run always completes
    and reports completion, whatever happens to the individual orders. *)
Theorem runFulfillOrders_outcome (W : World) (cfg : AutomationConfig) (t : Trace) :
  let login := ELogin (username (cfg_vendure cfg)) (password (cfg_vendure cfg)) in
  let started := t ++ [login; ENotify "Bắt đầu chạy xử lý giao hàng" None] in
  let query := OrdersToFulfill (maxOrdersPerRun (cfg_vendure cfg)) in
  (forall e,
      vendure_login W t (username (cfg_vendure cfg)) (password (cfg_vendure cfg)) = Throw e ->
      Job.runFulfillOrders W (Ok cfg) t = (Throw e, t ++ [login]))
  /\ (vendure_login W t (username (cfg_vendure cfg)) (password (cfg_vendure cfg)) = Ok tt ->
      (forall e,
          vendure_graphql W started query = Throw e ->
          Job.runFulfillOrders W (Ok cfg) t
          = (Throw e, started ++ [EGraphql query;
                                  ENotify "Chạy xử lý giao hàng thất bại" (Some e)]))
      /\ (forall items,
            vendure_graphql W started query = Ok items ->
            exists middle,
              Job.runFulfillOrders W (Ok cfg) t
              = (Ok tt, started ++ EGraphql query :: middle
                        ++ [ENotify "Hoàn thành chạy xử lý giao hàng" None]))).
Proof.
  intros login started query. split; [| intros Hlogin; split].
  - intros e Hlogin.
    unfold Job.runFulfillOrders, bind, Job.lift, VendureClient.login. now rewrite Hlogin.
  - intros e Hfetch.
    unfold Job.runFulfillOrders, bind, Job.lift, VendureClient.login, try_catch,
      VendureClient.fetchOrders, bind, VendureClient.graphql, TelegramReporter.notify, emit,
      throw.
    rewrite Hlogin. rewrite <- app_assoc. cbn [app]. fold login. fold started.
    fold query. rewrite Hfetch. subst started. now rewrite <- !app_assoc.
  - intros items Hfetch.
    unfold Job.runFulfillOrders, bind, Job.lift, VendureClient.login.
    rewrite Hlogin. unfold TelegramReporter.notify at 1, emit. unfold try_catch at 1.
    unfold VendureClient.fetchOrders, bind, VendureClient.graphql, ret.
    rewrite <- app_assoc. cbn [app]. fold login. fold started. fold query. rewrite Hfetch.
    rewrite runFulfillOrders_loop.
    match goal with
    | |- context [for_each ?orders (guarded_fulfillOrder W ?p cfg) tt ?t0] =>
        destruct (job_loop_extends W p cfg orders t0) as (middle & ->)
    end.
    exists middle. unfold TelegramReporter.notify, emit. f_equal.
    now rewrite <- !app_assoc.
Qed.

(* ===================================================================== *)
(** ** The webhook job beyond the claims (part_002) *)
(* ===================================================================== *)

(** The signature check of the webhook job compares texts: with a secret,
    a body and a signature at hand it passes exactly for the hex digest
    itself.  Whatever it lets pass, the check of the webhook endpoint lets
    pass as well. *)
Theorem job_signature_check_is_stricter
    (W : World) (secret signature : option string) (body : string) :
  require_crypto W = true ->
  truthy_str body = true ->
  truthy signature = true ->
  (truthy secret = true ->
   (Job.verifySignature W secret (Some body) signature = true
    <-> signature = Some (Node.createHmac_sha256_hex (nullish secret "") body)))
  /\ (Job.verifySignature W secret (Some body) signature = true ->
      Api.verifySignature body secret signature = Ok true).
Proof.
  intros Hcrypto Hbody Hsignature.
  assert (Hexact : truthy secret = true ->
            (Job.verifySignature W secret (Some body) signature = true
             <-> signature = Some (Node.createHmac_sha256_hex (nullish secret "") body))).
  { intros Hsecret. unfold Job.verifySignature.
    rewrite Hsecret, Hsignature, Hcrypto. cbn [truthy nullish]. rewrite Hbody.
    cbn [negb orb].
    destruct signature as [sig |]; [| discriminate Hsignature]. cbn [nullish].
    split.
    - intros Hsame. apply bool_decide_eq_true in Hsame. congruence.
    - intros [= ->]. apply bool_decide_eq_true. reflexivity. }
  split; [exact Hexact |].
  intros Haccepted. destruct (truthy secret) eqn:Hsecret.
  - apply Hexact in Haccepted; [| reflexivity].
    apply verifySignature_accepts; [assumption |].
    eexists. split; [exact Haccepted |]. apply Buffer_from_hex_of_bytes.
  - unfold Api.verifySignature. now rewrite Hsecret.
Qed.

Lemma job_signature_check_is_stricter_witness :
  Api.verifySignature "{}" (Some "whsec") (Some Scripted.exact_signature) = Ok true.
Proof.
  apply (proj2 (job_signature_check_is_stricter (Scripted.world Scripted.shop_with_fulfillment)
                  (Some "whsec") (Some Scripted.exact_signature) "{}"
                  eq_refl eq_refl eq_refl)).
  vm_compute. reflexivity.
Defined.

(** When the [crypto] module can be loaded and a webhook secret is
    configured, a webhook with a non-empty body and a non-empty
    [X-Printify-Signature] header that is not the hex digest of the body is
    turned away by the webhook job before anything else happens: no login,
    no lookup, one notification, and the outcome
    [{ok: false, message: 'Invalid signature'}].  (Without the module, the
    secret, a body or a signature the check is lenient.) *)
Theorem job_webhook_rejects_wrong_signature
    (W : World) (cfg : AutomationConfig) (body : Job.WebhookBody)
    (headers : gmap string string) (secret signature : string) (t : Trace) :
  require_crypto W = true ->
  webhookSecret (cfg_printify cfg) = Some secret ->
  truthy_str secret = true ->
  headers !! "X-Printify-Signature" = Some signature ->
  truthy_str signature = true ->
  truthy_str (Job.body_text W body) = true ->
  signature <> Node.createHmac_sha256_hex secret (Job.body_text W body) ->
  Job.handlePrintifyWebhook W (Ok cfg) body headers t
  = (Ok {| Job.ok := false; Job.message := Some "Invalid signature" |},
     t ++ [ENotify "Từ chối webhook Printify: chữ ký không hợp lệ" None]).
Proof.
  intros Hcrypto Hsecret Hkey Hheader Hsigned Hbody Hwrong.
  unfold Job.handlePrintifyWebhook, bind, Job.lift, Job.verifySignature, or_opt, or_else.
  rewrite Hsecret, Hheader, Hcrypto. cbn [truthy nullish].
  rewrite Hsigned, Hkey, Hbody. cbn [truthy negb orb]. rewrite !Hsigned. cbn [negb].
  rewrite bool_decide_eq_false_2 by congruence.
  reflexivity.
Qed.

Lemma job_webhook_rejects_wrong_signature_witness :
  Job.handlePrintifyWebhook (Scripted.world Scripted.shop_with_fulfillment)
    (Ok (Scripted.config None (Some "whsec"))) (Job.BodyText "{}")
    {[ "X-Printify-Signature" := Scripted.capital_signature ]} []
  = (Ok {| Job.ok := false; Job.message := Some "Invalid signature" |},
     [] ++ [ENotify "Từ chối webhook Printify: chữ ký không hợp lệ" None]).
Proof.
  apply (job_webhook_rejects_wrong_signature (Scripted.world Scripted.shop_with_fulfillment)
           (Scripted.config None (Some "whsec")) (Job.BodyText "{}")
           {[ "X-Printify-Signature" := Scripted.capital_signature ]}
           "whsec" Scripted.capital_signature []);
    try reflexivity.
  vm_compute. discriminate.
Defined.

(** In dry-run the webhook job changes nothing: whatever the event and the
    order, a run sends no tracking update and no state transition. *)
Theorem job_webhook_dry_run_changes_nothing
    (W : World) (cfg : AutomationConfig) (body : Job.WebhookBody)
    (headers : gmap string string) (t : Trace) :
  dryRun (cfg_job cfg) = true ->
  exists suffix,
    snd (Job.handlePrintifyWebhook W (Ok cfg) body headers t) = t ++ suffix
    /\ mutations suffix = [].
Proof.
  intros Hdry. unfold Job.handlePrintifyWebhook, bind, Job.lift.
  destruct (negb _); [unfold TelegramReporter.notify, emit, ret; silent |].
  unfold Job.process_event. rewrite Hdry.
  destruct (Job.event_is_null W _); [exists []; rewrite app_nil_r; now split |].
  unfold bind, VendureClient.login, VendureClient.fetchOrderByCode, VendureClient.graphql,
    TelegramReporter.notify, emit, ret, bind.
  run_login; [| silent].
  destruct (truthy (evt_external_id _)); cbn [negb]; [| silent].
  run_query found; [| silent].
  destruct found as [raw |]; [| silent].
  destruct (last_elem _) as [latest |]; silent.
Qed.

Lemma job_webhook_dry_run_changes_nothing_witness :
  exists suffix,
    snd (Job.handlePrintifyWebhook (Scripted.world Scripted.shop_with_fulfillment)
           (Ok (with_dryRun true (Scripted.config None None)))
           (Job.BodyObject Scripted.shipped_event) ∅ [])
    = [] ++ suffix
    /\ mutations suffix = [].
Proof.
  apply (job_webhook_dry_run_changes_nothing (Scripted.world Scripted.shop_with_fulfillment)
           (with_dryRun true (Scripted.config None None))
           (Job.BodyObject Scripted.shipped_event) ∅ [] eq_refl).
Defined.

(* ===================================================================== *)
(** ** The batch endpoint beyond the claims (part_004) *)
(* ===================================================================== *)

(** [validateSecret].  Without a configured secret every request passes.
    With one, a secret given as a non-empty string in the query decides
    alone, whatever the header says; only when the query gives none (it is
    missing, empty, or an array) does the [x-automation-secret] header
    decide, and it has to be a plain string equal to the secret. *)
Theorem validateSecret_query_before_header
    (req : Api.FulfillRequest) (expected : option string) :
  (truthy expected = false -> Api.validateSecret req expected = true)
  /\ (truthy expected = true ->
      (forall q,
          Api.req_query req !! "secret" = Some (HeaderString q) ->
          truthy_str q = true ->
          Api.validateSecret req expected = bool_decide (Some q = expected))
      /\ (truthy (Api.string_value (Api.req_query req !! "secret")) = false ->
          (Api.validateSecret req expected = true
           <-> Api.req_headers req !! "x-automation-secret"
               = Some (HeaderString (nullish expected ""))))).
Proof.
  unfold Api.validateSecret. split.
  - now intros ->.
  - intros Hexpected. rewrite Hexpected. cbn [negb]. split.
    + intros q Hquery Hq. unfold or_opt. rewrite Hquery. cbn [Api.string_value truthy].
      now rewrite Hq.
    + intros Hnone. unfold or_opt. rewrite Hnone. rewrite bool_decide_eq_true.
      destruct expected as [e |]; [| discriminate]. cbn [nullish].
      destruct (Api.req_headers req !! "x-automation-secret") as [[v | vs] |];
        cbn [Api.string_value]; split; congruence.
Qed.

Lemma run_job_status (W : World) (config : AutomationConfig)
    (printify : option PrintifyClient.Options) (t : Trace) :
  match fst (Api.run_job W config printify t) with
  | Ok response => Api.status response = 200
  | Throw _ => True
  end.
Proof.
  unfold Api.run_job, bind, Api.respond, ret, TelegramReporter.notify, emit.
  destruct (VendureClient.login W _ _ _) as [[[] | e] t1]; [| exact I].
  destruct (VendureClient.supportsCreateFulfillment W t1) as [[can | e] t2]; [| exact I].
  destruct can; cbn [negb]; cbv beta iota;
    match goal with
    | |- context [VendureClient.fetchOrders W ?states ?take ?t0] =>
        destruct (VendureClient.fetchOrders W states take t0) as [[orders | e] t3]
    end; try exact I;
    (destruct (length _ =? 0)%nat; [reflexivity |]);
    match goal with
    | |- context [for_each ?os ?body ?acc ?t0] =>
        destruct (for_each os body acc t0) as [[acc' | e] t4]
    end; try exact I;
    now destruct (dryRun _).
Qed.

(** The batch endpoint never lets an exception escape: every request is
    answered, with status 200, 401, 405 or 500.  A request that is not a
    POST gets 405 with [Allow: POST], a configuration that cannot be loaded
    gets 500, a wrong or missing secret gets 401, and in these three cases
    nothing has been sent or reported. *)
Theorem batch_endpoint_always_answers
    (W : World) (loadConfig : Result AutomationConfig) (req : Api.FulfillRequest) (t : Trace) :
  exists response t',
    Api.fulfillHandler W loadConfig req t = (Ok response, t')
    /\ Api.status response ∈ [200; 401; 405; 500]
    /\ (Api.req_method req <> Some "POST" ->
        Api.status response = 405 /\ Api.allow_header response = Some "POST" /\ t' = t)
    /\ (Api.req_method req = Some "POST" ->
        (forall e, loadConfig = Throw e ->
                   Api.status response = 500 /\ Api.body response = Api.ErrorBody e /\ t' = t)
        /\ (forall config,
              loadConfig = Ok config ->
              Api.validateSecret req (job_secret (cfg_job config)) = false ->
              Api.status response = 401 /\ t' = t)).
Proof.
  unfold Api.fulfillHandler.
  destruct (bool_decide (Api.req_method req = Some "POST")) eqn:Hmethod; cbn [negb].
  - apply bool_decide_eq_true in Hmethod.
    destruct loadConfig as [config | e].
    + destruct (Api.validateSecret req (job_secret (cfg_job config))) eqn:Hsecret; cbn [negb].
      * match goal with
        | |- context [try_catch (Api.run_job W config ?p)] =>
            pose proof (run_job_status W config p t) as Hstatus;
            unfold try_catch;
            destruct (Api.run_job W config p t) as [[response | e] t1]
        end; cbn [fst] in Hstatus.
        -- exists response, t1. split; [reflexivity |]. rewrite Hstatus.
           split; [set_solver |]. split; [congruence |]. intros _. split; [discriminate |].
           intros config' [= <-]. congruence.
        -- unfold bind, TelegramReporter.notify, emit, Api.respond, ret. eexists _, _.
           split; [reflexivity |]. cbn. split; [set_solver |]. split; [congruence |].
           intros _. split; [discriminate |]. intros config' [= <-]. congruence.
      * unfold Api.respond, ret. eexists _, _. split; [reflexivity |]. cbn.
        split; [set_solver |]. split; [congruence |]. intros _.
        split; [discriminate | now intros config' _ _].
    + unfold Api.respond, ret. eexists _, _. split; [reflexivity |]. cbn.
      split; [set_solver |]. split; [congruence |]. intros _.
      split; [now intros e' [= <-] | discriminate].
  - apply bool_decide_eq_false in Hmethod. unfold ret. eexists _, _.
    split; [reflexivity |]. cbn. split; [set_solver |]. split; [now intros _ |].
    intros Hpost. contradiction.
Qed.

Lemma batch_loop_dry_run (W : World) (config : AutomationConfig)
    (printify : option PrintifyClient.Options) (canVendureFulfill : bool)
    (orders : list OrderSummary) (acc : Api.Tally) (t : Trace) :
  dryRun (cfg_job config) = true ->
  exists acc',
    for_each orders (Api.process_order W config printify canVendureFulfill) acc t
    = (Ok acc', t)
    /\ Api.successCount acc' = Api.successCount acc
    /\ Api.failures acc' = Api.failures acc
    /\ length (Api.dryRunNotes acc')
       = (length (Api.dryRunNotes acc) + length (List.filter has_outstanding orders))%nat.
Proof.
  intros Hdry. revert acc. induction orders as [| order rest IH]; intros acc.
  - exists acc. cbn. repeat split. lia.
  - cbn [for_each List.filter]. unfold bind, Api.process_order at 1, has_outstanding at 1.
    destruct (length (getOutstandingFulfillmentLines order) =? 0)%nat; cbn [negb].
    + unfold ret. apply IH.
    + rewrite Hdry. unfold ret.
      match goal with
      | |- context [for_each rest _ ?acc1 t] => destruct (IH acc1) as (acc2 & -> & Hs & Hf & Hn)
      end.
      exists acc2. split; [reflexivity |]. cbn in Hs, Hf, Hn. repeat split; trivial.
      rewrite Hn, length_app. cbn. lia.
Qed.

(** A dry run of the batch endpoint only reads: it sends no creation
    request, no other mutation, and no order to Printify. *)
Theorem batch_endpoint_dry_run_is_read_only
    (W : World) (config : AutomationConfig) (req : Api.FulfillRequest) (t : Trace) :
  dryRun (cfg_job config) = true ->
  exists suffix,
    snd (Api.fulfillHandler W (Ok config) req t) = t ++ suffix
    /\ mutations suffix = []
    /\ printify_requests suffix = [].
Proof.
  intros Hdry. unfold Api.fulfillHandler.
  destruct (negb (bool_decide _)); [exists []; now rewrite app_nil_r |].
  destruct (negb (Api.validateSecret _ _)); [exists []; now rewrite app_nil_r |].
  unfold try_catch, Api.run_job, bind, VendureClient.login, VendureClient.supportsCreateFulfillment,
    try_catch, bind, VendureClient.fetchOrders, bind, VendureClient.graphql, Api.respond, ret,
    TelegramReporter.notify, emit.
  rewrite Hdry.
  run_login; [| flatten_trace; eexists; now repeat split].
  run_query names.
  - destruct (negb _); unfold emit;
      (run_query items; [| flatten_trace; eexists; now repeat split]);
      (destruct (length _ =? 0)%nat; [flatten_trace; eexists; now repeat split |]);
      match goal with
      | |- context [for_each ?orders (Api.process_order W config ?p ?can) ?acc ?t0] =>
          destruct (batch_loop_dry_run W config p can orders acc t0 Hdry) as (acc' & -> & _)
      end; flatten_trace; eexists; now repeat split.
  - cbn [negb]. unfold emit.
    run_query items; [| flatten_trace; eexists; now repeat split].
    destruct (length _ =? 0)%nat; [flatten_trace; eexists; now repeat split |].
    match goal with
    | |- context [for_each ?orders (Api.process_order W config ?p ?can) ?acc ?t0] =>
        destruct (batch_loop_dry_run W config p can orders acc t0 Hdry) as (acc' & -> & _)
    end. flatten_trace. eexists. now repeat split.
Qed.

Lemma batch_endpoint_dry_run_is_read_only_witness :
  exists suffix,
    snd (Api.fulfillHandler (Scripted.world Scripted.legacy_shop)
           (Ok (with_dryRun true (Scripted.config None None))) Scripted.job_post [])
    = [] ++ suffix
    /\ mutations suffix = []
    /\ printify_requests suffix = [].
Proof.
  apply (batch_endpoint_dry_run_is_read_only (Scripted.world Scripted.legacy_shop)
           (with_dryRun true (Scripted.config None None)) Scripted.job_post [] eq_refl).
Defined.

Lemma createFulfillment_mutation_count (W : World) (input : CreateFulfillmentArgs) (t : Trace) :
  exists suffix,
    snd (VendureClient.createFulfillment W input t) = t ++ suffix
    /\ (length (mutations suffix) <= 2)%nat
    /\ printify_requests suffix = [].
Proof.
  destruct (createFulfillment_trace W input t) as (attempts & -> & Hshape).
  eexists. split; [reflexivity |].
  assert (Hshort : (length attempts <= 2)%nat).
  { destruct (vendure_graphql W t IntrospectMutations) as [names | e];
      [| subst; cbn; lia].
    destruct (VendureClient.names_include "createFulfillment" names);
      [destruct Hshape as [-> | ->]; cbn; lia |].
    destruct (VendureClient.names_include "addFulfillmentToOrder" names);
      [destruct Hshape as [-> | ->]; cbn; lia | subst; cbn; lia]. }
  split.
  - cbn [mutations List.filter is_mutation].
    etransitivity; [apply List.filter_length_le |]. now rewrite length_map.
  - cbn. clear. induction attempts as [| q rest IH]; [reflexivity | exact IH].
Qed.

Lemma vendure_step_tally (W : World) (config : AutomationConfig) (canVendureFulfill : bool)
    (order : OrderSummary) (outstanding : list OutstandingLine) (acc : Api.Tally) (t : Trace) :
  exists acc' suffix,
    Api.vendure_step W config canVendureFulfill order outstanding acc t = (Ok acc', t ++ suffix)
    /\ counted_once (order_code order) acc acc'
    /\ (length (mutations suffix) <= 2)%nat
    /\ printify_requests suffix = [].
Proof.
  unfold Api.vendure_step, counted_once.
  destruct canVendureFulfill; cbn [negb].
  - unfold bind, try_catch, ret.
    match goal with
    | |- context [VendureClient.createFulfillment W ?i t] =>
        destruct (createFulfillment_mutation_count W i t) as (mid & Hmid & Hcount & Hnone);
        destruct (VendureClient.createFulfillment W i t) as [[created | e] t1]
    end; cbn [snd] in Hmid; subst t1.
    + destruct created as [fulfillmentId state method | reason];
        unfold TelegramReporter.notify, emit, ret; eexists _, _;
        (split; [rewrite <- app_assoc; reflexivity |]); cbn;
        rewrite mutations_app, printify_requests_app, Hnone, length_app; cbn;
        (split; [split; [reflexivity |] | split; [lia | reflexivity]]).
      * now left.
      * right. split; [reflexivity | now exists reason].
    + unfold TelegramReporter.notify, emit, ret. eexists _, _.
      split; [rewrite <- app_assoc; reflexivity |]. cbn.
      rewrite mutations_app, printify_requests_app, Hnone, length_app. cbn.
      split; [split; [reflexivity |] | split; [lia | reflexivity]].
      right. split; [reflexivity | now exists e].
  - unfold bind, TelegramReporter.notify, emit, ret. eexists _, _.
    split; [reflexivity |]. cbn.
    split; [split; [reflexivity |] | split; [lia | reflexivity]].
    right. split; [reflexivity | now eexists].
Qed.

Lemma process_order_tally (W : World) (config : AutomationConfig)
    (printify : option PrintifyClient.Options) (canVendureFulfill : bool)
    (order : OrderSummary) (acc : Api.Tally) (t : Trace) :
  dryRun (cfg_job config) = false ->
  exists acc' suffix,
    Api.process_order W config printify canVendureFulfill order acc t = (Ok acc', t ++ suffix)
    /\ (if has_outstanding order
        then counted_once (order_code order) acc acc'
             /\ (length (mutations suffix) <= 2)%nat
             /\ (length (printify_requests suffix) <= 1)%nat
        else acc' = acc /\ suffix = []).
Proof.
  intros Hwet. unfold Api.process_order, has_outstanding.
  destruct (length (getOutstandingFulfillmentLines order) =? 0)%nat; cbn [negb].
  { exists acc, []. now rewrite app_nil_r. }
  rewrite Hwet.
  assert (Hvendure : forall pre,
            mutations pre = [] -> (length (printify_requests pre) <= 1)%nat ->
            exists acc' suffix,
              Api.vendure_step W config canVendureFulfill order
                (getOutstandingFulfillmentLines order) acc (t ++ pre) = (Ok acc', t ++ suffix)
              /\ counted_once (order_code order) acc acc'
              /\ (length (mutations suffix) <= 2)%nat
              /\ (length (printify_requests suffix) <= 1)%nat).
  { intros pre Hquiet Hone.
    destruct (vendure_step_tally W config canVendureFulfill order
                (getOutstandingFulfillmentLines order) acc (t ++ pre))
      as (acc' & suffix & -> & Hcounted & Hcount & Hnone).
    exists acc', (pre ++ suffix). split; [now rewrite app_assoc |].
    split; [exact Hcounted |].
    rewrite mutations_app, printify_requests_app, Hquiet, Hnone, app_nil_r. cbn.
    split; assumption. }
  destruct printify as [client |].
  2:{ specialize (Hvendure [] eq_refl). rewrite app_nil_r in Hvendure.
      apply Hvendure. cbn. lia. }
  unfold bind, Api.printify_step, try_catch.
  assert (Hfailed : forall reason pre,
            mutations pre = [] -> (length (printify_requests pre) <= 1)%nat ->
            exists acc' suffix,
              (let (r, t') :=
                 TelegramReporter.notify "Printify order creation failed"
                   (Some ("Order " +:+ order_code order +:+ ": " +:+ reason)) (t ++ pre) in
               match r with
               | Ok _ => ret (Api.add_failure (order_code order) reason acc) t'
               | Throw e => (Throw e, t')
               end) = (Ok acc', t ++ suffix)
              /\ counted_once (order_code order) acc acc'
              /\ (length (mutations suffix) <= 2)%nat
              /\ (length (printify_requests suffix) <= 1)%nat).
  { intros reason pre Hquiet Hone. unfold TelegramReporter.notify, emit, ret.
    eexists _, _. split; [rewrite <- app_assoc; reflexivity |].
    rewrite mutations_app, printify_requests_app, Hquiet. cbn. rewrite app_nil_r.
    split; [| split; [lia | assumption]].
    split; [reflexivity |]. right. split; [reflexivity | now exists reason]. }
  destruct (order_shippingAddress order) as [address |].
  2:{ unfold throw, ret. specialize (Hfailed "Order missing shipping address" [] eq_refl).
      rewrite app_nil_r in Hfailed. apply Hfailed. cbn. lia. }
  unfold bind, Api.lift.
  destruct (Api.buildPrintifyLineItems _ _) as [items | e].
  2:{ unfold ret. specialize (Hfailed e [] eq_refl). rewrite app_nil_r in Hfailed.
      apply Hfailed. cbn. lia. }
  unfold PrintifyClient.createOrder.
  destruct (PrintifyClient.opt_mock client).
  - unfold TelegramReporter.notify at 1, emit, ret. apply Hvendure; [reflexivity | cbn; lia].
  - destruct (printify_post_order W _ _) as [resp | e].
    + unfold TelegramReporter.notify at 1, emit, ret. rewrite <- app_assoc.
      apply Hvendure; [reflexivity | cbn; lia].
    + unfold ret. apply Hfailed; [reflexivity | cbn; lia].
Qed.

(** The loop of the batch endpoint in a run that is not a dry run.  It goes
    through all the orders without ever throwing, and every order with
    outstanding lines is accounted for exactly once, as a success or as a
    failure; such an order costs at most one Printify order and at most two
    creation requests, and an order without outstanding lines costs
    nothing. *)
Theorem batch_endpoint_counts_every_order
    (W : World) (config : AutomationConfig) (printify : option PrintifyClient.Options)
    (canVendureFulfill : bool) (orders : list OrderSummary) (acc : Api.Tally) (t : Trace) :
  dryRun (cfg_job config) = false ->
  exists acc' suffix,
    for_each orders (Api.process_order W config printify canVendureFulfill) acc t
    = (Ok acc', t ++ suffix)
    /\ accounted acc' = accounted acc + Z.of_nat (length (List.filter has_outstanding orders))
    /\ Api.dryRunNotes acc' = Api.dryRunNotes acc
    /\ (length (mutations suffix) <= 2 * length (List.filter has_outstanding orders))%nat
    /\ (length (printify_requests suffix) <= length (List.filter has_outstanding orders))%nat.
Proof.
  intros Hwet. revert acc t. induction orders as [| order rest IH]; intros acc t.
  - exists acc, []. cbn. rewrite app_nil_r. repeat split; lia.
  - cbn [for_each List.filter]. unfold bind.
    destruct (process_order_tally W config printify canVendureFulfill order acc t Hwet)
      as (acc1 & mid & -> & Hstep).
    destruct (IH acc1 (t ++ mid)) as (acc2 & tail & -> & Hcount & Hnotes & Hmut & Hreq).
    exists acc2, (mid ++ tail). split; [now rewrite app_assoc |].
    rewrite mutations_app, printify_requests_app, !length_app.
    destruct (has_outstanding order).
    + destruct Hstep as ((Hkeep & Hcounted) & Hmid & Hone). cbn [length].
      split; [| split; [congruence | split; lia]].
      rewrite Hcount. unfold accounted.
      destruct Hcounted as [[-> ->] | [-> [reason ->]]]; [lia |].
      rewrite length_app. cbn. lia.
    + destruct Hstep as [-> ->]. cbn. repeat split; trivial.
Qed.

Lemma batch_endpoint_counts_every_order_witness :
  exists acc' suffix,
    for_each [Scripted.anonymous_order; Scripted.partly_fulfilled]
      (Api.process_order (Scripted.world Scripted.printing_shop) Scripted.printing_config
         (Some Scripted.printify_client) true)
      {| Api.successCount := 0; Api.failures := []; Api.dryRunNotes := [] |} []
    = (Ok acc', [] ++ suffix)
    /\ accounted acc'
       = accounted {| Api.successCount := 0; Api.failures := []; Api.dryRunNotes := [] |}
         + Z.of_nat (length (List.filter has_outstanding
                               [Scripted.anonymous_order; Scripted.partly_fulfilled]))
    /\ Api.dryRunNotes acc' = []
    /\ (length (mutations suffix)
        <= 2 * length (List.filter has_outstanding
                         [Scripted.anonymous_order; Scripted.partly_fulfilled]))%nat
    /\ (length (printify_requests suffix)
        <= length (List.filter has_outstanding
                     [Scripted.anonymous_order; Scripted.partly_fulfilled]))%nat.
Proof.
  apply (batch_endpoint_counts_every_order (Scripted.world Scripted.printing_shop)
           Scripted.printing_config (Some Scripted.printify_client) true
           [Scripted.anonymous_order; Scripted.partly_fulfilled]
           {| Api.successCount := 0; Api.failures := []; Api.dryRunNotes := [] |} [] eq_refl).
Defined.

(** An order without shipping address.  The batch endpoint records it as a
    failure of the Printify step and sends nothing for it; the batch job
    builds the Printify order all the same, with the name [Customer], the
    country [US] and empty address lines. *)
Theorem order_without_shipping_address
    (W : World) (config : AutomationConfig) (client : PrintifyClient.Options)
    (canVendureFulfill : bool) (order : OrderSummary) (acc : Api.Tally) (t : Trace) :
  order_shippingAddress order = None ->
  (dryRun (cfg_job config) = false ->
   has_outstanding order = true ->
   Api.process_order W config (Some client) canVendureFulfill order acc t
   = (Ok (Api.add_failure (order_code order) "Order missing shipping address" acc),
      t ++ [ENotify "Printify order creation failed"
                    (Some ("Order " +:+ order_code order
                           +:+ ": Order missing shipping address"))]))
  /\ (forall items,
        let address := address_to (Job.order_input config order items) in
        first_name address = "Customer" /\ last_name address = ""
        /\ country address = "US" /\ address1 address = ""
        /\ addr_city address = "" /\ zip address = "").
Proof.
  intros Hnone. split.
  - intros Hwet Hsome. unfold Api.process_order.
    unfold has_outstanding in Hsome. apply negb_true_iff in Hsome.
    rewrite Hsome, Hwet. unfold bind, Api.printify_step, try_catch. rewrite Hnone.
    reflexivity.
  - intros items. unfold Job.order_input, Job.address_of. rewrite Hnone. cbn. now repeat split.
Qed.

Lemma order_without_shipping_address_witness :
  Api.process_order (Scripted.world Scripted.printing_shop) Scripted.printing_config
    (Some Scripted.printify_client) true Scripted.partly_fulfilled
    {| Api.successCount := 0; Api.failures := []; Api.dryRunNotes := [] |} []
  = (Ok (Api.add_failure (order_code Scripted.partly_fulfilled)
           "Order missing shipping address"
           {| Api.successCount := 0; Api.failures := []; Api.dryRunNotes := [] |}),
     [] ++ [ENotify "Printify order creation failed"
                    (Some ("Order " +:+ order_code Scripted.partly_fulfilled
                           +:+ ": Order missing shipping address"))]).
Proof.
  apply (proj1 (order_without_shipping_address (Scripted.world Scripted.printing_shop)
                  Scripted.printing_config Scripted.printify_client true
                  Scripted.partly_fulfilled
                  {| Api.successCount := 0; Api.failures := []; Api.dryRunNotes := [] |} []
                  eq_refl));
    reflexivity.
Defined.

(* ===================================================================== *)
(** ** The webhook endpoint beyond the claims (part_005) *)
(* ===================================================================== *)

(** The webhook endpoint never looks at the dry-run switch: a configuration
    in dry-run and the same configuration out of it lead to the same
    response and the same requests.  On the example event of the
    specification a dry-run configuration still leads to both mutations. *)
Theorem webhook_endpoint_ignores_dry_run
    (W : World) (config : AutomationConfig) (flag : bool)
    (req : Api.WebhookRequest) (t : Trace) :
  Api.webhookHandler W (Ok (with_dryRun flag config)) req t
  = Api.webhookHandler W (Ok config) req t
  /\ mutations (snd (Api.webhookHandler (Scripted.world Scripted.shop_with_fulfillment)
                       (Ok (with_dryRun true (Scripted.config None None)))
                       (Scripted.webhook_post Scripted.shipment_created) []))
     = [EGraphql (TransitionFulfillmentToState "F-1" "Shipped");
        EGraphql (UpdateFulfillmentTracking "F-1" (Some "T1") (Some "DHL"))].
Proof. split; [reflexivity | vm_compute; reflexivity]. Qed.

(** When the backend refuses the state transition, [transitionFulfillments]
    stops there: it throws an error that starts with "Vendure transition
    failed: " and continues with a non-empty reason, and it does not go on
    to the tracking update. *)
Theorem endpoint_refused_transition_stops
    (W : World) (order : OrderSummary) (targetState : FulfillmentState.t)
    (tracking : option Api.Tracking) (latest : FulfillmentRef) (r : TransitionResult)
    (t : Trace) :
  let transition := TransitionFulfillmentToState (fulfillment_id latest)
                      (FulfillmentState.to_string targetState) in
  last_elem (order_fulfillments order) = Some latest ->
  vendure_graphql W t transition = Ok r ->
  tr_typename r <> "Fulfillment" ->
  exists reason,
    reason <> ""
    /\ Api.transitionFulfillments W order (Some targetState) tracking t
       = (Throw ("Vendure transition failed: " +:+ reason), t ++ [EGraphql transition]).
Proof.
  intros transition Hlatest Hanswer Hrefused.
  unfold Api.transitionFulfillments. rewrite Hlatest.
  unfold bind, Api.rethrow_as, try_catch, VendureClient.transitionFulfillmentToState, bind,
    VendureClient.graphql, throw.
  fold transition. rewrite Hanswer.
  rewrite bool_decide_eq_false_2 by assumption.
  eexists. split; [| reflexivity]. now apply fallback_text_not_empty.
Qed.

Lemma endpoint_refused_transition_stops_witness :
  exists reason,
    reason <> ""
    /\ Api.transitionFulfillments (Scripted.refusing_transitions Scripted.shop_with_fulfillment)
         (Scripted.order_with "ORD123" [] [Scripted.pending "F-1"] None)
         (Some FulfillmentState.Shipped)
         (Some {| Api.trk_carrier := Some "DHL"; Api.trk_code := Some "T1" |}) []
       = (Throw ("Vendure transition failed: " +:+ reason),
          [] ++ [EGraphql (TransitionFulfillmentToState "F-1" "Shipped")]).
Proof.
  apply (endpoint_refused_transition_stops
           (Scripted.refusing_transitions Scripted.shop_with_fulfillment)
           (Scripted.order_with "ORD123" [] [Scripted.pending "F-1"] None)
           FulfillmentState.Shipped
           (Some {| Api.trk_carrier := Some "DHL"; Api.trk_code := Some "T1" |})
           (Scripted.pending "F-1")
           {| tr_typename := "FulfillmentStateTransitionError";
              tr_message := Some "Cannot transition";
              tr_transitionError := Some "Not allowed from Pending" |} []).
  - reflexivity.
  - reflexivity.
  - discriminate.
Defined.




(** The other escaping exception, on a signature that decodes to two
    bytes. *)
Example signature_length_escapes :
  Api.webhookHandler (Scripted.world Scripted.shop_with_fulfillment)
    (Ok (Scripted.config None (Some "whsec"))) (Scripted.signed_post "abcd" "{}") []
  = (Throw signature_length_error, []).
Proof. vm_compute. reflexivity. Qed.

(* ===================================================================== *)
(** ** Names, escaped text and cookies *)
(* ===================================================================== *)

Lemma words_from_truthy (skip : nat) (current s : string) :
  Forall (fun w => truthy_str w = true) (words_from skip current s).
Proof.
  revert skip current. induction s as [| c r IH]; intros skip current; cbn [words_from].
  - destruct (truthy_str current) eqn:H; [now repeat constructor | constructor].
  - destruct skip as [| k]; [| apply IH].
    destruct (white_space_prefix (String c r)) as [| k]; [apply IH |].
    destruct (truthy_str current) eqn:H; cbn [app]; [constructor; [exact H | apply IH] | apply IH].
Qed.

Lemma truthy_str_not_empty (s : string) : truthy_str s = true <-> s <> "".
Proof. destruct s; cbn; split; congruence. Qed.

Lemma truthy_str_app (a b : string) : truthy_str a = true -> truthy_str (a +:+ b) = true.
Proof. now destruct a. Qed.

Lemma join_truthy (sep : string) (parts : list string) :
  parts <> [] -> Forall (fun w => truthy_str w = true) parts ->
  truthy_str (join sep parts) = true.
Proof.
  intros Hsome Hall. destruct Hall as [| p rest Hp Hrest]; [congruence |].
  destruct rest; cbn; [exact Hp | now apply truthy_str_app].
Qed.

(** The two name splitters.  The words of a name are its maximal runs of
    characters other than white space, where white space is that of
    JavaScript: a no-break space separates words as a blank does.  Both
    splitters take the first word as first name and the remaining words,
    joined by single spaces, as last name, so that for a name of two words
    or more they agree and the two parts put together are the name with its
    white space normalised.  They differ on shorter names: the batch job
    answers with an empty last name, the batch endpoint never returns an
    empty first or last name. *)
Theorem name_splitting (name : option string) :
  let parts := words (nullish name "") in
  (fst (Api.splitFullName name) <> "" /\ snd (Api.splitFullName name) <> "")
  /\ fst (Job.splitName name) <> ""
  /\ (snd (Job.splitName name) = "" <-> (length parts <= 1)%nat)
  /\ ((1 < length parts)%nat ->
      Api.splitFullName name = Job.splitName name
      /\ fst (Job.splitName name) +:+ " " +:+ snd (Job.splitName name) = join " " parts)
  /\ Job.splitName (Some ("Ada" +:+ no_break_space +:+ "Lovelace")) = ("Ada", "Lovelace")
  /\ Api.splitFullName (Some ("Ada" +:+ ideographic_space +:+ "Lovelace"))
     = ("Ada", "Lovelace").
Proof.
  intros parts.
  cut ((fst (Api.splitFullName name) <> "" /\ snd (Api.splitFullName name) <> "")
       /\ fst (Job.splitName name) <> ""
       /\ (snd (Job.splitName name) = "" <-> (length parts <= 1)%nat)
       /\ ((1 < length parts)%nat ->
           Api.splitFullName name = Job.splitName name
           /\ fst (Job.splitName name) +:+ " " +:+ snd (Job.splitName name)
              = join " " parts)).
  { intros (H1 & H2 & H3 & H4). split; [exact H1 |]. split; [exact H2 |].
    split; [exact H3 |]. split; [exact H4 |]. split; reflexivity. }
  revert parts.
  intros parts. pose proof (words_from_truthy 0 "" (nullish name "")) as Hwords.
  fold (words (nullish name "")) in Hwords. fold parts in Hwords.
  assert (Hempty : truthy name = false -> parts = []).
  { subst parts. destruct name as [[| c r] |]; cbn; trivial; discriminate. }
  unfold Api.splitFullName, Job.splitName. fold parts.
  destruct (truthy name) eqn:Hname; cbn [negb].
  - destruct Hwords as [| w rest Hw Hrest]; cbn [fst snd length].
    + repeat split; try discriminate; try lia.
    + apply truthy_str_not_empty in Hw.
      destruct Hrest as [| w2 rest Hw2 Hrest]; cbn [fst snd length].
      * repeat split; try discriminate; try assumption; try lia.
      * assert (Hlast : truthy_str (join " " (w2 :: rest)) = true)
          by (apply join_truthy; [discriminate | now constructor]).
        apply truthy_str_not_empty in Hlast.
        repeat split; try assumption; try lia. intros Hnone. contradiction.
  - rewrite (Hempty eq_refl). cbn. repeat split; try discriminate; try lia.
Qed.

Lemma text_app_assoc (a b c : string) : a +:+ (b +:+ c) = (a +:+ b) +:+ c.
Proof.
  induction a as [| d a IH]; [reflexivity |].
  change (String d (a +:+ (b +:+ c)) = String d ((a +:+ b) +:+ c)). now rewrite IH.
Qed.

Lemma replace_all_app (c : ascii) (replacement a b : string) :
  replace_all c replacement (a +:+ b)
  = replace_all c replacement a +:+ replace_all c replacement b.
Proof.
  induction a as [| d a IH]; [reflexivity |].
  change (String d a +:+ b) with (String d (a +:+ b)). cbn [replace_all].
  destruct (Ascii.eqb d c); rewrite IH; [| reflexivity].
  apply text_app_assoc.
Qed.

(** [escapeHtml] works character by character. *)
Lemma escapeHtml_cons (c : ascii) (s : string) :
  TelegramReporter.escapeHtml (String c s) = entity c +:+ TelegramReporter.escapeHtml s.
Proof.
  unfold TelegramReporter.escapeHtml, entity. cbn [replace_all].
  destruct (Ascii.eqb_spec c "&") as [-> | Hamp].
  - rewrite !replace_all_app. reflexivity.
  - cbn [replace_all]. destruct (Ascii.eqb_spec c "<") as [-> | Hlt].
    + rewrite !replace_all_app. reflexivity.
    + cbn [replace_all]. destruct (Ascii.eqb_spec c ">") as [-> | Hgt]; reflexivity.
Qed.

Lemma includes_char_app (c : ascii) (a b : string) :
  includes (String c "") (a +:+ b) = includes (String c "") a || includes (String c "") b.
Proof.
  induction a as [| d a IH]; [reflexivity |].
  change (String d a +:+ b) with (String d (a +:+ b)).
  cbn [includes startsWith]. rewrite IH.
  destruct (Ascii.eqb c d); reflexivity.
Qed.

(** [escapeHtml] leaves neither [<] nor [>] in its output, and it loses
    nothing: two texts with the same escaped form are the same text. *)
Theorem escapeHtml_safe_and_lossless (s : string) :
  includes "<" (TelegramReporter.escapeHtml s) = false
  /\ includes ">" (TelegramReporter.escapeHtml s) = false
  /\ (forall s', TelegramReporter.escapeHtml s' = TelegramReporter.escapeHtml s -> s' = s).
Proof.
  split; [| split].
  - induction s as [| c s IH]; [reflexivity |].
    rewrite escapeHtml_cons, includes_char_app, IH, orb_false_r. unfold entity.
    destruct (Ascii.eqb_spec c "&") as [-> | _]; [reflexivity |].
    destruct (Ascii.eqb_spec c "<") as [-> | Hlt]; [reflexivity |].
    destruct (Ascii.eqb_spec c ">") as [-> | _]; [reflexivity |].
    change (includes "<" (String c "")) with (Ascii.eqb "<" c && true || false).
    rewrite orb_false_r, andb_true_r. apply Ascii.eqb_neq. congruence.
  - induction s as [| c s IH]; [reflexivity |].
    rewrite escapeHtml_cons, includes_char_app, IH, orb_false_r. unfold entity.
    destruct (Ascii.eqb_spec c "&") as [-> | _]; [reflexivity |].
    destruct (Ascii.eqb_spec c "<") as [-> | _]; [reflexivity |].
    destruct (Ascii.eqb_spec c ">") as [-> | Hgt]; [reflexivity |].
    change (includes ">" (String c "")) with (Ascii.eqb ">" c && true || false).
    rewrite orb_false_r, andb_true_r. apply Ascii.eqb_neq. congruence.
  - induction s as [| c s IH]; intros s' Hsame.
    + destruct s' as [| c' s']; [reflexivity |]. rewrite escapeHtml_cons in Hsame.
      unfold entity in Hsame.
      destruct (Ascii.eqb c' "&"); [discriminate |].
      destruct (Ascii.eqb c' "<"); [discriminate |].
      destruct (Ascii.eqb c' ">"); discriminate.
    + destruct s' as [| c' s'].
      * rewrite escapeHtml_cons in Hsame. unfold entity in Hsame.
        destruct (Ascii.eqb c "&"); [discriminate |].
        destruct (Ascii.eqb c "<"); [discriminate |].
        destruct (Ascii.eqb c ">"); discriminate.
      * rewrite !escapeHtml_cons in Hsame. unfold entity in Hsame.
        destruct (Ascii.eqb_spec c "&") as [-> | Hamp];
          destruct (Ascii.eqb_spec c' "&") as [-> | Hamp'];
          try (destruct (Ascii.eqb_spec c "<") as [-> | Hlt]);
          try (destruct (Ascii.eqb_spec c' "<") as [-> | Hlt']);
          try (destruct (Ascii.eqb_spec c ">") as [-> | Hgt]);
          try (destruct (Ascii.eqb_spec c' ">") as [-> | Hgt']);
          cbn in Hsame; try discriminate;
          injection Hsame as Hsame; subst; try congruence;
          f_equal; now apply IH.
Qed.

Lemma filter_truthy_all (l : list string) :
  Forall (fun w => truthy_str w = true) (List.filter truthy_str l).
Proof.
  apply List.Forall_forall. intros w Hin. now apply List.filter_In in Hin as [_ Hw].
Qed.

(** The cookie jar of the admin client.  A response either leaves the jar
    as it is or replaces it by a value that does not depend on the old jar
    (cookies of earlier responses are not merged in); a jar that holds a
    session never becomes empty again; updating twice with the same header
    is the same as updating once; and a non-empty jar is what
    [buildHeaders] sends as [cookie], whatever the extra headers say. *)
Theorem cookie_jar_is_kept_or_replaced
    (cookieJar : option string) (setCookieHeader : option (list string)) :
  let updated := VendureClient.updateCookies cookieJar setCookieHeader in
  (updated = cookieJar
   \/ forall other, VendureClient.updateCookies other setCookieHeader = updated)
  /\ (truthy cookieJar = true -> truthy updated = true)
  /\ VendureClient.updateCookies updated setCookieHeader = updated
  /\ (forall extra,
        truthy updated = true ->
        VendureClient.buildHeaders updated extra !! "cookie" = updated).
Proof.
  cbn zeta. unfold VendureClient.updateCookies.
  destruct setCookieHeader as [entries |].
  2:{ repeat split; auto. intros extra Hjar. unfold VendureClient.buildHeaders.
      rewrite Hjar, lookup_insert. destruct cookieJar; [reflexivity | discriminate]. }
  destruct (length entries =? 0)%nat.
  { repeat split; auto. intros extra Hjar. unfold VendureClient.buildHeaders.
    rewrite Hjar, lookup_insert. destruct cookieJar; [reflexivity | discriminate]. }
  pose proof (filter_truthy_all (map (before_first ";") entries)) as Hall.
  destruct (List.filter truthy_str (map (before_first ";") entries)) as [| cookie rest] eqn:Hcookies.
  { cbn. repeat split; auto. intros extra Hjar. unfold VendureClient.buildHeaders.
    rewrite Hjar, lookup_insert. destruct cookieJar; [reflexivity | discriminate]. }
  cbn [length Nat.ltb Nat.leb].
  assert (Hnew : truthy (Some (join "; " (cookie :: rest))) = true)
    by (apply join_truthy; [discriminate | exact Hall]).
  split; [now right |]. split; [now intros _ |]. split; [reflexivity |].
  intros extra _. unfold VendureClient.buildHeaders. rewrite Hnew. now rewrite lookup_insert.
Qed.

Lemma strip_trailing_slash_app (b : string) : strip_trailing_slash (b +:+ "/") = b.
Proof.
  induction b as [| c r IH]; [reflexivity |].
  destruct r as [| d r]; [reflexivity |].
  change (String c (String d r) +:+ "/") with (String c (String d r +:+ "/")).
  change (String d r +:+ "/") with (String d (r +:+ "/")) in *.
  cbn [strip_trailing_slash] in *. now rewrite IH.
Qed.

(** The base address of the Printify client is never empty: a missing or
    empty [baseUrl], or one that is a single slash, gives the public API
    address.  One slash at the end of a [baseUrl] is dropped, so that the
    address [createOrder] posts to is the same with and without it. *)
Theorem printify_base_url_normalised (options : PrintifyClient.Options) :
  PrintifyClient.baseUrl options <> ""
  /\ (PrintifyClient.opt_baseUrl options = None
      \/ PrintifyClient.opt_baseUrl options = Some ""
      \/ PrintifyClient.opt_baseUrl options = Some "/" ->
      PrintifyClient.baseUrl options = "https://api.printify.com/v1")
  /\ (forall b,
        b <> "" ->
        PrintifyClient.opt_baseUrl options = Some (b +:+ "/") ->
        PrintifyClient.orders_url options
        = b +:+ "/shops/" +:+ PrintifyClient.opt_shopId options +:+ "/orders.json").
Proof.
  unfold PrintifyClient.orders_url, PrintifyClient.baseUrl, or_else. split; [| split].
  - destruct (option_map _ _) as [base |]; [| discriminate].
    destruct base; cbn [truthy_str]; discriminate.
  - intros [-> | [-> | ->]]; reflexivity.
  - intros b Hb ->. cbn [option_map]. rewrite strip_trailing_slash_app.
    destruct b; [contradiction | reflexivity].
Qed.
